(** * Order placement of ecommerce_fastapi (main.py, [create_order])

    A shallow embedding of the POST /api/orders handler together with the
    part of the MySQL connection it talks to: cursors, transactions with
    commit and rollback, the locked product read, the conditional stock
    update and the two inserts.  Python exceptions are an explicit result
    type, the connection is threaded as state, every call to the driver may
    raise, and every statement sent to the server is appended to a trace so
    that the order of statements can be stated. *)

From Stdlib Require Import ZArith String Ascii List Floats Sorted.
From stdpp Require Import gmap strings list pretty sorting.

Local Open Scope string_scope.
Local Open Scope list_scope.
Local Open Scope Z_scope.

(** ** Python values *)

(** The [price] column is declared in the database schema, which is not part
    of main.py; the handler only applies [float()] to the value the cursor
    returns.  The column's Python type and that conversion are a parameter
    of the development. *)
Class PriceColumn := {
  decimal : Type;
  float_of_decimal : decimal -> float
}.

(** [float * int]: Python converts the int to the nearest binary64 value and
    raises OverflowError when that value is not finite. *)
Definition int_to_float (n : Z) : option float :=
  match SpecFloat.binary_normalize FloatOps.prec FloatOps.emax n 0 false with
  | SpecFloat.S754_infinity _ => None
  | sf => Some (FloatOps.SF2Prim sf)
  end.

(** [str(n)] for an int. *)
Definition str_int (n : Z) : string := pretty n.

(** The fields of a [datetime] value. *)
Record datetime := mk_datetime {
  year : N; month : N; day : N;
  hour : N; minute : N; second : N;
  microsecond : N
}.

(** The ranges [datetime] keeps its fields in, for a year of four digits
    (as every clock reading has). *)
Definition datetime_valid (t : datetime) : Prop :=
  (1000 <= year t <= 9999)%N /\ (1 <= month t <= 12)%N /\ (1 <= day t <= 31)%N /\
  (hour t < 24)%N /\ (minute t < 60)%N /\ (second t < 60)%N /\
  (microsecond t < 1000000)%N.

(** The reading of the clock to the second. *)
Definition to_the_second (t : datetime) : N * N * N * N * N * N :=
  (year t, month t, day t, hour t, minute t, second t).

(** Two-digit, zero-padded field as [%m], [%d], [%H], [%M] and [%S] print it. *)
Definition pad2 (n : N) : string :=
  if (n <? 10)%N then "0" +:+ pretty n else pretty n.

(** [strftime('%Y%m%d%H%M%S')].  The year is printed as it is, which is four
    digits for every year a clock shows from 1000 on; the microseconds are
    not printed. *)
Definition strftime_compact (t : datetime) : string :=
  pretty (year t) +:+ pad2 (month t) +:+ pad2 (day t) +:+
  pad2 (hour t) +:+ pad2 (minute t) +:+ pad2 (second t).

(** [strftime('%Y-%m-%d %H:%M:%S')] *)
Definition strftime_sql (t : datetime) : string :=
  pretty (year t) +:+ "-" +:+ pad2 (month t) +:+ "-" +:+ pad2 (day t) +:+ " " +:+
  pad2 (hour t) +:+ ":" +:+ pad2 (minute t) +:+ ":" +:+ pad2 (second t).

(** [bytes.hex()]: two lower-case hexadecimal digits per byte. *)
Definition hex_digit (n : N) : ascii :=
  match n with
  | 0 => "0" | 1 => "1" | 2 => "2" | 3 => "3" | 4 => "4" | 5 => "5"
  | 6 => "6" | 7 => "7" | 8 => "8" | 9 => "9" | 10 => "a" | 11 => "b"
  | 12 => "c" | 13 => "d" | 14 => "e" | _ => "f"
  end%N%char.

Fixpoint hex (bs : list Byte.byte) : string :=
  match bs with
  | [] => ""
  | b :: bs' =>
      String (hex_digit (Byte.to_N b / 16))
        (String (hex_digit (Byte.to_N b mod 16)) (hex bs'))
  end.

(** [os.urandom(n)]: the next [n] bytes of the entropy source of the
    operating system, given as the stream of the bytes it delivers. *)
Definition urandom (n : nat) (entropy : nat -> Byte.byte) : list Byte.byte :=
  map entropy (seq 0 n).

(** ** Request models (pydantic) *)

Record OrderItemRequest := mk_item_request {
  product_id : Z;
  quantity : Z
}.

Record CreateOrderRequest := mk_order_request {
  user_id : Z;
  items : list OrderItemRequest
}.

(** [Field(..., gt=0)] on both fields of an item. *)
Definition OrderItemRequest_valid (i : OrderItemRequest) : bool :=
  (0 <? product_id i) && (0 <? quantity i).

(** [user_id: Field(..., gt=0)], [items: Field(..., min_items=1)], and every
    item validated by its own model. *)
Definition CreateOrderRequest_valid (r : CreateOrderRequest) : bool :=
  (0 <? user_id r) && (1 <=? length (items r))%nat &&
  forallb OrderItemRequest_valid (items r).

(** ** Exceptions *)

Inductive exn :=
| HTTPException (status_code : Z) (detail : string)
| Error (msg : string)        (* mysql.connector.Error *)
| Exception (msg : string).   (* any other Python exception *)

(** [str(e)] as the f-strings of the handlers print it. *)
Definition str_exn (e : exn) : string :=
  match e with
  | HTTPException _ d => d
  | Error m => m
  | Exception m => m
  end.

Inductive result (A : Type) :=
| Ok (a : A)
| Raise (e : exn).
Arguments Ok {A} a.
Arguments Raise {A} e.

Definition HTTP_400_BAD_REQUEST : Z := 400.
Definition HTTP_404_NOT_FOUND : Z := 404.
Definition HTTP_500_INTERNAL_SERVER_ERROR : Z := 500.

(** The [detail] strings of the handler, one definition per f-string. *)
Definition detail_no_order_id : string := "無法創建訂單".
Definition detail_not_found (product_id : Z) : string :=
  "產品 ID " +:+ str_int product_id +:+ " 不存在".
Definition detail_deleted (product_id : Z) : string :=
  "產品 ID " +:+ str_int product_id +:+ " 已停用或刪除".
Definition detail_insufficient (product_id product_stock quantity : Z) : string :=
  "產品 ID " +:+ str_int product_id +:+ " 庫存不足。可用: " +:+
  str_int product_stock +:+ ", 需求: " +:+ str_int quantity.
Definition detail_update_failed (product_id : Z) : string :=
  "產品 ID " +:+ str_int product_id +:+ " 庫存更新失敗，可能庫存不足或並發問題".
Definition detail_db_error (e : exn) : string :=
  "伺服器錯誤: 無法創建訂單。詳細錯誤: " +:+ str_exn e.
Definition detail_unexpected (e : exn) : string :=
  "伺服器錯誤: " +:+ str_exn e.

(** ** The database *)

Section Placement.
Context `{PriceColumn}.

Record product := mk_product {
  name : string;
  price : decimal;
  stock : Z;
  is_deleted : bool;
  product_updated_at : string
}.

Record order := mk_order {
  order_user_id : Z;
  number : string;
  status : string;
  total_amount : float;
  created_at : string;
  updated_at : string
}.

Record order_item := mk_order_item {
  item_order_id : Z;
  item_product_id : Z;
  item_quantity : Z;
  unit_price : float;
  subtotal : float;
  item_created_at : string;
  item_updated_at : string
}.

(** The three tables the handler touches.  [products] and [orders] are keyed
    by their primary key [id]; [order_items] keeps its rows in insertion
    order. *)
Record tables := mk_tables {
  products : gmap Z product;
  orders : gmap Z order;
  order_items : list order_item
}.

(** Statements and transaction commands, as sent to the server. *)
Inductive stmt :=
| StartTransaction
| Commit
| Rollback
| InsertOrder (user_id : Z) (number created_at updated_at : string)
| SelectProductForUpdate (product_id : Z)
| UpdateProductStock (quantity : Z) (updated_at : string) (product_id : Z)
| InsertOrderItem (row : order_item)
| UpdateOrderTotal (total_amount : float) (order_id : Z).

(** What the driver may raise instead of executing a statement. *)
Inductive fault :=
| DriverError (msg : string)   (* a mysql.connector.Error *)
| Unexpected (msg : string).   (* anything else *)

Definition exn_of_fault (f : fault) : exn :=
  match f with
  | DriverError m => Error m
  | Unexpected m => Exception m
  end.

(** The connection: the committed tables, the working copy of the open
    transaction if there is one, the AUTO_INCREMENT counter of [orders]
    (which the server does not roll back), the script of driver faults for
    the calls to come ([None]: the call goes through), and the trace of
    statements sent so far. *)
Record MySQLConnection := mk_conn {
  committed : tables;
  in_transaction : option tables;
  next_order_id : Z;
  faults : list (option fault);
  trace : list stmt
}.

(** What the connection reads: its own uncommitted writes when a
    transaction is open, the committed tables otherwise. *)
Definition view (c : MySQLConnection) : tables :=
  default (committed c) (in_transaction c).

(** ** State and exception monad *)

Definition M (A : Type) : Type := MySQLConnection -> result A * MySQLConnection.

Definition ret {A} (a : A) : M A := fun c => (Ok a, c).

Definition raise {A} (e : exn) : M A := fun c => (Raise e, c).

Definition bind {A B} (m : M A) (k : A -> M B) : M B :=
  fun c =>
    match m c with
    | (Ok a, c') => k a c'
    | (Raise e, c') => (Raise e, c')
    end.

(** [try: m  except ... as e: h e] *)
Definition try_except {A} (m : M A) (h : exn -> M A) : M A :=
  fun c =>
    match m c with
    | (Ok a, c') => (Ok a, c')
    | (Raise e, c') => h e c'
    end.

Notation "x <- m ;; k" := (bind m (fun x => k))
  (at level 100, m at next level, right associativity, only parsing).
Notation "m ;;; k" := (bind m (fun _ => k))
  (at level 100, right associativity, only parsing).

(** ** The connection's operations *)

Definition set_in_transaction (w : option tables) (c : MySQLConnection) : MySQLConnection :=
  mk_conn (committed c) w (next_order_id c) (faults c) (trace c).

Definition log (s : stmt) (c : MySQLConnection) : MySQLConnection :=
  mk_conn (committed c) (in_transaction c) (next_order_id c) (faults c) (trace c ++ [s]).

(** Every call that reaches the server is logged and then consults the fault
    script: the driver either raises or lets the call through. *)
Definition send (s : stmt) : M unit :=
  fun c =>
    let c1 := log s c in
    match faults c1 with
    | [] => (Ok tt, c1)
    | None :: fs =>
        (Ok tt, mk_conn (committed c1) (in_transaction c1) (next_order_id c1) fs (trace c1))
    | Some f :: fs =>
        (Raise (exn_of_fault f),
         mk_conn (committed c1) (in_transaction c1) (next_order_id c1) fs (trace c1))
    end.

(** A write goes to the working copy of the transaction (opened implicitly
    when there is none, as the connection runs with autocommit off). *)
Definition write (t : tables) : M unit :=
  fun c => (Ok tt, set_in_transaction (Some t) c).

Definition read : M tables := fun c => (Ok (view c), c).

(** [db.start_transaction()]: refused by the connector when a transaction is
    already in progress. *)
Definition start_transaction : M unit :=
  fun c =>
    match in_transaction c with
    | Some _ => (Raise (Error "Transaction already in progress"), c)
    | None => (send StartTransaction ;;; write (committed c)) c
    end.

(** [db.commit()]: the working copy becomes the committed state. *)
Definition commit : M unit :=
  send Commit ;;;
  fun c => (Ok tt, mk_conn (view c) None (next_order_id c) (faults c) (trace c)).

(** [db.rollback()]: a call to the server like any other; when it goes
    through, the working copy is dropped. *)
Definition rollback : M unit :=
  send Rollback ;;;
  fun c => (Ok tt, set_in_transaction None c).

(** A call to the driver that is not recorded in the trace: the driver raises
    or lets it through, as the fault script says. *)
Definition driver_call : M unit :=
  fun c =>
    match faults c with
    | [] => (Ok tt, c)
    | None :: fs =>
        (Ok tt, mk_conn (committed c) (in_transaction c) (next_order_id c) fs (trace c))
    | Some f :: fs =>
        (Raise (exn_of_fault f),
         mk_conn (committed c) (in_transaction c) (next_order_id c) fs (trace c))
    end.

(** [db.cursor()]: the connector checks with the server that the connection
    is available before it hands out a cursor, and raises when it is not.
    ([cursor.close()] in the [finally] clauses releases the cursor locally
    and sends nothing.) *)
Definition cursor : M unit := driver_call.

(** Modelled from the spec: the schema of [orders] is not part of main.py, and
    the INSERT names no [total_amount]; the column default is the zero total
    amount the specification gives a freshly inserted order. *)
Definition total_amount_default : float := 0%float.

(** [INSERT INTO orders (user_id, number, status, created_at, updated_at)
     VALUES (%s, %s, 'pending', %s, %s)] followed by [cursor.lastrowid].
    The row takes the next AUTO_INCREMENT value as its id; a taken primary
    key is refused. *)
Definition execute_insert_order (user_id : Z) (order_number current_time : string) : M Z :=
  send (InsertOrder user_id order_number current_time current_time) ;;;
  t <- read ;;
  fun c =>
    let id := next_order_id c in
    match orders t !! id with
    | Some _ => (Raise (Error ("Duplicate entry '" +:+ str_int id +:+ "' for key 'PRIMARY'")), c)
    | None =>
        let row := mk_order user_id order_number "pending" total_amount_default
                     current_time current_time in
        (Ok id,
         mk_conn (committed c)
           (Some (mk_tables (products t) (<[id := row]> (orders t)) (order_items t)))
           (id + 1) (faults c) (trace c))
    end.

(** [SELECT stock, price, is_deleted FROM products WHERE id = %s FOR UPDATE]
    followed by [cursor.fetchone()]. *)
Definition execute_select_product (product_id : Z) : M (option (Z * decimal * bool)) :=
  send (SelectProductForUpdate product_id) ;;;
  t <- read ;;
  ret ((fun p => (stock p, price p, is_deleted p)) <$> products t !! product_id).

(** [UPDATE products SET stock = stock - %s, updated_at = %s
     WHERE id = %s AND stock >= %s] followed by [cursor.rowcount], the
    number of rows the WHERE clause matched (a matched row is also a changed
    row for every positive quantity). *)
Definition execute_update_stock (quantity : Z) (current_time : string) (product_id : Z) : M Z :=
  send (UpdateProductStock quantity current_time product_id) ;;;
  t <- read ;;
  match products t !! product_id with
  | Some p =>
      if quantity <=? stock p then
        write (mk_tables
                 (<[product_id :=
                      mk_product (name p) (price p) (stock p - quantity)
                        (is_deleted p) current_time]> (products t))
                 (orders t) (order_items t)) ;;;
        ret 1
      else ret 0
  | None => ret 0
  end.

(** [INSERT INTO order_items (order_id, product_id, quantity, unit_price,
     subtotal, created_at, updated_at) VALUES (...)] *)
Definition execute_insert_order_item (row : order_item) : M unit :=
  send (InsertOrderItem row) ;;;
  t <- read ;;
  write (mk_tables (products t) (orders t) (order_items t ++ [row])).

(** [UPDATE orders SET total_amount = %s WHERE id = %s] *)
Definition execute_update_total (total : float) (order_id : Z) : M unit :=
  send (UpdateOrderTotal total order_id) ;;;
  t <- read ;;
  match orders t !! order_id with
  | Some o =>
      write (mk_tables (products t)
               (<[order_id :=
                    mk_order (order_user_id o) (number o) (status o) total
                      (created_at o) (updated_at o)]> (orders t))
               (order_items t))
  | None => ret tt
  end.

(** ** The handler *)

(** [f"ORD{datetime.now().strftime('%Y%m%d%H%M%S')}{os.urandom(2).hex()}"];
    [now] is the clock reading and [rnd] the entropy source [os.urandom]
    draws from. *)
Definition order_number (now : datetime) (rnd : nat -> Byte.byte) : string :=
  "ORD" +:+ strftime_compact now +:+ hex (urandom 2 rnd).

(** [unit_price * quantity] *)
Definition float_mul_int (x : float) (n : Z) : M float :=
  match int_to_float n with
  | Some y => ret (x * y)%float
  | None => raise (Exception "int too large to convert to float")
  end.

(** The statements of the [try] block up to the loop: the transaction is
    started and the order row inserted; the result is [order_id]. *)
Definition open_order (user_id : Z) (order_number current_time : string) : M Z :=
  start_transaction ;;;
  order_id <- execute_insert_order user_id order_number current_time ;;
  if order_id =? 0 then
    raise (HTTPException HTTP_500_INTERNAL_SERVER_ERROR detail_no_order_id)
  else ret order_id.

(** The three [except] clauses, tried in the order they are written.  An
    exception raised inside a clause, by [db.rollback()], leaves the
    handler. *)
Definition create_order_except (e : exn) : M (Z * string) :=
  match e with
  | HTTPException _ _ => rollback ;;; raise e
  | Error _ =>
      rollback ;;;
      raise (HTTPException HTTP_500_INTERNAL_SERVER_ERROR (detail_db_error e))
  | Exception _ =>
      rollback ;;;
      raise (HTTPException HTTP_500_INTERNAL_SERVER_ERROR (detail_unexpected e))
  end.

(** What the server answers to the conditional UPDATE of a line, the row
    count the handler then reads, is the server's affair: it depends on what
    other sessions did to the row.  The handler is written once, for any
    answer [update_stock]; [execute_update_stock] above is the answer of a
    server on which no other session touches the products. *)
Section Server.
Variable update_stock : Z -> string -> Z -> M Z.

(** The stock update of one line and the test of its row count. *)
Definition decrement_stock_on (product_id quantity : Z) (current_time : string) : M unit :=
  rowcount <- update_stock quantity current_time product_id ;;
  if rowcount =? 0 then
    rollback ;;;
    raise (HTTPException HTTP_400_BAD_REQUEST (detail_update_failed product_id))
  else ret tt.

(** The body of [for item in order_data.items]; it returns the new value of
    [total_amount]. *)
Definition place_line_on (order_id : Z) (current_time : string)
    (total_amount : float) (item : OrderItemRequest) : M float :=
  let product_id := product_id item in
  let quantity := quantity item in
  product <- execute_select_product product_id ;;
  match product with
  | None =>
      raise (HTTPException HTTP_404_NOT_FOUND (detail_not_found product_id))
  | Some (product_stock, product_price, is_deleted) =>
      if is_deleted : bool then
        raise (HTTPException HTTP_400_BAD_REQUEST (detail_deleted product_id))
      else if product_stock <? quantity then
        raise (HTTPException HTTP_400_BAD_REQUEST
                 (detail_insufficient product_id product_stock quantity))
      else
        let unit_price := float_of_decimal product_price in
        subtotal <- float_mul_int unit_price quantity ;;
        let total_amount := (total_amount + subtotal)%float in
        decrement_stock_on product_id quantity current_time ;;;
        execute_insert_order_item
          (mk_order_item order_id product_id quantity unit_price subtotal
             current_time current_time) ;;;
        ret total_amount
  end.

(** The [for] loop over the request's items, in list order. *)
Fixpoint place_lines_on (order_id : Z) (current_time : string)
    (total_amount : float) (items : list OrderItemRequest) : M float :=
  match items with
  | [] => ret total_amount
  | item :: rest =>
      total_amount <- place_line_on order_id current_time total_amount item ;;
      place_lines_on order_id current_time total_amount rest
  end.

(** The [try] block.  [now1] and [now2] are the two readings of
    [datetime.now()], [rnd] the entropy source of [os.urandom(2)]. *)
Definition create_order_try_on (order_data : CreateOrderRequest)
    (now1 now2 : datetime) (rnd : nat -> Byte.byte) : M (Z * string) :=
  let user_id := user_id order_data in
  let order_number := order_number now1 rnd in
  let current_time := strftime_sql now2 in
  order_id <- open_order user_id order_number current_time ;;
  total_amount <- place_lines_on order_id current_time 0%float (items order_data) ;;
  execute_update_total total_amount order_id ;;;
  commit ;;;
  ret (order_id, order_number).

(** The handler: the cursor is taken before the [try]. *)
Definition create_order_on (order_data : CreateOrderRequest)
    (now1 now2 : datetime) (rnd : nat -> Byte.byte) : M (Z * string) :=
  cursor ;;;
  try_except (create_order_try_on order_data now1 now2 rnd) create_order_except.

End Server.

(** The handler and its parts on the server of this development. *)
Definition decrement_stock : Z -> Z -> string -> M unit :=
  decrement_stock_on execute_update_stock.

Definition place_line : Z -> string -> float -> OrderItemRequest -> M float :=
  place_line_on execute_update_stock.

Definition place_lines : Z -> string -> float -> list OrderItemRequest -> M float :=
  place_lines_on execute_update_stock.

Definition create_order_try :
    CreateOrderRequest -> datetime -> datetime -> (nat -> Byte.byte) -> M (Z * string) :=
  create_order_try_on execute_update_stock.

Definition create_order :
    CreateOrderRequest -> datetime -> datetime -> (nat -> Byte.byte) -> M (Z * string) :=
  create_order_on execute_update_stock.

(** A server on which another session takes the stock of product [taken]
    between the locked read and the conditional UPDATE, as a table without
    row locks allows: the UPDATE of that product then matches no row. *)
Definition racing_update_stock (taken : Z)
    (quantity : Z) (current_time : string) (product_id : Z) : M Z :=
  if bool_decide (product_id = taken) then
    send (UpdateProductStock quantity current_time product_id) ;;; ret 0
  else execute_update_stock quantity current_time product_id.

(** The route: FastAPI validates the body against [CreateOrderRequest] and
    calls the handler only with a valid one; an invalid body is answered
    with 422 without the handler running. *)
Inductive route_outcome :=
| Unprocessable
| Handled (r : result (Z * string)).

Definition post_api_orders (body : CreateOrderRequest)
    (now1 now2 : datetime) (rnd : nat -> Byte.byte)
    (db : MySQLConnection) : route_outcome * MySQLConnection :=
  if CreateOrderRequest_valid body then
    let (r, db') := create_order body now1 now2 rnd db in (Handled r, db')
  else (Unprocessable, db).

(** ** Vocabulary of the statements proved below *)

(** What a line that goes through does to the tables the transaction sees:
    the order-line row it inserts and the tables afterwards. *)
Definition line_effect (order_id : Z) (current_time : string)
    (item : OrderItemRequest) (t : tables) : option (order_item * tables) :=
  match products t !! product_id item with
  | Some p =>
      if is_deleted p then None
      else if stock p <? quantity item then None
      else
        match int_to_float (quantity item) with
        | Some y =>
            let row :=
              mk_order_item order_id (product_id item) (quantity item)
                (float_of_decimal (price p)) (float_of_decimal (price p) * y)%float
                current_time current_time in
            Some (row,
                  mk_tables
                    (<[product_id item :=
                         mk_product (name p) (price p) (stock p - quantity item)
                           (is_deleted p) current_time]> (products t))
                    (orders t) (order_items t ++ [row]))
        | None => None
        end
  | None => None
  end.

Fixpoint lines_effect (order_id : Z) (current_time : string)
    (items : list OrderItemRequest) (t : tables) : option (list order_item * tables) :=
  match items with
  | [] => Some ([], t)
  | item :: rest =>
      match line_effect order_id current_time item t with
      | Some (row, t1) =>
          match lines_effect order_id current_time rest t1 with
          | Some (rows, t2) => Some (row :: rows, t2)
          | None => None
          end
      | None => None
      end
  end.

(** The three statements of a line that goes through. *)
Definition line_stmts (row : order_item) : list stmt :=
  [SelectProductForUpdate (item_product_id row);
   UpdateProductStock (item_quantity row) (item_created_at row) (item_product_id row);
   InsertOrderItem row].

(** [total_amount = 0.0] followed by [total_amount += x] for each [x]. *)
Definition float_sum (xs : list float) : float :=
  fold_left (fun acc x => (acc + x)%float) xs 0%float.

(** Total quantity a request asks of one product, over all its lines. *)
Fixpoint requested (pid : Z) (items : list OrderItemRequest) : Z :=
  match items with
  | [] => 0
  | item :: rest =>
      (if decide (product_id item = pid) then quantity item else 0) + requested pid rest
  end.

(** The products whose rows were read with FOR UPDATE, in the order read. *)
Definition locks_of (tr : list stmt) : list Z :=
  omap (fun s => match s with SelectProductForUpdate p => Some p | _ => None end) tr.

(** [touches c sts c'] : between [c] and [c'] the committed tables did not
    change and exactly the statements [sts] were sent. *)
Definition touches (c : MySQLConnection) (sts : list stmt) (c' : MySQLConnection) : Prop :=
  committed c' = committed c /\ trace c' = trace c ++ sts.

(** [untouched c c'] : nothing was written, committed, rolled back or
    recorded between [c] and [c']; only the fault script may have advanced. *)
Definition untouched (c c' : MySQLConnection) : Prop :=
  committed c' = committed c /\ in_transaction c' = in_transaction c /\
  next_order_id c' = next_order_id c /\ trace c' = trace c.

(** The driver lets the next [n] calls through. *)
Definition calls_through (n : nat) (c : MySQLConnection) : Prop :=
  Forall (fun f => f = None) (take n (faults c)).

(** [keeps_committed m] : whatever [m] does and answers, it commits nothing. *)
Definition keeps_committed {A} (m : M A) : Prop :=
  forall c r c', m c = (r, c') -> committed c' = committed c.

(** [row_of_line oid ct t item row] : [row] is the order-line row of [item]
    for order [oid], priced from the product row of tables [t]. *)
Definition row_of_line (oid : Z) (ct : string) (t : tables)
    (item : OrderItemRequest) (row : order_item) : Prop :=
  exists p y,
    products t !! product_id item = Some p /\
    int_to_float (quantity item) = Some y /\
    row = mk_order_item oid (product_id item) (quantity item)
            (float_of_decimal (price p)) (float_of_decimal (price p) * y)%float
            ct ct.

End Placement.

(** ** A concrete schema to run the model on: [price] read as a double. *)
#[export] Instance double_price : PriceColumn :=
  {| decimal := float; float_of_decimal := fun x => x |}.

Module Demo.

Definition P : product := mk_product "P" 10%float 5 false "2024-01-01 00:00:00".
Definition Q : product := mk_product "Q" 2.5%float 7 false "2024-01-01 00:00:00".
Definition Gone : product := mk_product "Gone" 1%float 9 true "2024-01-01 00:00:00".

Definition store : tables :=
  mk_tables (<[1 := P]> (<[2 := Q]> (<[3 := Gone]> ∅))) ∅ [].

(** A fresh connection on [store] with a given script of driver faults. *)
Definition db (fs : list (option fault)) : MySQLConnection :=
  mk_conn store None 1 fs [].

(** The same on a table whose insert reports no generated id. *)
Definition db_no_id : MySQLConnection := mk_conn store None 0 [] [].

Definition now : datetime := mk_datetime 2024 3 9 14 5 7 123456.
Definition rnd : nat -> Byte.byte :=
  fun i => match i with 0%nat => Byte.xa3 | _ => Byte.x0f end.

(** One line: three of product 1. *)
Definition one_line : CreateOrderRequest :=
  mk_order_request 7 [mk_item_request 1 3].

(** Two lines of the same product: two and then three of product 1. *)
Definition twice : CreateOrderRequest :=
  mk_order_request 7 [mk_item_request 1 2; mk_item_request 1 3].

(** Product 2 before product 1. *)
Definition descending : CreateOrderRequest :=
  mk_order_request 7 [mk_item_request 2 1; mk_item_request 1 1].

(** A good line followed by a product that does not exist. *)
Definition second_line_unknown : CreateOrderRequest :=
  mk_order_request 7 [mk_item_request 1 3; mk_item_request 9 1].

(** No line at all. *)
Definition empty : CreateOrderRequest := mk_order_request 7 [].


Definition run (od : CreateOrderRequest) (c : MySQLConnection) :
    result (Z * string) * MySQLConnection :=
  create_order od now now rnd c.

End Demo.

(** * The listing, detail and status endpoints *)

(** ** Python arithmetic of the page count *)

(** An int as an exact, unnormalised binary float. *)
Definition SF_of_int (n : Z) : SpecFloat.spec_float :=
  match n with
  | 0 => SpecFloat.S754_zero false
  | Z.pos p => SpecFloat.S754_finite false p 0
  | Z.neg p => SpecFloat.S754_finite true p 0
  end.

(** [a / b] on ints: the quotient rounded once to binary64; ZeroDivisionError
    for [b = 0] and OverflowError when the rounded quotient is not finite. *)
Definition int_true_div (a b : Z) : result SpecFloat.spec_float :=
  if b =? 0 then Raise (Exception "division by zero")
  else
    match SpecFloat.SFdiv FloatOps.prec FloatOps.emax (SF_of_int a) (SF_of_int b) with
    | SpecFloat.S754_infinity _ =>
        Raise (Exception "integer division result too large for a float")
    | q => Ok q
    end.

(** [math.ceil(x)] of a float, an exact int. *)
Definition math_ceil (x : SpecFloat.spec_float) : result Z :=
  match x with
  | SpecFloat.S754_zero _ => Ok 0
  | SpecFloat.S754_finite s m e =>
      let n := if s then Z.neg m else Z.pos m in
      Ok (if 0 <=? e then n * 2 ^ e else - ((- n) / 2 ^ (- e)))
  | SpecFloat.S754_infinity _ => Raise (Exception "cannot convert float infinity to integer")
  | SpecFloat.S754_nan => Raise (Exception "cannot convert float NaN to integer")
  end.

(** [ceil(total_items / limit) if total_items > 0 else 0] *)
Definition page_count (total_items limit : Z) : result Z :=
  if 0 <? total_items then
    match int_true_div total_items limit with
    | Ok q => math_ceil q
    | Raise e => Raise e
    end
  else Ok 0.

(** ** Request and response models *)

(** [pattern="^(pending|processing|shipped|delivered|cancelled)$"]: the
    strings the pattern matches. *)
Definition order_statuses : list string :=
  ["pending"; "processing"; "shipped"; "delivered"; "cancelled"].

Definition UpdateOrderStatusRequest_valid (status : string) : bool :=
  bool_decide (status ∈ order_statuses).

Record OrderResponse := mk_order_response {
  resp_id : Z;
  resp_user_id : Z;
  resp_number : string;
  resp_status : string;
  resp_total_amount : float;
  resp_created_at : string
}.

Record OrderListResponse := mk_order_list {
  orders_data : list OrderResponse;
  orders_page : Z;
  orders_total_pages : Z;
  orders_total_items : Z
}.

Record ProductResponse := mk_product_response {
  presp_id : Z;
  presp_name : string;
  presp_price : float;
  presp_stock : Z
}.

Record ProductListResponse := mk_product_list {
  products_data : list ProductResponse;
  products_page : Z;
  products_total_pages : Z;
  products_total_items : Z
}.

Definition detail_limit : string := "限制必須是正整數。".
Definition detail_page : string := "頁碼必須是正整數。".
Definition detail_orders_failed : string := "伺服器錯誤: 無法獲取訂單列表".
Definition detail_order_missing : string := "訂單不存在".
Definition detail_order_failed : string := "伺服器錯誤: 無法獲取訂單詳情".
Definition detail_status_unchanged : string := "訂單不存在或狀態已是目標狀態".
Definition detail_status_failed : string := "伺服器錯誤: 無法更新訂單狀態".
Definition detail_products_failed : string := "伺服器錯誤: 無法獲取產品列表".
Definition message_status_updated : string := "訂單狀態更新成功".

Section Endpoints.
Context `{PriceColumn}.

(** The order in which the server returns the rows of a SELECT without
    ORDER BY is its own choice; all that is known is that the rows are those
    of the table. *)
Class TableScan := {
  scan_orders : gmap Z order -> list (Z * order);
  scan_orders_rows : forall m, scan_orders m ≡ₚ map_to_list m;
  scan_products : gmap Z product -> list (Z * product);
  scan_products_rows : forall m, scan_products m ≡ₚ map_to_list m
}.

Context `{TableScan}.

Notation "x <- m ;; k" := (bind m (fun x => k))
  (at level 100, m at next level, right associativity, only parsing).
Notation "m ;;; k" := (bind m (fun _ => k))
  (at level 100, right associativity, only parsing).

(** The statements of these endpoints reach the server through
    [driver_call]: the trace records the statements of the placement and the
    transaction commands only. *)

Definition lift {A} (r : result A) : M A :=
  match r with
  | Ok a => ret a
  | Raise e => raise e
  end.

(** [except Error as e: raise HTTPException(500, detail)]; any other
    exception passes through. *)
Definition except_Error {A} (detail : string) (e : exn) : M A :=
  match e with
  | Error _ => raise (HTTPException HTTP_500_INTERNAL_SERVER_ERROR detail)
  | _ => raise e
  end.

(** The row dictionaries of the order queries, through [OrderResponse]. *)
Definition order_response (row : Z * order) : OrderResponse :=
  mk_order_response row.1 (order_user_id row.2) (number row.2) (status row.2)
    (total_amount row.2) (created_at row.2).

(** The row dictionaries of the product query, through [ProductResponse]. *)
Definition product_response (row : Z * product) : ProductResponse :=
  mk_product_response row.1 (name row.2) (float_of_decimal (price row.2)) (stock row.2).

(** [... LIMIT %s OFFSET %s] *)
Definition limit_offset {A} (limit offset : Z) (rows : list A) : list A :=
  take (Z.to_nat limit) (drop (Z.to_nat offset) rows).

(** GET /api/orders *)
Definition get_orders (page limit : Z) : M OrderListResponse :=
  if limit <=? 0 then raise (HTTPException HTTP_400_BAD_REQUEST detail_limit)
  else if page <=? 0 then raise (HTTPException HTTP_400_BAD_REQUEST detail_page)
  else
    let offset := (page - 1) * limit in
    cursor ;;;
    try_except
      (driver_call ;;;
       t <- read ;;
       let total_items := Z.of_nat (size (orders t)) in
       total_pages <- lift (page_count total_items limit) ;;
       driver_call ;;;
       t <- read ;;
       let orders := limit_offset limit offset (scan_orders (orders t)) in
       ret (mk_order_list (order_response <$> orders) page total_pages total_items))
      (except_Error detail_orders_failed).

(** GET /api/orders/{order_id} *)
Definition get_order_details (order_id : Z) : M OrderResponse :=
  cursor ;;;
  try_except
    (driver_call ;;;
     t <- read ;;
     match orders t !! order_id with
     | None => raise (HTTPException HTTP_404_NOT_FOUND detail_order_missing)
     | Some o => ret (order_response (order_id, o))
     end)
    (except_Error detail_order_failed).

(** [UPDATE orders SET status = %s, updated_at = %s WHERE id = %s] followed
    by [cursor.rowcount], the number of rows the statement changed: a row
    that already holds both values is matched but not changed. *)
Definition execute_update_status (new_status current_time : string) (order_id : Z) : M Z :=
  driver_call ;;;
  t <- read ;;
  match orders t !! order_id with
  | Some o =>
      if bool_decide (status o = new_status /\ updated_at o = current_time) then ret 0
      else
        write (mk_tables (products t)
                 (<[order_id :=
                      mk_order (order_user_id o) (number o) new_status (total_amount o)
                        (created_at o) current_time]> (orders t))
                 (order_items t)) ;;;
        ret 1
  | None => ret 0
  end.

(** The [try] block of the status update, after [current_time] is taken. *)
Definition update_order_status_try (new_status current_time : string) (order_id : Z) :
    M (bool * string) :=
  rowcount <- execute_update_status new_status current_time order_id ;;
  if rowcount =? 0 then
    raise (HTTPException HTTP_404_NOT_FOUND detail_status_unchanged)
  else
    commit ;;;
    ret (true, message_status_updated).

(** PUT /api/orders/{order_id}/status.  The only [except] clause is the one
    for the driver's Error; the 404 raised inside the [try] and any other
    exception leave without rollback, and so does an exception of
    [db.rollback()] in the clause. *)
Definition update_order_status (order_id : Z) (new_status : string) (now : datetime) :
    M (bool * string) :=
  let current_time := strftime_sql now in
  cursor ;;;
  try_except
    (update_order_status_try new_status current_time order_id)
    (fun e =>
       match e with
       | Error _ =>
           rollback ;;;
           raise (HTTPException HTTP_500_INTERNAL_SERVER_ERROR detail_status_failed)
       | _ => raise e
       end).

(** GET /api/products: the products that are not deleted. *)
Definition active_products (m : gmap Z product) : list (Z * product) :=
  filter (fun row => is_deleted row.2 = false) (scan_products m).

Definition get_products (page limit : Z) : M ProductListResponse :=
  if limit <=? 0 then raise (HTTPException HTTP_400_BAD_REQUEST detail_limit)
  else if page <=? 0 then raise (HTTPException HTTP_400_BAD_REQUEST detail_page)
  else
    let offset := (page - 1) * limit in
    cursor ;;;
    try_except
      (driver_call ;;;
       t <- read ;;
       let total_items := Z.of_nat (length (active_products (products t))) in
       total_pages <- lift (page_count total_items limit) ;;
       driver_call ;;;
       t <- read ;;
       let products := limit_offset limit offset (active_products (products t)) in
       ret (mk_product_list (product_response <$> products) page total_pages total_items))
      (except_Error detail_products_failed).

(** The body of the status route is validated against
    [UpdateOrderStatusRequest] before the handler runs. *)
Inductive route_result (A : Type) :=
| Rejected422
| Answered (r : result A).
Arguments Rejected422 {A}.
Arguments Answered {A} r.

Definition put_api_orders_status (order_id : Z) (new_status : string) (now : datetime)
    (db : MySQLConnection) : route_result (bool * string) * MySQLConnection :=
  if UpdateOrderStatusRequest_valid new_status then
    let (r, db') := update_order_status order_id new_status now db in (Answered r, db')
  else (Rejected422, db).

(** Every order of the tables has one of the five statuses. *)
Definition statuses_valid (t : tables) : Prop :=
  forall id o, orders t !! id = Some o -> status o ∈ order_statuses.

End Endpoints.

(** ** The route table *)

Inductive endpoint :=
| ep_openapi
| ep_swagger_ui
| ep_swagger_ui_redirect
| ep_redoc
| ep_get_orders
| ep_get_order_details
| ep_create_order
| ep_update_order_status
| ep_get_order_stats
| ep_get_products.

(** A path template, one item per segment between slashes. *)
Inductive segment :=
| Lit (s : string)
| Param (name : string).

Record route := mk_route {
  route_methods : list string;
  route_path : list segment;
  route_endpoint : endpoint
}.

(** The routes of the application once main.py is loaded, in the order in
    which they are registered.  [FastAPI(...)] of lines 16 to 20 first
    registers its own four documentation routes under their default paths;
    these are routes of the framework, which answer HEAD as well as GET.
    Then come the six routes of the decorators, each for the one method of
    its decorator. *)
Definition routes : list route :=
  [ mk_route ["GET"; "HEAD"] [Lit "openapi.json"] ep_openapi;
    mk_route ["GET"; "HEAD"] [Lit "docs"] ep_swagger_ui;
    mk_route ["GET"; "HEAD"] [Lit "docs"; Lit "oauth2-redirect"] ep_swagger_ui_redirect;
    mk_route ["GET"; "HEAD"] [Lit "redoc"] ep_redoc;
    mk_route ["GET"] [Lit "api"; Lit "orders"] ep_get_orders;
    mk_route ["GET"] [Lit "api"; Lit "orders"; Param "order_id"] ep_get_order_details;
    mk_route ["POST"] [Lit "api"; Lit "orders"] ep_create_order;
    mk_route ["PUT"] [Lit "api"; Lit "orders"; Param "order_id"; Lit "status"]
      ep_update_order_status;
    mk_route ["GET"] [Lit "api"; Lit "orders"; Lit "stats"] ep_get_order_stats;
    mk_route ["GET"] [Lit "api"; Lit "products"] ep_get_products ].

Definition newline : string := String "010"%char "".

(** A path matches a template as it matches the regular expression the
    router compiles from it, [^/segment/.../segment$]: segment by segment, a
    parameter taking any non-empty segment ([[^/]+]) as a string.  [$] also
    matches before a newline that ends the path, so a last literal segment
    may be followed by one.  The result is the parameters' values. *)
Fixpoint match_path (template : list segment) (path : list string) :
    option (list (string * string)) :=
  match template, path with
  | [], [] => Some []
  | Lit s :: template', x :: path' =>
      if bool_decide (x = s) then match_path template' path'
      else
        match template', path' with
        | [], [] => if bool_decide (x = s +:+ newline) then Some [] else None
        | _, _ => None
        end
  | Param n :: template', x :: path' =>
      if bool_decide (x = "") then None
      else option_map (cons (n, x)) (match_path template' path')
  | _, _ => None
  end.

(** [path.split("/")] *)
Fixpoint split_slash (s : string) : list string :=
  match s with
  | EmptyString => [""]
  | String ch s' =>
      if bool_decide (ch = "/"%char) then "" :: split_slash s'
      else
        match split_slash s' with
        | x :: l => String ch x :: l
        | [] => [String ch ""]
        end
  end.

(** [path.endswith("/")] *)
Fixpoint ends_with_slash (s : string) : bool :=
  match s with
  | EmptyString => false
  | String ch s' =>
      match s' with
      | EmptyString => bool_decide (ch = "/"%char)
      | String _ _ => ends_with_slash s'
      end
  end.

(** [path.rstrip("/")] *)
Fixpoint rstrip_slash (s : string) : string :=
  match s with
  | EmptyString => ""
  | String ch s' =>
      match rstrip_slash s' with
      | EmptyString => if bool_decide (ch = "/"%char) then "" else String ch ""
      | r => String ch r
      end
  end.

(** The characters of a path segment. *)
Fixpoint no_slash (s : string) : bool :=
  match s with
  | EmptyString => true
  | String ch s' => negb (bool_decide (ch = "/"%char)) && no_slash s'
  end.

(** Whether the path of a request matches a route, whatever the method. *)
Definition path_matches (r : route) (path : string) : option (list (string * string)) :=
  match split_slash path with
  | "" :: segments => match_path (route_path r) segments
  | _ => None
  end.

Inductive dispatched :=
| NotFound404
| MethodNotAllowed405
| Redirect307 (location : string)
| Endpoint (e : endpoint) (path_params : list (string * string)).

(** The routes are tried in order: the first whose path and method match
    takes the request; a path that matches only routes of other methods is
    answered 405. *)
Fixpoint first_match (rs : list route) (method path : string) (partial : bool) :
    option dispatched :=
  match rs with
  | [] => if partial then Some MethodNotAllowed405 else None
  | r :: rs' =>
      match path_matches r path with
      | Some params =>
          if bool_decide (method ∈ route_methods r)
          then Some (Endpoint (route_endpoint r) params)
          else first_match rs' method path true
      | None => first_match rs' method path partial
      end
  end.

(** The router.  A path that matches no route is tried again without its
    trailing slashes, or with one added when it has none: when that path
    matches a route the request is redirected to it, otherwise it is
    answered 404.  [method] and [path] are those of the request as the
    server hands them to the application. *)
Definition dispatch (method path : string) : dispatched :=
  match first_match routes method path false with
  | Some d => d
  | None =>
      if bool_decide (path = "/") then NotFound404
      else
        let redirect_path :=
          if ends_with_slash path then rstrip_slash path else path +:+ "/" in
        if existsb (fun r => bool_decide (is_Some (path_matches r redirect_path))) routes
        then Redirect307 redirect_path
        else NotFound404
  end.

(** ** A concrete server for running the endpoints: rows in id order. *)

Definition by_id {A} (x y : Z * A) : Prop := x.1 <= y.1.

#[export] Instance by_id_dec {A} (x y : Z * A) : Decision (by_id x y).
Proof. unfold by_id. apply _. Defined.

#[export] Instance scan_by_id : TableScan :=
  {| scan_orders := fun m => merge_sort by_id (map_to_list m);
     scan_orders_rows := fun m => merge_sort_Permutation by_id (map_to_list m);
     scan_products := fun m => merge_sort by_id (map_to_list m);
     scan_products_rows := fun m => merge_sort_Permutation by_id (map_to_list m) |}.

Module Shop.

Definition o1 : order :=
  mk_order 7 "ORD20240101000000aaaa" "pending" 30%float
    "2024-01-01 00:00:00" "2024-01-01 00:00:00".
Definition o2 : order :=
  mk_order 8 "ORD20240102000000bbbb" "shipped" 5%float
    "2024-01-02 00:00:00" "2024-01-03 00:00:00".
Definition o3 : order :=
  mk_order 7 "ORD20240103000000cccc" "delivered" 12.5%float
    "2024-01-03 00:00:00" "2024-01-04 00:00:00".

(** The products of [Demo.store] and three orders. *)
Definition store : tables :=
  mk_tables (products Demo.store) (<[1 := o1]> (<[2 := o2]> (<[3 := o3]> ∅))) [].

Definition db (fs : list (option fault)) : MySQLConnection :=
  mk_conn store None 4 fs [].

(** The listings of [db []] in pages of two. *)
Definition order_pages (p : nat) : OrderListResponse :=
  match (get_orders (Z.of_nat (S p)) 2 (db [])).1 with
  | Ok resp => resp
  | Raise _ => mk_order_list [] 0 0 0
  end.

Definition product_pages (p : nat) : ProductListResponse :=
  match (get_products (Z.of_nat (S p)) 2 (db [])).1 with
  | Ok resp => resp
  | Raise _ => mk_product_list [] 0 0 0
  end.

End Shop.

(** ** Reading the detail strings *)

(** The characters [str(n)] is made of, for an int [n]. *)
Definition numeric_char (ch : ascii) : bool :=
  bool_decide (ch ∈ ["0"; "1"; "2"; "3"; "4"; "5"; "6"; "7"; "8"; "9"; "-"]%char).

Fixpoint numeric (s : string) : bool :=
  match s with
  | EmptyString => true
  | String ch s' => numeric_char ch && numeric s'
  end.

(** The value of a two-digit field. *)
Definition read2 (s : string) : N :=
  match s with
  | String a (String b EmptyString) =>
      10 * (N_of_ascii a - 48) + (N_of_ascii b - 48)
  | _ => 0
  end.

(** The exceptions a placement raises on purpose for a line of the request,
    and the one it raises when the insert of the order gave no id. *)
Definition line_rejection (item : OrderItemRequest) (e : exn) : Prop :=
  e = HTTPException HTTP_404_NOT_FOUND (detail_not_found (product_id item))
  \/ e = HTTPException HTTP_400_BAD_REQUEST (detail_deleted (product_id item))
  \/ exists available,
       available < quantity item /\
       e = HTTPException HTTP_400_BAD_REQUEST
             (detail_insufficient (product_id item) available (quantity item)).

(** ** Numbers in strings *)

Lemma pretty_N_char_numeric x : numeric_char (pretty_N_char x) = true.
Proof. unfold pretty_N_char. by repeat case_match. Qed.

Lemma pretty_N_go_numeric x s : numeric s = true -> numeric (pretty_N_go x s) = true.
Proof.
  revert s. induction (N.lt_wf_0 x) as [x _ IH]; intros s Hs.
  assert (x = 0 \/ 0 < x)%N as [->|Hx] by lia; [by rewrite pretty_N_go_0 |].
  rewrite pretty_N_go_step by done. apply IH; [by apply N.div_lt |].
  simpl. by rewrite pretty_N_char_numeric.
Qed.

Lemma pretty_N_numeric (x : N) : numeric (pretty x) = true.
Proof.
  unfold pretty, pretty_N. destruct (decide (x = 0%N)); [done |].
  by apply pretty_N_go_numeric.
Qed.

Lemma str_int_numeric n : numeric (str_int n) = true.
Proof.
  destruct n as [|p|p]; [done | exact (pretty_N_numeric (N.pos p)) |].
  change (str_int (Z.neg p)) with (String "-" (pretty (N.pos p))).
  simpl. apply pretty_N_numeric.
Qed.

(** Two strings that start with a number followed by something that is not
    part of a number agree on the number and on the rest. *)
Lemma numeric_prefix_inj (a b : string) (ch ch' : ascii) (t t' : string) :
  numeric a = true -> numeric b = true ->
  numeric_char ch = false -> numeric_char ch' = false ->
  a +:+ String ch t = b +:+ String ch' t' ->
  a = b /\ ch = ch' /\ t = t'.
Proof.
  revert b. induction a as [|x a IH]; intros [|y b] Ha Hb Hch Hch' E; simpl in *.
  - by injection E as -> ->.
  - injection E as -> _. apply andb_prop in Hb as [Hb _]. congruence.
  - injection E as -> _. apply andb_prop in Ha as [Ha _]. congruence.
  - injection E as -> E. apply andb_prop in Ha as [_ Ha]. apply andb_prop in Hb as [_ Hb].
    destruct (IH b Ha Hb Hch Hch' E) as (-> & -> & ->). done.
Qed.

Lemma str_int_inj n m : str_int n = str_int m -> n = m.
Proof. apply pretty_Z_inj. Qed.

Lemma str_int_prefix_inj n m ch ch' t t' :
  numeric_char ch = false -> numeric_char ch' = false ->
  str_int n +:+ String ch t = str_int m +:+ String ch' t' ->
  n = m /\ ch = ch' /\ t = t'.
Proof.
  intros Hch Hch' E.
  apply numeric_prefix_inj in E as (En & -> & ->);
    [| apply str_int_numeric | apply str_int_numeric | done | done].
  by apply str_int_inj in En as ->.
Qed.

Lemma append_String ch (s t : string) : String ch s +:+ t = String ch (s +:+ t).
Proof. done. Qed.

Lemma append_Empty (t : string) : "" +:+ t = t.
Proof. done. Qed.

Ltac read_int :=
  repeat first
    [ progress simplify_eq
    | match goal with
      | E : _ +:+ String _ _ = _ +:+ String _ _ |- _ =>
          apply str_int_prefix_inj in E as (-> & _ & ?); [| done | done]
      | E : str_int _ = str_int _ |- _ => apply str_int_inj in E as ->
      end ].

Ltac read_detail E :=
  unfold detail_not_found, detail_deleted, detail_insufficient, detail_update_failed in E;
  rewrite ?append_String, ?append_Empty in E; read_int; try done.


(** ** Strings of known length *)

Lemma length_append (a b : string) :
  String.length (a +:+ b) = (String.length a + String.length b)%nat.
Proof.
  induction a as [|ch a IH]; [done |]. rewrite append_String. simpl. by rewrite IH.
Qed.

Lemma append_assoc (a b c : string) : (a +:+ b) +:+ c = a +:+ (b +:+ c).
Proof.
  induction a as [|ch a IH]; [done |]. rewrite !append_String. by rewrite IH.
Qed.

Lemma append_length_inj (a1 a2 b1 b2 : string) :
  String.length a1 = String.length a2 ->
  a1 +:+ b1 = a2 +:+ b2 -> a1 = a2 /\ b1 = b2.
Proof.
  revert a2. induction a1 as [|ch a1 IH]; intros [|ch2 a2] Hl E;
    rewrite ?append_String, ?append_Empty in E; simpl in Hl;
    try discriminate; [done |].
  injection E as -> E. injection Hl as Hl.
  by destruct (IH a2 Hl E) as [-> ->].
Qed.

Lemma append_inv_tail_length (a1 a2 b1 b2 : string) :
  String.length b1 = String.length b2 ->
  a1 +:+ b1 = a2 +:+ b2 -> a1 = a2 /\ b1 = b2.
Proof.
  intros Hl E. apply append_length_inj; [| done].
  apply (f_equal String.length) in E. rewrite !length_append in E. lia.
Qed.

(** The numbers below [n], for checking a property of each by computation. *)
Lemma N_below_cases (P : N -> bool) (n : nat) :
  forallb P (N.of_nat <$> seq 0 n) = true ->
  forall x, (x < N.of_nat n)%N -> P x = true.
Proof.
  intros Hall x Hx. rewrite forallb_forall in Hall. apply Hall.
  apply list_elem_of_In, list_elem_of_fmap. exists (N.to_nat x).
  split; [by rewrite N2Nat.id |]. apply elem_of_seq. lia.
Qed.

Lemma pad2_read (n : N) :
  (n < 100)%N -> String.length (pad2 n) = 2%nat /\ read2 (pad2 n) = n.
Proof.
  intros Hn.
  pose proof (N_below_cases
                (fun n => (String.length (pad2 n) =? 2)%nat && (read2 (pad2 n) =? n)%N)
                100 ltac:(vm_compute; reflexivity) n Hn) as Hcheck.
  apply andb_prop in Hcheck as [Hl Hr].
  split; [by apply Nat.eqb_eq | by apply N.eqb_eq].
Qed.

Lemma pad2_inj (n m : N) : (n < 100)%N -> (m < 100)%N -> pad2 n = pad2 m -> n = m.
Proof.
  intros Hn Hm E. apply (f_equal read2) in E.
  by rewrite (proj2 (pad2_read n Hn)), (proj2 (pad2_read m Hm)) in E.
Qed.

Lemma hex_urandom_2 (rnd : nat -> Byte.byte) : String.length (hex (urandom 2 rnd)) = 4%nat.
Proof. done. Qed.

(** * Verification *)

Section Verification.
Context `{PriceColumn}.

(** ** Inversion of the monad's combinators *)

Lemma bind_Ok {A B} (m : M A) (k : A -> M B) c b c' :
  bind m k c = (Ok b, c') ->
  exists a c1, m c = (Ok a, c1) /\ k a c1 = (Ok b, c').
Proof.
  unfold bind. destruct (m c) as [[a|e] c1]; intros E; [eauto | discriminate].
Qed.

Lemma bind_Raise {A B} (m : M A) (k : A -> M B) c e c' :
  bind m k c = (Raise e, c') ->
  m c = (Raise e, c') \/ exists a c1, m c = (Ok a, c1) /\ k a c1 = (Raise e, c').
Proof.
  unfold bind. destruct (m c) as [[a|e0] c1]; intros E; [eauto | left; congruence].
Qed.

Lemma bind_step {A B} (m : M A) (k : A -> M B) c a c1 :
  m c = (Ok a, c1) -> bind m k c = k a c1.
Proof. unfold bind. now intros ->. Qed.

Lemma bind_fail {A B} (m : M A) (k : A -> M B) c e c1 :
  m c = (Raise e, c1) -> bind m k c = (Raise e, c1).
Proof. unfold bind. now intros ->. Qed.

Lemma bind_assoc {A B C} (m : M A) (k : A -> M B) (g : B -> M C) c :
  bind (bind m k) g c = bind m (fun a => bind (k a) g) c.
Proof. unfold bind. by destruct (m c) as [[a|e] c1]. Qed.

(** ** Lists and strings *)

Lemma filter_all {A} (P : A -> Prop) `{!forall x, Decision (P x)} (l : list A) :
  Forall P l -> filter P l = l.
Proof.
  induction 1 as [|x l Hx _ IH]; [done |].
  by rewrite filter_cons_True, IH.
Qed.

Lemma filter_none {A} (P : A -> Prop) `{!forall x, Decision (P x)} (l : list A) :
  Forall (fun x => ~ P x) l -> filter P l = [].
Proof.
  induction 1 as [|x l Hx _ IH]; [done |].
  by rewrite filter_cons_False.
Qed.

Lemma append_inv_head (s a b : string) : s +:+ a = s +:+ b -> a = b.
Proof.
  induction s as [|ch s IH]; simpl; intros E; [done |].
  apply IH. by injection E.
Qed.

Lemma hex_digit_inj (n m : N) :
  (n < 16)%N -> (m < 16)%N -> hex_digit n = hex_digit m -> n = m.
Proof.
  intros Hn Hm.
  assert (Hcases : forall k, (k < 16)%N ->
            k ∈ [0; 1; 2; 3; 4; 5; 6; 7; 8; 9; 10; 11; 12; 13; 14; 15]%N).
  { intros k Hk. rewrite !elem_of_cons. lia. }
  pose proof (Hcases n Hn) as Hn'. pose proof (Hcases m Hm) as Hm'.
  rewrite !elem_of_cons, elem_of_nil in Hn', Hm'.
  destruct_or!; subst; simpl; intros E; try done; discriminate E.
Qed.

Lemma hex_inj (r1 r2 : list Byte.byte) : hex r1 = hex r2 -> r1 = r2.
Proof.
  revert r2. induction r1 as [|b r1 IH]; intros [|b' r2] E; simpl in E;
    try discriminate; [done |].
  injection E as Hhi Hlo Hrest. f_equal; [| by apply IH].
  pose proof (Byte.to_N_bounded b) as Hb. pose proof (Byte.to_N_bounded b') as Hb'.
  apply hex_digit_inj in Hhi;
    [| apply N.Div0.div_lt_upper_bound; lia | apply N.Div0.div_lt_upper_bound; lia].
  apply hex_digit_inj in Hlo; [| by apply N.mod_lt | by apply N.mod_lt].
  assert (Byte.to_N b = Byte.to_N b') as Heq.
  { rewrite (N.div_mod (Byte.to_N b) 16), (N.div_mod (Byte.to_N b') 16) by done.
    by rewrite Hhi, Hlo. }
  pose proof (Byte.of_to_N b) as Ho. rewrite Heq, Byte.of_to_N in Ho. congruence.
Qed.

Lemma hex_length (r : list Byte.byte) : String.length (hex r) = (2 * length r)%nat.
Proof. induction r as [|b r IH]; simpl; [done |]. rewrite IH. lia. Qed.

(** ** What one call does to the connection *)

Lemma touches_refl c : touches c [] c.
Proof. split; [done | by rewrite app_nil_r]. Qed.

Lemma touches_trans c1 c2 c3 s1 s2 :
  touches c1 s1 c2 -> touches c2 s2 c3 -> touches c1 (s1 ++ s2) c3.
Proof.
  intros [Hc1 Ht1] [Hc2 Ht2]. split; [congruence |].
  by rewrite Ht2, Ht1, app_assoc.
Qed.

Ltac unfold_ops :=
  unfold commit, rollback, cursor, driver_call, start_transaction, execute_insert_order,
    execute_select_product, execute_update_stock, execute_insert_order_item,
    execute_update_total, float_mul_int, send, write, read, bind, ret, raise,
    set_in_transaction, log, view in *.

Ltac crunch := unfold_ops; simpl in *; repeat case_match; simplify_eq/=.

Lemma send_spec s c r c' :
  send s c = (r, c') ->
  touches c [s] c' /\ in_transaction c' = in_transaction c /\
  next_order_id c' = next_order_id c /\
  (r = Ok tt \/ exists f, r = Raise (exn_of_fault f)).
Proof. intros E. unfold touches. crunch; eauto 10. Qed.

Lemma send_through s c :
  head (faults c) = None \/ head (faults c) = Some None ->
  exists c', send s c = (Ok tt, c') /\ touches c [s] c' /\
    in_transaction c' = in_transaction c /\ next_order_id c' = next_order_id c /\
    faults c' = tail (faults c).
Proof.
  intros Hf. unfold touches, send, log. simpl.
  destruct (faults c) as [|[f|] fs]; simpl in *;
    [eexists; split; [reflexivity | done] | destruct Hf; discriminate
    | eexists; split; [reflexivity | done] ].
Qed.

Lemma rollback_spec c r c' :
  rollback c = (r, c') ->
  touches c [Rollback] c' /\ next_order_id c' = next_order_id c /\
  faults c' = tail (faults c) /\
  ((r = Ok tt /\ in_transaction c' = None)
   \/ (exists f, r = Raise (exn_of_fault f) /\ in_transaction c' = in_transaction c)).
Proof. intros E. unfold touches. crunch; eauto 10. Qed.

Lemma rollback_through c :
  head (faults c) = None \/ head (faults c) = Some None ->
  exists c', rollback c = (Ok tt, c') /\ touches c [Rollback] c' /\
    in_transaction c' = None /\ next_order_id c' = next_order_id c /\
    faults c' = tail (faults c).
Proof.
  intros Hf. unfold touches, rollback, bind, send, log, set_in_transaction. simpl.
  destruct (faults c) as [|[f|] fs]; simpl in *;
    [eexists; split; [reflexivity | done] | destruct Hf; discriminate
    | eexists; split; [reflexivity | done] ].
Qed.

Lemma untouched_refl c : untouched c c.
Proof. by unfold untouched. Qed.

Lemma untouched_trans c1 c2 c3 : untouched c1 c2 -> untouched c2 c3 -> untouched c1 c3.
Proof. unfold untouched. intros (?&?&?&?) (?&?&?&?). split_and?; congruence. Qed.

Lemma untouched_view c c' : untouched c c' -> view c' = view c.
Proof. unfold untouched, view. intros (-> & -> & _). done. Qed.

Lemma driver_call_spec c r c' :
  driver_call c = (r, c') ->
  untouched c c' /\ faults c' = tail (faults c) /\
  match head (faults c) with
  | Some (Some f) => r = Raise (exn_of_fault f)
  | _ => r = Ok tt
  end.
Proof.
  unfold driver_call, untouched. intros E.
  destruct (faults c) as [|[f|] fs] eqn:Hf; simplify_eq/=; rewrite ?Hf; done.
Qed.

Lemma cursor_spec c r c' :
  cursor c = (r, c') ->
  untouched c c' /\ faults c' = tail (faults c) /\
  (r = Ok tt \/ exists f, r = Raise (exn_of_fault f)).
Proof.
  intros E. apply driver_call_spec in E as (Hu & Hf & Hr). split_and?; [done | done |].
  destruct (head (faults c)) as [[f|]|]; eauto.
Qed.

Lemma cursor_through c :
  head (faults c) = None \/ head (faults c) = Some None ->
  exists c', cursor c = (Ok tt, c') /\ untouched c c' /\ faults c' = tail (faults c).
Proof.
  intros Hf. destruct (cursor c) as [r c'] eqn:E. exists c'.
  apply driver_call_spec in E as (Hu & Hfs & Hr).
  destruct Hf as [Hf|Hf]; rewrite Hf in Hr; by subst.
Qed.

(** The driver letting the next calls through, one call at a time. *)
Lemma calls_through_S n c :
  calls_through (S n) c ->
  (head (faults c) = None \/ head (faults c) = Some None) /\
  forall c', faults c' = tail (faults c) -> calls_through n c'.
Proof.
  unfold calls_through. destruct (faults c) as [|f fs]; simpl.
  - intros _. split; [by left |]. intros c' ->. by rewrite take_nil.
  - intros Hall. apply Forall_cons in Hall as [-> Hall].
    split; [by right |]. by intros c' ->.
Qed.

Lemma calls_through_nil n c : faults c = [] -> calls_through n c.
Proof. unfold calls_through. intros ->. by rewrite take_nil. Qed.

Lemma calls_through_mono n m c :
  (n <= m)%nat -> calls_through m c -> calls_through n c.
Proof.
  unfold calls_through. intros Hle Hall.
  replace (take n (faults c)) with (take n (take m (faults c)))
    by (rewrite take_take; f_equal; lia).
  by apply Forall_take.
Qed.

(** ** What commits nothing *)

Lemma keeps_ret {A} (a : A) : keeps_committed (ret a).
Proof. intros c r c' E. unfold ret in E. by simplify_eq. Qed.

Lemma keeps_raise {A} (e : exn) : keeps_committed (raise e : M A).
Proof. intros c r c' E. unfold raise in E. by simplify_eq. Qed.

Lemma keeps_bind {A B} (m : M A) (k : A -> M B) :
  keeps_committed m -> (forall a, keeps_committed (k a)) -> keeps_committed (bind m k).
Proof.
  intros Hm Hk c r c' E. unfold bind in E.
  destruct (m c) as [[a|e] c1] eqn:E1.
  - rewrite (Hk a _ _ _ E). exact (Hm _ _ _ E1).
  - simplify_eq. exact (Hm _ _ _ E1).
Qed.

Lemma keeps_send s : keeps_committed (send s).
Proof. intros c r c' E. crunch; done. Qed.

Lemma keeps_rollback : keeps_committed rollback.
Proof. intros c r c' E. crunch; done. Qed.

Lemma keeps_cursor : keeps_committed cursor.
Proof. intros c r c' E. by apply cursor_spec in E as [[? _] _]. Qed.

Lemma keeps_start_transaction : keeps_committed start_transaction.
Proof. intros c r c' E. crunch; done. Qed.

Lemma keeps_execute_insert_order u num ct : keeps_committed (execute_insert_order u num ct).
Proof. intros c r c' E. crunch; done. Qed.

Lemma keeps_execute_select_product pid : keeps_committed (execute_select_product pid).
Proof. intros c r c' E. crunch; done. Qed.

Lemma keeps_execute_update_stock q ct pid : keeps_committed (execute_update_stock q ct pid).
Proof. intros c r c' E. crunch; done. Qed.

Lemma keeps_racing_update_stock taken q ct pid :
  keeps_committed (racing_update_stock taken q ct pid).
Proof.
  unfold racing_update_stock. case_bool_decide; [| apply keeps_execute_update_stock].
  apply keeps_bind; [apply keeps_send | intros _; apply keeps_ret].
Qed.

Lemma keeps_execute_insert_order_item row : keeps_committed (execute_insert_order_item row).
Proof. intros c r c' E. crunch; done. Qed.

Lemma keeps_execute_update_total total oid : keeps_committed (execute_update_total total oid).
Proof. intros c r c' E. crunch; done. Qed.

Lemma keeps_float_mul_int x n : keeps_committed (float_mul_int x n).
Proof. intros c r c' E. unfold float_mul_int in E. destruct (int_to_float n); crunch; done. Qed.

Lemma keeps_open_order u num ct : keeps_committed (open_order u num ct).
Proof.
  unfold open_order.
  apply keeps_bind; [apply keeps_start_transaction | intros _].
  apply keeps_bind; [apply keeps_execute_insert_order | intros id].
  destruct (id =? 0); [apply keeps_raise | apply keeps_ret].
Qed.

Lemma keeps_create_order_except e : keeps_committed (create_order_except e).
Proof.
  destruct e; simpl;
    (apply keeps_bind; [apply keeps_rollback | intros _; apply keeps_raise]).
Qed.

Lemma start_transaction_Ok c c' :
  start_transaction c = (Ok tt, c') ->
  in_transaction c = None /\ touches c [StartTransaction] c' /\
  in_transaction c' = Some (committed c) /\ next_order_id c' = next_order_id c.
Proof. intros E. unfold touches. crunch; eauto. Qed.

Lemma start_transaction_Raise c e c' :
  start_transaction c = (Raise e, c') ->
  touches c [] c' \/ touches c [StartTransaction] c'.
Proof.
  intros E. unfold touches. crunch; rewrite ?app_nil_r; eauto.
Qed.

Lemma commit_Ok c c' :
  commit c = (Ok tt, c') ->
  committed c' = view c /\ in_transaction c' = None /\
  trace c' = trace c ++ [Commit] /\ next_order_id c' = next_order_id c.
Proof. intros E. crunch; eauto. Qed.

Lemma commit_Raise c e c' :
  commit c = (Raise e, c') -> touches c [Commit] c'.
Proof. intros E. unfold touches. crunch; eauto. Qed.

Lemma execute_insert_order_Ok u num ct c id c' :
  execute_insert_order u num ct c = (Ok id, c') ->
  id = next_order_id c /\ orders (view c) !! id = None /\
  touches c [InsertOrder u num ct ct] c' /\
  next_order_id c' = id + 1 /\
  in_transaction c' =
    Some (mk_tables (products (view c))
            (<[id := mk_order u num "pending" total_amount_default ct ct]> (orders (view c)))
            (order_items (view c))).
Proof. intros E. unfold touches. crunch; eauto 10. Qed.

Lemma execute_insert_order_Raise u num ct c e c' :
  execute_insert_order u num ct c = (Raise e, c') ->
  touches c [InsertOrder u num ct ct] c'.
Proof. intros E. unfold touches. crunch; eauto. Qed.

Lemma execute_select_product_spec pid c r c' :
  execute_select_product pid c = (r, c') ->
  touches c [SelectProductForUpdate pid] c' /\
  in_transaction c' = in_transaction c /\ next_order_id c' = next_order_id c /\
  (r = Ok ((fun p => (stock p, price p, is_deleted p)) <$> products (view c) !! pid)
   \/ exists f, r = Raise (exn_of_fault f)).
Proof. intros E. unfold touches. crunch; eauto 10. Qed.

Lemma execute_update_stock_spec q ct pid c r c' :
  execute_update_stock q ct pid c = (r, c') ->
  touches c [UpdateProductStock q ct pid] c' /\ next_order_id c' = next_order_id c /\
  ((exists f, r = Raise (exn_of_fault f) /\ in_transaction c' = in_transaction c)
   \/ (r = Ok 0 /\ in_transaction c' = in_transaction c /\
       forall p, products (view c) !! pid = Some p -> stock p < q)
   \/ (exists p, r = Ok 1 /\ products (view c) !! pid = Some p /\ q <= stock p /\
       in_transaction c' =
         Some (mk_tables
                 (<[pid := mk_product (name p) (price p) (stock p - q) (is_deleted p) ct]>
                    (products (view c)))
                 (orders (view c)) (order_items (view c))))).
Proof.
  intros E. unfold touches. crunch; split_and?; try done;
    repeat match goal with
           | Hle : (_ <=? _) = true |- _ => apply Z.leb_le in Hle
           | Hle : (_ <=? _) = false |- _ => apply Z.leb_gt in Hle
           end;
    first [ by left; eauto
          | by right; left; split_and?; try done; intros ? ?; simplify_eq; lia
          | by right; right; eexists; split_and?; eauto ].
Qed.

Lemma execute_insert_order_item_Ok row c c' :
  execute_insert_order_item row c = (Ok tt, c') ->
  touches c [InsertOrderItem row] c' /\ next_order_id c' = next_order_id c /\
  in_transaction c' =
    Some (mk_tables (products (view c)) (orders (view c)) (order_items (view c) ++ [row])).
Proof. intros E. unfold touches. crunch; eauto. Qed.

Lemma execute_insert_order_item_Raise row c e c' :
  execute_insert_order_item row c = (Raise e, c') ->
  touches c [InsertOrderItem row] c' /\ in_transaction c' = in_transaction c.
Proof. intros E. unfold touches. crunch; eauto. Qed.

Lemma execute_update_total_Ok total oid c c' :
  execute_update_total total oid c = (Ok tt, c') ->
  touches c [UpdateOrderTotal total oid] c' /\ next_order_id c' = next_order_id c /\
  view c' =
    mk_tables (products (view c))
      (match orders (view c) !! oid with
       | Some o =>
           <[oid := mk_order (order_user_id o) (number o) (status o) total
                      (created_at o) (updated_at o)]> (orders (view c))
       | None => orders (view c)
       end)
      (order_items (view c)).
Proof.
  intros E. unfold touches. crunch; split_and?; try done;
    by destruct (default _ _).
Qed.

Lemma execute_update_total_Raise total oid c e c' :
  execute_update_total total oid c = (Raise e, c') ->
  touches c [UpdateOrderTotal total oid] c'.
Proof. intros E. unfold touches. crunch; eauto. Qed.

Lemma float_mul_int_spec x n c r c' :
  float_mul_int x n c = (r, c') ->
  c' = c /\
  match int_to_float n with
  | Some y => r = Ok (x * y)%float
  | None => r = Raise (Exception "int too large to convert to float")
  end.
Proof. intros E. unfold float_mul_int in E. destruct (int_to_float n); crunch; eauto. Qed.

(** ** One line *)

Lemma place_lines_nil oid ct tot : place_lines oid ct tot [] = ret tot.
Proof. reflexivity. Qed.

Lemma place_lines_cons oid ct tot item rest :
  place_lines oid ct tot (item :: rest) =
  bind (place_line oid ct tot item) (fun t => place_lines oid ct t rest).
Proof. reflexivity. Qed.

Lemma decrement_stock_Ok pid q ct c c' :
  decrement_stock pid q ct c = (Ok tt, c') ->
  touches c [UpdateProductStock q ct pid] c' /\ next_order_id c' = next_order_id c /\
  exists p, products (view c) !! pid = Some p /\ q <= stock p /\
    in_transaction c' =
      Some (mk_tables
              (<[pid := mk_product (name p) (price p) (stock p - q) (is_deleted p) ct]>
                 (products (view c)))
              (orders (view c)) (order_items (view c))).
Proof.
  intros E. unfold decrement_stock, decrement_stock_on in E.
  apply bind_Ok in E as (rc & c1 & E1 & E2).
  apply execute_update_stock_spec in E1
    as (Ht & Hn & [(f & ? & _)|[(? & _)|(p & ? & Hp & Hq & Hw)]]); simplify_eq;
    simpl in E2.
  - apply bind_Ok in E2 as (? & ? & _ & E3). discriminate E3.
  - unfold ret in E2. simplify_eq. eauto 10.
Qed.

(** A stock update that raises has committed nothing; either the driver
    raised on the UPDATE, or the UPDATE found less stock than asked. *)
Lemma decrement_stock_Raise pid q ct c e c' :
  decrement_stock pid q ct c = (Raise e, c') ->
  committed c' = committed c /\
  ((in_transaction c' = in_transaction c /\
    trace c' = trace c ++ [UpdateProductStock q ct pid])
   \/ (forall p, products (view c) !! pid = Some p -> stock p < q)).
Proof.
  intros E. unfold decrement_stock, decrement_stock_on in E.
  apply bind_Raise in E as [E|(rc & c1 & E1 & E2)].
  - apply execute_update_stock_spec in E
      as ([Hc Ht] & Hn & [(f & ? & Hi)|[(? & _)|(p & ? & _)]]); simplify_eq. eauto.
  - apply execute_update_stock_spec in E1
      as ([Hc Ht] & Hn & [(f & ? & _)|[(? & Hi & Hlt)|(p & ? & _)]]); simplify_eq;
      simpl in E2.
    split; [| by right]. rewrite <- Hc.
    exact (keeps_bind _ _ keeps_rollback (fun _ => keeps_raise _) _ _ _ E2).
Qed.

Lemma place_line_Ok oid ct tot item c tot' c' :
  place_line oid ct tot item c = (Ok tot', c') ->
  exists row t',
    line_effect oid ct item (view c) = Some (row, t') /\
    tot' = (tot + subtotal row)%float /\
    in_transaction c' = Some t' /\
    touches c (line_stmts row) c' /\
    next_order_id c' = next_order_id c.
Proof.
  intros E. unfold place_line, place_line_on in E.
  apply bind_Ok in E as (found & c1 & E1 & E).
  apply execute_select_product_spec in E1 as (T1 & I1 & N1 & [?|[f ?]]); [| done].
  simplify_eq.
  assert (V1 : view c1 = view c) by (unfold view; by rewrite I1, (proj1 T1)).
  unfold line_effect.
  destruct (products (view c) !! product_id item) as [p|] eqn:Hp; simpl in E; [| done].
  destruct (is_deleted p) eqn:Hd; [done |]. rewrite <- Hd.
  destruct (stock p <? quantity item) eqn:Hs; [done |].
  apply bind_Ok in E as (sub & c2 & E2 & E).
  apply float_mul_int_spec in E2 as [-> E2].
  destruct (int_to_float (quantity item)) as [y|]; [| done]. simplify_eq.
  apply bind_Ok in E as ([] & c3 & E3 & E).
  apply decrement_stock_Ok in E3 as (T3 & N3 & p3 & Hp3 & Hq3 & I3).
  rewrite V1 in Hp3, I3. simplify_eq.
  apply bind_Ok in E as ([] & c4 & E4 & E).
  apply execute_insert_order_item_Ok in E4 as (T4 & N4 & I4).
  unfold ret in E. simplify_eq.
  unfold view in I4 at 1 2 3. rewrite I3 in I4. simpl in I4.
  eexists _, _. split_and?; [reflexivity | done | exact I4 | | congruence].
  exact (touches_trans _ _ _ _ _ T1 (touches_trans _ _ _ _ _ T3 T4)).
Qed.

Lemma place_line_Raise oid ct tot item c e c' :
  place_line oid ct tot item c = (Raise e, c') ->
  committed c' = committed c /\
  exists sts,
    trace c' = trace c ++ SelectProductForUpdate (product_id item) :: sts /\
    locks_of sts = [] /\
    (in_transaction c' = in_transaction c
     \/ exists p,
          products (view c) !! product_id item = Some p /\
          is_deleted p = false /\ quantity item <= stock p /\
          (exists sts',
             sts = UpdateProductStock (quantity item) ct (product_id item) :: sts') /\
          in_transaction c' =
            Some (mk_tables
                    (<[product_id item :=
                         mk_product (name p) (price p) (stock p - quantity item)
                           (is_deleted p) ct]> (products (view c)))
                    (orders (view c)) (order_items (view c)))).
Proof.
  intros E. unfold place_line, place_line_on in E.
  apply bind_Raise in E as [E|(found & c1 & E1 & E)].
  { apply execute_select_product_spec in E as ([Hc Ht] & I1 & _).
    split; [done |]. exists []. eauto. }
  apply execute_select_product_spec in E1 as ([Hc1 Ht1] & I1 & N1 & [?|[f ?]]); [| done].
  simplify_eq.
  assert (V1 : view c1 = view c) by (unfold view; by rewrite I1, Hc1).
  destruct (products (view c) !! product_id item) as [p|] eqn:Hp; simpl in E.
  2: { unfold raise in E. simplify_eq. split; [done |]. exists []. eauto. }
  destruct (is_deleted p) eqn:Hd.
  { unfold raise in E. simplify_eq. split; [done |]. exists []. eauto. }
  destruct (stock p <? quantity item) eqn:Hs.
  { unfold raise in E. simplify_eq. split; [done |]. exists []. eauto. }
  apply Z.ltb_ge in Hs.
  apply bind_Raise in E as [E|(sub & c2 & E2 & E)].
  { apply float_mul_int_spec in E as [-> _]. split; [done |]. exists []. eauto. }
  apply float_mul_int_spec in E2 as [-> _].
  apply bind_Raise in E as [E|([] & c3 & E3 & E)].
  { apply decrement_stock_Raise in E as (Hc & [[Hi Ht]|Hlt]).
    - split; [congruence |]. eexists [_]. rewrite Ht, Ht1, <- app_assoc.
      split_and?; [done | done |]. left. congruence.
    - rewrite V1 in Hlt. specialize (Hlt _ Hp). lia. }
  apply decrement_stock_Ok in E3 as ([Hc3 Ht3] & N3 & p3 & Hp3 & Hq3 & I3).
  rewrite V1 in Hp3, I3. simplify_eq.
  apply bind_Raise in E as [E|([] & c4 & E4 & E)]; [| done].
  apply execute_insert_order_item_Raise in E as ([Hc4 Ht4] & I4).
  split; [congruence |]. eexists [_; _].
  rewrite Ht4, Ht3, Ht1, <- !app_assoc. split_and?; [done | done |].
  right. eexists. split_and?; [done | done | done | by eexists | congruence].
Qed.

(** ** The loop *)

Lemma place_lines_on_app upd oid ct tot l1 l2 c :
  place_lines_on upd oid ct tot (l1 ++ l2) c =
  bind (place_lines_on upd oid ct tot l1) (fun t => place_lines_on upd oid ct t l2) c.
Proof.
  revert tot c. induction l1 as [|item l1 IH]; intros tot c; simpl; [reflexivity |].
  rewrite bind_assoc.
  destruct (place_line_on upd oid ct tot item c) as [[t|e] c1] eqn:E.
  - rewrite !(bind_step _ _ _ _ _ E). apply IH.
  - by rewrite !(bind_fail _ _ _ _ _ E).
Qed.

Lemma place_lines_app oid ct tot l1 l2 c :
  place_lines oid ct tot (l1 ++ l2) c =
  bind (place_lines oid ct tot l1) (fun t => place_lines oid ct t l2) c.
Proof. apply place_lines_on_app. Qed.

(** The loop commits nothing, on any server that commits nothing by its
    answer to the UPDATE. *)
Lemma keeps_decrement_stock_on upd pid q ct :
  keeps_committed (upd q ct pid) -> keeps_committed (decrement_stock_on upd pid q ct).
Proof.
  intros Hupd. unfold decrement_stock_on.
  apply keeps_bind; [done | intros rc].
  destruct (rc =? 0); [| apply keeps_ret].
  apply keeps_bind; [apply keeps_rollback | intros _; apply keeps_raise].
Qed.

Lemma keeps_place_line_on upd oid ct tot item :
  (forall q ct pid, keeps_committed (upd q ct pid)) ->
  keeps_committed (place_line_on upd oid ct tot item).
Proof.
  intros Hupd. unfold place_line_on.
  apply keeps_bind; [apply keeps_execute_select_product |].
  intros [[[st pr] del]|]; [| apply keeps_raise].
  destruct del; [apply keeps_raise |].
  destruct (st <? quantity item); [apply keeps_raise |].
  apply keeps_bind; [apply keeps_float_mul_int | intros sub].
  apply keeps_bind; [by apply keeps_decrement_stock_on | intros _].
  apply keeps_bind; [apply keeps_execute_insert_order_item | intros _; apply keeps_ret].
Qed.

Lemma keeps_place_lines_on upd oid ct items :
  (forall q ct pid, keeps_committed (upd q ct pid)) ->
  forall tot, keeps_committed (place_lines_on upd oid ct tot items).
Proof.
  intros Hupd. induction items as [|item rest IH]; intros tot; simpl;
    [apply keeps_ret |].
  apply keeps_bind; [by apply keeps_place_line_on | intros t; apply IH].
Qed.

Lemma place_lines_Ok oid ct items : forall tot c tot' c',
  place_lines oid ct tot items c = (Ok tot', c') ->
  exists rows t',
    lines_effect oid ct items (view c) = Some (rows, t') /\
    tot' = fold_left (fun acc x => (acc + x)%float) (map subtotal rows) tot /\
    view c' = t' /\
    (is_Some (in_transaction c) -> in_transaction c' = Some t') /\
    touches c (concat (map line_stmts rows)) c' /\
    next_order_id c' = next_order_id c.
Proof.
  induction items as [|item rest IH]; intros tot c tot' c' E; simpl in E.
  - unfold ret in E. simplify_eq. exists [], (view c').
    split_and?; [done | done | done | | apply touches_refl | done].
    unfold view. by intros [w ->].
  - apply bind_Ok in E as (tot1 & c1 & E1 & E).
    apply place_line_Ok in E1 as (row & t1 & L1 & -> & I1 & T1 & N1).
    apply IH in E as (rows & t' & L & -> & V & I & T & N).
    assert (V1 : view c1 = t1) by (unfold view; by rewrite I1).
    rewrite V1 in L. exists (row :: rows), t'. simpl. rewrite L1, L.
    split_and?; [done | done | done | | | congruence].
    + intros _. apply I. by rewrite I1.
    + exact (touches_trans _ _ _ _ _ T1 T).
Qed.

(** A loop that raises has sent the locked reads of a prefix of the lines,
    one per line and in list order, and has left the committed tables
    alone. *)
Lemma place_lines_locks oid ct items : forall tot c r c',
  place_lines oid ct tot items c = (r, c') ->
  committed c' = committed c /\
  exists k : nat,
    locks_of (trace c') = locks_of (trace c) ++ map product_id (take k items) /\
    (forall t, r = Ok t -> k = length items).
Proof.
  induction items as [|item rest IH]; intros tot c r c' E; simpl in E.
  - unfold ret in E. simplify_eq. split; [done |]. exists 0%nat.
    by rewrite app_nil_r.
  - destruct (place_line oid ct tot item c) as [[t1|e] c1] eqn:E1.
    + rewrite (bind_step _ _ _ _ _ E1) in E.
      apply place_line_Ok in E1 as (row & t' & L1 & _ & _ & [Hc1 Ht1] & _).
      apply IH in E as (Hc & k & Hl & Hk). split; [congruence |].
      exists (S k). split; [| intros t Ht; f_equal/=; eauto].
      rewrite Hl, Ht1. unfold locks_of, line_stmts. rewrite omap_app. simpl.
      rewrite <- app_assoc. simpl. do 3 f_equal.
      unfold line_effect in L1. repeat case_match; by simplify_eq.
    + rewrite (bind_fail _ _ _ _ _ E1) in E. simplify_eq.
      apply place_line_Raise in E1 as (Hc & sts & Ht & Hs & _).
      split; [done |]. exists 1%nat. split; [| done].
      rewrite Ht. unfold locks_of in *.
      change (?x :: sts) with ([x] ++ sts). rewrite !omap_app, Hs.
      by rewrite app_nil_r.
Qed.

(** ** Pure facts about the effect of the lines *)

Lemma line_effect_row oid ct item t row t' :
  line_effect oid ct item t = Some (row, t') ->
  exists p y,
    products t !! product_id item = Some p /\ is_deleted p = false /\
    quantity item <= stock p /\ int_to_float (quantity item) = Some y /\
    row = mk_order_item oid (product_id item) (quantity item)
            (float_of_decimal (price p)) (float_of_decimal (price p) * y)%float ct ct /\
    t' = mk_tables
           (<[product_id item :=
                mk_product (name p) (price p) (stock p - quantity item)
                  (is_deleted p) ct]> (products t))
           (orders t) (order_items t ++ [row]).
Proof.
  unfold line_effect. intros E.
  destruct (products t !! product_id item) as [p|]; [| done].
  destruct (is_deleted p) eqn:Hd; [done |].
  destruct (stock p <? quantity item) eqn:Hs; [done |].
  destruct (int_to_float (quantity item)) as [y|]; [| done].
  apply Z.ltb_ge in Hs. simplify_eq. exists p, y. by rewrite Hd.
Qed.

Lemma lines_effect_tables oid ct items : forall t rows t',
  lines_effect oid ct items t = Some (rows, t') ->
  orders t' = orders t /\ order_items t' = order_items t ++ rows /\
  length rows = length items.
Proof.
  induction items as [|item rest IH]; intros t rows t' E; simpl in E.
  - simplify_eq. by rewrite app_nil_r.
  - destruct (line_effect oid ct item t) as [[row t1]|] eqn:E1; [| done].
    destruct (lines_effect oid ct rest t1) as [[rows1 t2]|] eqn:E2; [| done].
    simplify_eq. apply IH in E2 as (Ho & Hi & Hl).
    apply line_effect_row in E1 as (p & y & _ & _ & _ & _ & _ & ->). simpl in *.
    rewrite Ho, Hi, <- app_assoc. simpl. by rewrite Hl.
Qed.

Lemma requested_not_referenced pid items :
  pid ∉ map product_id items -> requested pid items = 0.
Proof.
  induction items as [|item rest IH]; simpl; [done |].
  rewrite not_elem_of_cons. intros [Hne Hnin]. rewrite (IH Hnin).
  destruct (decide (product_id item = pid)); [congruence | done].
Qed.

(** Stock bookkeeping of a loop that goes through: every product row keeps
    its name, price and deletion flag, its stock drops by the total asked of
    it, and a product some line refers to had at least that much. *)
Lemma lines_effect_products oid ct items : forall t rows t',
  lines_effect oid ct items t = Some (rows, t') ->
  forall pid,
    (products t !! pid = None ->
     products t' !! pid = None /\ pid ∉ map product_id items) /\
    (forall p, products t !! pid = Some p ->
       exists p', products t' !! pid = Some p' /\
         stock p' = stock p - requested pid items /\
         name p' = name p /\ price p' = price p /\ is_deleted p' = is_deleted p /\
         (pid ∈ map product_id items ->
            requested pid items <= stock p /\ 0 <= stock p')).
Proof.
  induction items as [|item rest IH]; intros t rows t' E pid; simpl in E.
  - simplify_eq. split; [intros ?; split; [done | apply not_elem_of_nil] |].
    intros p Hp. exists p. simpl. split_and?; [done | lia | done | done | done |].
    intros Hin. by apply elem_of_nil in Hin.
  - destruct (line_effect oid ct item t) as [[row t1]|] eqn:E1; [| done].
    destruct (lines_effect oid ct rest t1) as [[rows1 t2]|] eqn:E2; [| done].
    simplify_eq.
    apply line_effect_row in E1 as (p0 & y & Hp0 & Hd0 & Hq0 & _ & _ & ->).
    destruct (IH _ _ _ E2 pid) as [IHn IHs]. simpl in IHn, IHs. simpl.
    destruct (decide (product_id item = pid)) as [<-|Hne].
    + split; [congruence |]. intros p Hp. simplify_eq.
      rewrite lookup_insert_eq in IHs.
      destruct (IHs _ eq_refl) as (p' & Hp' & Hs' & Hn' & Hpr' & Hdel' & Hin').
      simpl in *. exists p'. split_and?; [done | lia | done | done | done |].
      intros _. destruct (decide (product_id item ∈ map product_id rest)) as [Hin|Hnin].
      * destruct (Hin' Hin). lia.
      * rewrite (requested_not_referenced _ _ Hnin) in *. lia.
    + rewrite lookup_insert_ne in IHn, IHs by done. split.
      * intros Hn. destruct (IHn Hn) as [? Hnin]. split; [done |].
        rewrite not_elem_of_cons. split; [congruence | done].
      * intros p Hp. destruct (IHs _ Hp) as (p' & Hp' & Hs' & Hn' & Hpr' & Hdel' & Hin').
        exists p'. split_and?; [done | lia | done | done | done |].
        rewrite elem_of_cons. intros [?|Hin]; [congruence |].
        destruct (Hin' Hin). lia.
Qed.

(** The order-line rows of a loop that goes through, line by line: each
    carries the price of its product as the tables had it when the loop
    started, and that price times the quantity. *)
Lemma lines_effect_rows oid ct items : forall t rows t',
  lines_effect oid ct items t = Some (rows, t') ->
  Forall2 (row_of_line oid ct t) items rows.
Proof.
  induction items as [|item rest IH]; intros t rows t' E; simpl in E.
  - simplify_eq. constructor.
  - destruct (line_effect oid ct item t) as [[row t1]|] eqn:E1; [| done].
    destruct (lines_effect oid ct rest t1) as [[rows1 t2]|] eqn:E2; [| done].
    simplify_eq.
    apply line_effect_row in E1 as (p0 & y & Hp0 & Hd0 & Hq0 & Hy & -> & ->).
    constructor; [by exists p0, y |].
    eapply Forall2_impl; [exact (IH _ _ _ E2) |].
    intros it row (p & y' & Hp & Hy' & ->). simpl in Hp.
    destruct (decide (product_id item = product_id it)) as [Heq|Hne].
    + rewrite Heq, lookup_insert_eq in Hp. simplify_eq. simpl.
      exists p0, y'. by rewrite <- Heq.
    + rewrite lookup_insert_ne in Hp by done. by exists p, y'.
Qed.

(** ** The transaction as a whole *)

Lemma open_order_Ok u num ct c oid c' :
  open_order u num ct c = (Ok oid, c') ->
  in_transaction c = None /\ oid = next_order_id c /\ oid <> 0 /\
  orders (committed c) !! oid = None /\
  touches c [StartTransaction; InsertOrder u num ct ct] c' /\
  in_transaction c' =
    Some (mk_tables (products (committed c))
            (<[oid := mk_order u num "pending" total_amount_default ct ct]>
               (orders (committed c)))
            (order_items (committed c))).
Proof.
  intros E. unfold open_order in E.
  apply bind_Ok in E as ([] & c1 & E1 & E).
  apply start_transaction_Ok in E1 as (I0 & T1 & I1 & N1).
  apply bind_Ok in E as (id & c2 & E2 & E).
  apply execute_insert_order_Ok in E2 as (-> & Ho & T2 & N2 & I2).
  assert (V1 : view c1 = committed c) by (unfold view; by rewrite I1).
  rewrite V1 in Ho, I2.
  destruct (next_order_id c1 =? 0) eqn:Hz; [done |].
  apply Z.eqb_neq in Hz. unfold ret in E. simplify_eq.
  rewrite N1 in *. split_and?; [done | done | done | done | | done].
  exact (touches_trans _ _ _ _ _ T1 T2).
Qed.

Lemma open_order_Raise u num ct c e c' :
  open_order u num ct c = (Raise e, c') ->
  committed c' = committed c /\
  exists sts, trace c' = trace c ++ sts /\ locks_of sts = [] /\
    (sts = [] \/ sts = [StartTransaction]
     \/ sts = [StartTransaction; InsertOrder u num ct ct]).
Proof.
  intros E. unfold open_order in E.
  apply bind_Raise in E as [E|([] & c1 & E1 & E)].
  { apply start_transaction_Raise in E as [[Hc Ht]|[Hc Ht]];
      (split; [done |]); eexists; (split; [exact Ht |]); eauto. }
  apply start_transaction_Ok in E1 as (I0 & [Hc1 Ht1] & I1 & N1).
  assert (forall c2, committed c2 = committed c1 ->
            trace c2 = trace c1 ++ [InsertOrder u num ct ct] ->
            committed c2 = committed c /\
            exists sts, trace c2 = trace c ++ sts /\ locks_of sts = [] /\
              (sts = [] \/ sts = [StartTransaction]
               \/ sts = [StartTransaction; InsertOrder u num ct ct])) as Hfin.
  { intros c2 Hc2 Ht2. split; [congruence |]. eexists [_; _].
    rewrite Ht2, Ht1, <- app_assoc. eauto. }
  apply bind_Raise in E as [E|(id & c2 & E2 & E)].
  { apply execute_insert_order_Raise in E as [Hc Ht]. by apply Hfin. }
  apply execute_insert_order_Ok in E2 as (_ & _ & [Hc2 Ht2] & _).
  destruct (id =? 0); unfold raise, ret in E; simplify_eq. by apply Hfin.
Qed.

Lemma create_order_try_Ok od n1 n2 rnd c r c' :
  create_order_try od n1 n2 rnd c = (Ok r, c') ->
  let oid := next_order_id c in
  let ct := strftime_sql n2 in
  let num := order_number n1 rnd in
  in_transaction c = None /\ oid <> 0 /\ orders (committed c) !! oid = None /\
  r = (oid, num) /\
  exists rows t1,
    lines_effect oid ct (items od)
      (mk_tables (products (committed c))
         (<[oid := mk_order (user_id od) num "pending" total_amount_default ct ct]>
            (orders (committed c)))
         (order_items (committed c))) = Some (rows, t1) /\
    committed c' =
      mk_tables (products t1)
        (<[oid := mk_order (user_id od) num "pending" (float_sum (map subtotal rows))
                    ct ct]> (orders (committed c)))
        (order_items (committed c) ++ rows) /\
    in_transaction c' = None /\
    trace c' =
      trace c ++ [StartTransaction; InsertOrder (user_id od) num ct ct] ++
      concat (map line_stmts rows) ++
      [UpdateOrderTotal (float_sum (map subtotal rows)) oid; Commit].
Proof.
  intros E oid ct num. unfold create_order_try in E.
  apply bind_Ok in E as (oid' & c1 & E1 & E).
  apply open_order_Ok in E1 as (I0 & -> & Hnz & Hfresh & [Hc1 Ht1] & I1).
  fold oid ct num in Hnz, Hfresh, Ht1, I1, E.
  apply bind_Ok in E as (total & c2 & E2 & E).
  apply place_lines_Ok in E2 as (rows & t1 & L & -> & V2 & I2 & [Hc2 Ht2] & N2).
  assert (V1 : view c1 = _) by (unfold view; rewrite I1; reflexivity).
  rewrite V1 in L.
  apply bind_Ok in E as ([] & c3 & E3 & E).
  apply execute_update_total_Ok in E3 as ([Hc3 Ht3] & N3 & V3).
  apply bind_Ok in E as ([] & c4 & E4 & E).
  apply commit_Ok in E4 as (Hc4 & I4 & Ht4 & N4).
  unfold ret in E. simplify_eq.
  destruct (lines_effect_tables _ _ _ _ _ _ L) as (Ho & Hi & _). simpl in Ho, Hi.
  split_and?; [done | done | done | done |].
  exists rows, (view c2). split_and?; [done | | done |].
  - rewrite Hc4, V3, Ho, lookup_insert_eq, insert_insert_eq, Hi. reflexivity.
  - rewrite Ht4, Ht3, Ht2, Ht1. by rewrite <- !app_assoc.
Qed.

Lemma create_order_try_Raise od n1 n2 rnd c e c' :
  create_order_try od n1 n2 rnd c = (Raise e, c') ->
  committed c' = committed c /\
  exists k : nat,
    locks_of (trace c') = locks_of (trace c) ++ map product_id (take k (items od)).
Proof.
  intros E. unfold create_order_try in E.
  apply bind_Raise in E as [E|(oid & c1 & E1 & E)].
  { apply open_order_Raise in E as (Hc & sts & Ht & Hl & _). split; [done |].
    exists 0%nat. unfold locks_of in *. by rewrite Ht, omap_app, Hl, take_0. }
  apply open_order_Ok in E1 as (_ & _ & _ & _ & [Hc1 Ht1] & _).
  assert (Hl1 : locks_of (trace c1) = locks_of (trace c)).
  { unfold locks_of. rewrite Ht1, omap_app. simpl. by rewrite app_nil_r. }
  apply bind_Raise in E as [E|(total & c2 & E2 & E)].
  { apply place_lines_locks in E as (Hc & k & Hl & _). split; [congruence |].
    exists k. by rewrite Hl, Hl1. }
  apply place_lines_locks in E2 as (Hc2 & k & Hl2 & Hk).
  specialize (Hk _ eq_refl). subst k. rewrite firstn_all in Hl2.
  assert (forall st, committed c' = committed c2 -> trace c' = trace c2 ++ st ->
            locks_of st = [] ->
            committed c' = committed c /\
            exists k : nat,
              locks_of (trace c') =
              locks_of (trace c) ++ map product_id (take k (items od))) as Hfin.
  { intros st Hc Ht Hl. split; [congruence |]. exists (length (items od)).
    unfold locks_of in *. rewrite Ht, omap_app, Hl, app_nil_r, Hl2, firstn_all.
    by rewrite Hl1. }
  apply bind_Raise in E as [E|([] & c3 & E3 & E)].
  { apply execute_update_total_Raise in E as [Hc Ht]. by eapply Hfin. }
  apply execute_update_total_Ok in E3 as ([Hc3 Ht3] & _).
  apply bind_Raise in E as [E|([] & c4 & E4 & E)]; [| done].
  apply commit_Raise in E as [Hc Ht].
  apply (Hfin [UpdateOrderTotal total oid; Commit]); [congruence | | done].
  by rewrite Ht, Ht3, <- app_assoc.
Qed.

Lemma create_order_try_on_Raise upd od n1 n2 rnd c e c' :
  (forall q ct pid, keeps_committed (upd q ct pid)) ->
  create_order_try_on upd od n1 n2 rnd c = (Raise e, c') ->
  committed c' = committed c.
Proof.
  intros Hupd E. unfold create_order_try_on in E.
  apply bind_Raise in E as [E|(oid & c1 & E1 & E)];
    [exact (keeps_open_order _ _ _ _ _ _ E) |].
  pose proof (keeps_open_order _ _ _ _ _ _ E1) as H1.
  apply bind_Raise in E as [E|(total & c2 & E2 & E)];
    [rewrite <- H1; exact (keeps_place_lines_on _ _ _ _ Hupd _ _ _ _ E) |].
  pose proof (keeps_place_lines_on _ _ _ _ Hupd _ _ _ _ E2) as H2.
  apply bind_Raise in E as [E|([] & c3 & E3 & E)];
    [rewrite <- H1, <- H2; exact (keeps_execute_update_total _ _ _ _ _ E) |].
  pose proof (keeps_execute_update_total _ _ _ _ _ E3) as H3.
  apply bind_Raise in E as [E|([] & c4 & E4 & E)]; [| done].
  apply commit_Raise in E as [Hc _]. congruence.
Qed.

(** An [except] clause sends the rollback and, when the rollback goes
    through, raises the handler's own exception with no transaction open;
    when the rollback raises, its exception is what leaves the clause, with
    the transaction as it was. *)
Lemma create_order_except_spec e0 c1 r c' :
  create_order_except e0 c1 = (r, c') ->
  committed c' = committed c1 /\
  trace c' = trace c1 ++ [Rollback] /\
  next_order_id c' = next_order_id c1 /\ faults c' = tail (faults c1) /\
  ((in_transaction c' = None /\
    r = Raise
          match e0 with
          | HTTPException _ _ => e0
          | Error _ => HTTPException HTTP_500_INTERNAL_SERVER_ERROR (detail_db_error e0)
          | Exception _ =>
              HTTPException HTTP_500_INTERNAL_SERVER_ERROR (detail_unexpected e0)
          end)
   \/ (exists f, r = Raise (exn_of_fault f) /\ in_transaction c' = in_transaction c1)).
Proof.
  intros E.
  assert (forall e1, bind rollback (fun _ => raise e1 : M (Z * string)) c1 = (r, c') ->
            committed c' = committed c1 /\
            trace c' = trace c1 ++ [Rollback] /\
            next_order_id c' = next_order_id c1 /\ faults c' = tail (faults c1) /\
            ((in_transaction c' = None /\ r = Raise e1)
             \/ (exists f, r = Raise (exn_of_fault f) /\
                   in_transaction c' = in_transaction c1))) as Hgen.
  { intros e1 E1. unfold bind in E1.
    destruct (rollback c1) as [[[]|e2] c2] eqn:Er;
      apply rollback_spec in Er as ([Hc Ht] & Hn & Hf & [[? Hi]|(f & ? & Hi)]);
      unfold raise in E1; simplify_eq; split_and?; eauto. }
  destruct e0; simpl in E; by apply Hgen in E.
Qed.

(** Every way out of the handler: the cursor could not be had; or the [try]
    block went through and its result is returned; or it raised and the
    matching [except] clause ran. *)
Lemma create_order_on_cases upd od n1 n2 rnd c r c' :
  create_order_on upd od n1 n2 rnd c = (r, c') ->
  ((exists f, r = Raise (exn_of_fault f)) /\ untouched c c')
  \/ exists cc, cursor c = (Ok tt, cc) /\ untouched c cc /\
       ((exists a, r = Ok a /\ create_order_try_on upd od n1 n2 rnd cc = (Ok a, c'))
        \/ (exists e0 c1,
              create_order_try_on upd od n1 n2 rnd cc = (Raise e0, c1) /\
              create_order_except e0 c1 = (r, c'))).
Proof.
  unfold create_order_on, bind, try_except. intros E.
  destruct (cursor c) as [[[]|e] cc] eqn:Ec;
    destruct (cursor_spec _ _ _ Ec) as (Hu & _ & Hr).
  - right. exists cc. split; [done |]. split; [done |].
    destruct (create_order_try_on upd od n1 n2 rnd cc) as [[a|e0] c1]; [left | right].
    + exists a. by simplify_eq.
    + by exists e0, c1.
  - left. destruct Hr as [?|[f ?]]; simplify_eq. eauto.
Qed.

Lemma create_order_cases od n1 n2 rnd c r c' :
  create_order od n1 n2 rnd c = (r, c') ->
  ((exists f, r = Raise (exn_of_fault f)) /\ untouched c c')
  \/ exists cc, cursor c = (Ok tt, cc) /\ untouched c cc /\
       ((exists a, r = Ok a /\ create_order_try od n1 n2 rnd cc = (Ok a, c'))
        \/ (exists e0 c1,
              create_order_try od n1 n2 rnd cc = (Raise e0, c1) /\
              create_order_except e0 c1 = (r, c'))).
Proof. apply create_order_on_cases. Qed.

(** A failing placement has committed nothing, on any server that commits
    nothing by its answer to the UPDATE.  The failure is an HTTPException,
    raised after the rollback went through, or it is the exception of
    [db.cursor()] or of [db.rollback()] itself. *)
Lemma create_order_on_Raise upd od n1 n2 rnd c e c' :
  (forall q ct pid, keeps_committed (upd q ct pid)) ->
  create_order_on upd od n1 n2 rnd c = (Raise e, c') ->
  committed c' = committed c /\
  (((exists s d, e = HTTPException s d) /\
    in_transaction c' = None /\ last (trace c') = Some Rollback)
   \/ ((exists f, e = exn_of_fault f) /\
       (untouched c c' \/ last (trace c') = Some Rollback))).
Proof.
  intros Hupd E.
  apply create_order_on_cases in E
    as [[[f ?] Hu]|(cc & _ & Hucc & [(a & ? & _)|(e0 & c1 & E1 & E2)])]; [| done |].
  - simplify_eq. split; [apply Hu |]. right. eauto.
  - apply create_order_try_on_Raise in E1; [| done].
    destruct Hucc as (Hcc & _).
    apply create_order_except_spec in E2
      as (Hc2 & Ht2 & _ & _ & [[Hi ?]|(f & ? & _)]); simplify_eq.
    + split; [congruence |]. left.
      split_and?; [destruct e0; eauto | done | by rewrite Ht2, last_snoc].
    + split; [congruence |]. right. split; [eauto |]. right.
      by rewrite Ht2, last_snoc.
Qed.

Lemma create_order_Raise od n1 n2 rnd c e c' :
  create_order od n1 n2 rnd c = (Raise e, c') ->
  committed c' = committed c /\
  (exists k : nat,
     locks_of (trace c') = locks_of (trace c) ++ map product_id (take k (items od))) /\
  (((exists s d, e = HTTPException s d) /\
    in_transaction c' = None /\ last (trace c') = Some Rollback)
   \/ ((exists f, e = exn_of_fault f) /\
       (untouched c c' \/ last (trace c') = Some Rollback))).
Proof.
  intros E.
  destruct (create_order_on_Raise _ _ _ _ _ _ _ _ keeps_execute_update_stock E)
    as [Hc Hkind].
  split; [done |]. split; [| done].
  apply create_order_cases in E
    as [[_ Hu]|(cc & _ & Hucc & [(a & ? & _)|(e0 & c1 & E1 & E2)])]; [| done |].
  - exists 0%nat. destruct Hu as (_ & _ & _ & ->). by rewrite take_0, app_nil_r.
  - apply create_order_try_Raise in E1 as (_ & k & Hl1).
    apply create_order_except_spec in E2 as (_ & Ht2 & _).
    destruct Hucc as (_ & _ & _ & Htcc). rewrite Htcc in Hl1.
    exists k. unfold locks_of in *. rewrite Ht2, omap_app. simpl.
    by rewrite app_nil_r.
Qed.

Lemma create_order_Ok od n1 n2 rnd c r c' :
  create_order od n1 n2 rnd c = (Ok r, c') ->
  let oid := next_order_id c in
  let ct := strftime_sql n2 in
  let num := order_number n1 rnd in
  in_transaction c = None /\ oid <> 0 /\ orders (committed c) !! oid = None /\
  r = (oid, num) /\
  exists rows t1,
    lines_effect oid ct (items od)
      (mk_tables (products (committed c))
         (<[oid := mk_order (user_id od) num "pending" total_amount_default ct ct]>
            (orders (committed c)))
         (order_items (committed c))) = Some (rows, t1) /\
    committed c' =
      mk_tables (products t1)
        (<[oid := mk_order (user_id od) num "pending" (float_sum (map subtotal rows))
                    ct ct]> (orders (committed c)))
        (order_items (committed c) ++ rows) /\
    in_transaction c' = None /\
    trace c' =
      trace c ++ [StartTransaction; InsertOrder (user_id od) num ct ct] ++
      concat (map line_stmts rows) ++
      [UpdateOrderTotal (float_sum (map subtotal rows)) oid; Commit].
Proof.
  intros E.
  apply create_order_cases in E
    as [[[f ?] _]|(cc & _ & (Hc & Hi & Hn & Ht) & [(a & ? & E)|(e0 & c1 & _ & E2)])];
    [done | |].
  - simplify_eq. apply create_order_try_Ok in E. cbv zeta in E.
    rewrite Hc, Hi, Hn, Ht in E. exact E.
  - apply create_order_except_spec in E2 as (_ & _ & _ & _ & [[_ ?]|(f & ? & _)]); done.
Qed.

Lemma locks_of_line_stmts rows :
  locks_of (concat (map line_stmts rows)) = map item_product_id rows.
Proof.
  induction rows as [|row rows IH]; [done |].
  unfold locks_of in *. rewrite map_cons, concat_cons, omap_app, IH. reflexivity.
Qed.

Lemma rows_product_ids oid ct t items rows :
  Forall2 (row_of_line oid ct t) items rows ->
  map item_product_id rows = map product_id items.
Proof.
  induction 1 as [|item row items rows (p & y & _ & _ & ->) _ IH]; [done |].
  simpl. by rewrite IH.
Qed.

Lemma place_lines_trace oid ct items : forall tot c r c',
  place_lines oid ct tot items c = (r, c') ->
  exists sts, trace c' = trace c ++ sts.
Proof.
  induction items as [|item rest IH]; intros tot c r c' E; simpl in E.
  - unfold ret in E. simplify_eq. exists []. by rewrite app_nil_r.
  - destruct (place_line oid ct tot item c) as [[t1|e] c1] eqn:E1.
    + rewrite (bind_step _ _ _ _ _ E1) in E.
      apply place_line_Ok in E1 as (row & t' & _ & _ & _ & [_ Ht1] & _).
      apply IH in E as [sts Ht]. eexists. by rewrite Ht, Ht1, <- app_assoc.
    + rewrite (bind_fail _ _ _ _ _ E1) in E. simplify_eq.
      apply place_line_Raise in E1 as (_ & sts & Ht & _). eauto.
Qed.

(** The first statements of the [try] block, whatever its outcome: the
    transaction is started and the order row, carrying the order number, is
    inserted; nothing is sent in between. *)
Lemma create_order_try_trace od n1 n2 rnd c r c' :
  create_order_try od n1 n2 rnd c = (r, c') ->
  exists sts, trace c' = trace c ++ sts /\
    ((r <> Ok (next_order_id c, order_number n1 rnd) /\
      (sts = [] \/ sts = [StartTransaction]))
     \/ exists rest,
          sts = StartTransaction ::
                InsertOrder (user_id od) (order_number n1 rnd)
                  (strftime_sql n2) (strftime_sql n2) :: rest).
Proof.
  intros E. destruct r as [a|e].
  { apply create_order_try_Ok in E as (_ & _ & _ & _ & rows & t1 & _ & _ & _ & Ht).
    eexists. split; [exact Ht |]. right. eexists. reflexivity. }
  unfold create_order_try in E.
  apply bind_Raise in E as [E|(oid & c1 & E1 & E)].
  { apply open_order_Raise in E as (_ & sts & Ht & _ & [->|[->| ->]]);
      eexists; (split; [exact Ht |]); eauto 10. }
  apply open_order_Ok in E1 as (_ & _ & _ & _ & [_ Ht1] & _).
  assert (exists sts, trace c' = trace c1 ++ sts) as [sts Ht].
  { apply bind_Raise in E as [E|(total & c2 & E2 & E)];
      [by apply place_lines_trace in E |].
    apply place_lines_trace in E2 as [s2 Ht2].
    apply bind_Raise in E as [E|([] & c3 & E3 & E)].
    { apply execute_update_total_Raise in E as [_ Ht].
      eexists. by rewrite Ht, Ht2, <- app_assoc. }
    apply execute_update_total_Ok in E3 as ([_ Ht3] & _).
    apply bind_Raise in E as [E|([] & c4 & E4 & E)]; [| done].
    apply commit_Raise in E as [_ Ht].
    eexists. by rewrite Ht, Ht3, Ht2, <- !app_assoc. }
  eexists. split; [by rewrite Ht, Ht1, <- app_assoc |]. right. eexists. reflexivity.
Qed.

(** The three tests of a line, when the locked read goes through. *)
Lemma place_line_rejects oid ct tot item c :
  head (faults c) = None \/ head (faults c) = Some None ->
  exists c1,
    touches c [SelectProductForUpdate (product_id item)] c1 /\
    in_transaction c1 = in_transaction c /\
    faults c1 = tail (faults c) /\
    match products (view c) !! product_id item with
    | None =>
        place_line oid ct tot item c =
        (Raise (HTTPException HTTP_404_NOT_FOUND (detail_not_found (product_id item))), c1)
    | Some p =>
        if is_deleted p then
          place_line oid ct tot item c =
          (Raise (HTTPException HTTP_400_BAD_REQUEST (detail_deleted (product_id item))),
           c1)
        else if stock p <? quantity item then
          place_line oid ct tot item c =
          (Raise (HTTPException HTTP_400_BAD_REQUEST
                    (detail_insufficient (product_id item) (stock p) (quantity item))),
           c1)
        else True
    end.
Proof.
  intros Hf.
  destruct (send_through (SelectProductForUpdate (product_id item)) c Hf)
    as (c1 & Hs & [Hc Ht] & Hi & _ & Hfs).
  assert (V1 : view c1 = view c) by (unfold view; by rewrite Hi, Hc).
  exists c1. split_and?; [done | done | done |].
  assert (Hsel : execute_select_product (product_id item) c =
                 (Ok ((fun p => (stock p, price p, is_deleted p)) <$>
                        products (view c) !! product_id item), c1)).
  { unfold execute_select_product. rewrite (bind_step _ _ _ _ _ Hs).
    unfold bind, read, ret. by rewrite V1. }
  unfold place_line, place_line_on. rewrite (bind_step _ _ _ _ _ Hsel).
  destruct (products (view c) !! product_id item) as [p|]; simpl; [| done].
  destruct (is_deleted p); [done |].
  by destruct (stock p <? quantity item).
Qed.

(** An HTTPException raised by a line reaches the caller unchanged, after
    the rollback of the [except] clause, when that rollback goes through. *)
Lemma create_order_on_line_abort upd od n1 n2 rnd c cc oid c0 pre item post tot c1 s d c2 c' :
  items od = pre ++ item :: post ->
  cursor c = (Ok tt, cc) ->
  open_order (user_id od) (order_number n1 rnd) (strftime_sql n2) cc = (Ok oid, c0) ->
  place_lines_on upd oid (strftime_sql n2) 0%float pre c0 = (Ok tot, c1) ->
  place_line_on upd oid (strftime_sql n2) tot item c1 = (Raise (HTTPException s d), c2) ->
  rollback c2 = (Ok tt, c') ->
  create_order_on upd od n1 n2 rnd c = (Raise (HTTPException s d), c').
Proof.
  intros Hitems Hcur Hopen Hpre Hline Hrb.
  unfold create_order_on. rewrite (bind_step _ _ _ _ _ Hcur).
  unfold try_except, create_order_try_on.
  rewrite (bind_step _ _ _ _ _ Hopen).
  assert (place_lines_on upd oid (strftime_sql n2) 0%float (items od) c0 =
          (Raise (HTTPException s d), c2)) as Hloop.
  { rewrite Hitems, place_lines_on_app, (bind_step _ _ _ _ _ Hpre). simpl.
    by rewrite (bind_fail _ _ _ _ _ Hline). }
  rewrite (bind_fail _ _ _ _ _ Hloop). simpl.
  by rewrite (bind_step _ _ _ _ _ Hrb).
Qed.

(** What the steps before a line leave of the committed tables. *)
Lemma before_line_committed upd c cc u num ct oid c0 pre tot c1 :
  (forall q ct pid, keeps_committed (upd q ct pid)) ->
  cursor c = (Ok tt, cc) ->
  open_order u num ct cc = (Ok oid, c0) ->
  place_lines_on upd oid ct 0%float pre c0 = (Ok tot, c1) ->
  committed c1 = committed c.
Proof.
  intros Hupd Hcur Hopen Hpre.
  rewrite (keeps_place_lines_on _ _ _ _ Hupd _ _ _ _ Hpre).
  rewrite (keeps_open_order _ _ _ _ _ _ Hopen).
  exact (keeps_cursor _ _ _ Hcur).
Qed.

(** A line whose conditional UPDATE reports no row: the handler rolls back
    and raises. *)
Lemma place_line_on_zero_rows upd oid ct tot item c1 st pr c2 y c3 :
  execute_select_product (product_id item) c1 = (Ok (Some (st, pr, false)), c2) ->
  quantity item <= st ->
  int_to_float (quantity item) = Some y ->
  upd (quantity item) ct (product_id item) c2 = (Ok 0, c3) ->
  calls_through 1 c3 ->
  exists c4,
    place_line_on upd oid ct tot item c1 =
      (Raise (HTTPException HTTP_400_BAD_REQUEST (detail_update_failed (product_id item))),
       c4) /\
    touches c3 [Rollback] c4 /\ in_transaction c4 = None /\
    faults c4 = tail (faults c3).
Proof.
  intros Hsel Hq Hy Hupd Hf.
  apply calls_through_S in Hf as [Hf _].
  destruct (rollback_through c3 Hf) as (c4 & Hrb & Ht & Hi & _ & Hfs).
  exists c4. split; [| done].
  unfold place_line_on. rewrite (bind_step _ _ _ _ _ Hsel). simpl.
  replace (st <? quantity item) with false by (symmetry; by apply Z.ltb_ge).
  assert (float_mul_int (float_of_decimal pr) (quantity item) c2 =
          (Ok (float_of_decimal pr * y)%float, c2)) as Hmul
    by (unfold float_mul_int; by rewrite Hy).
  rewrite (bind_step _ _ _ _ _ Hmul).
  apply bind_fail. unfold decrement_stock_on.
  rewrite (bind_step _ _ _ _ _ Hupd). simpl.
  by rewrite (bind_step _ _ _ _ _ Hrb).
Qed.

(** * The claims *)


(** C2.  A line changes the stock the transaction sees only by the guarded
    decrement: the product row was read with FOR UPDATE in this transaction,
    is not deleted, has at least the requested quantity, and loses exactly
    that quantity.  For the call as a whole: after a successful placement
    every product's committed stock is its former stock minus the quantity
    the request asked of it, the stock of every product the request refers
    to is non-negative, and whatever the outcome a store without negative
    stock stays without negative stock. *)
Theorem C2_stock_decrement :
  (forall oid ct tot item c r c',
     place_line oid ct tot item c = (r, c') ->
     products (view c') <> products (view c) ->
     exists p sts,
       products (view c) !! product_id item = Some p /\
       is_deleted p = false /\ quantity item <= stock p /\
       products (view c') =
         <[product_id item :=
             mk_product (name p) (price p) (stock p - quantity item)
               (is_deleted p) ct]> (products (view c)) /\
       trace c' =
         trace c ++ SelectProductForUpdate (product_id item) ::
                    UpdateProductStock (quantity item) ct (product_id item) :: sts) /\
  (forall od n1 n2 rnd c r c',
     create_order od n1 n2 rnd c = (Ok r, c') ->
     forall pid p, products (committed c) !! pid = Some p ->
       exists p', products (committed c') !! pid = Some p' /\
         stock p' = stock p - requested pid (items od) /\
         (pid ∈ map product_id (items od) -> 0 <= stock p')) /\
  (forall od n1 n2 rnd c r c',
     create_order od n1 n2 rnd c = (r, c') ->
     (forall pid p, products (committed c) !! pid = Some p -> 0 <= stock p) ->
     forall pid p', products (committed c') !! pid = Some p' -> 0 <= stock p').
Proof.
  split_and?.
  - intros oid ct tot item c [tot'|e] c' E Hneq.
    + apply place_line_Ok in E as (row & t' & L & _ & I & [_ Ht] & _).
      apply line_effect_row in L as (p & y & Hp & Hd & Hq & _ & -> & ->).
      exists p, [InsertOrderItem
                   (mk_order_item oid (product_id item) (quantity item)
                      (float_of_decimal (price p)) (float_of_decimal (price p) * y)%float
                      ct ct)].
      split_and?; [done | done | done | | done].
      unfold view at 1. by rewrite I.
    + apply place_line_Raise in E
        as (Hc & sts & Ht & _ & [Hi|(p & Hp & Hd & Hq & [sts' ->] & Hi)]).
      * exfalso. apply Hneq. unfold view. by rewrite Hi, Hc.
      * exists p, sts'. split_and?; [done | done | done | | done].
        unfold view at 1. by rewrite Hi.
  - intros od n1 n2 rnd c r c' E pid p Hp.
    apply create_order_Ok in E
      as (_ & _ & _ & _ & rows & t1 & L & Hc & _).
    destruct (lines_effect_products _ _ _ _ _ _ L pid) as [_ Hs].
    destruct (Hs _ Hp) as (p' & Hp' & Hst & _ & _ & _ & Hin).
    exists p'. rewrite Hc. simpl. split_and?; [done | done |].
    intros Hr. by destruct (Hin Hr).
  - intros od n1 n2 rnd c [a|e] c' E Hnn pid p' Hp'.
    + apply create_order_Ok in E
        as (_ & _ & _ & _ & rows & t1 & L & Hc & _).
      destruct (lines_effect_products _ _ _ _ _ _ L pid) as [Hn Hs].
      rewrite Hc in Hp'. simpl in Hn, Hs, Hp'.
      destruct (products (committed c) !! pid) as [p|] eqn:Hp.
      * destruct (Hs _ eq_refl) as (p2 & Hp2 & Hst & _ & _ & _ & Hin).
        simplify_eq. specialize (Hnn _ _ Hp).
        destruct (decide (pid ∈ map product_id (items od))) as [Hr|Hnr].
        -- by destruct (Hin Hr).
        -- rewrite (requested_not_referenced _ _ Hnr) in Hst. lia.
      * destruct (Hn eq_refl). congruence.
    + apply create_order_Raise in E as (Hc & _). rewrite Hc in Hp'. eauto.
Qed.

(** C3.  After a successful placement the committed order row carries as
    total amount the sum, accumulated from 0.0 in line order, of the
    subtotals of its order lines.  The lines are the rows the placement
    appended to [order_items], one per requested line and in request order,
    all carrying the order's id (and they are all the rows that carry it in
    a store that had no line of an order that does not exist).  Each line
    records as unit price the price its product had in the store, which the
    placement never writes, and as subtotal that unit price times the
    quantity. *)
Theorem C3_total_is_sum_of_subtotals od n1 n2 rnd c oid num c' :
  create_order od n1 n2 rnd c = (Ok (oid, num), c') ->
  exists lines o,
    order_items (committed c') = order_items (committed c) ++ lines /\
    Forall (fun row => item_order_id row = oid) lines /\
    ((forall row, row ∈ order_items (committed c) ->
        is_Some (orders (committed c) !! item_order_id row)) ->
     filter (fun row => item_order_id row = oid) (order_items (committed c')) = lines) /\
    orders (committed c') !! oid = Some o /\
    total_amount o = float_sum (map subtotal lines) /\
    Forall2
      (fun item row =>
         item_product_id row = product_id item /\
         item_quantity row = quantity item /\
         (exists p, products (committed c) !! product_id item = Some p /\
            unit_price row = float_of_decimal (price p)) /\
         (exists y, int_to_float (quantity item) = Some y /\
            subtotal row = (unit_price row * y)%float))
      (items od) lines.
Proof.
  intros E.
  apply create_order_Ok in E
    as (_ & _ & Hfresh & Hr & rows & t1 & L & Hc & _).
  simplify_eq.
  apply lines_effect_rows in L. simpl in L.
  assert (Hid : Forall (fun row => item_order_id row = next_order_id c) rows).
  { eapply Forall2_Forall_r; [exact L |]. apply Forall_forall.
    intros item _ row (? & ? & ? & ? & ->). done. }
  eexists rows, _. rewrite Hc. simpl. rewrite lookup_insert_eq.
  split_and?; [done | done | | done | done |].
  - intros Href. rewrite filter_app, filter_none, filter_all; [done | done |].
    apply Forall_forall. intros row Hin Heq.
    destruct (Href _ Hin) as [o Ho]. congruence.
  - eapply Forall2_impl; [exact L |].
    intros item row (p & y & Hp & Hy & ->). simpl. eauto 10.
Qed.

(** C4.  Take any line of a request, the lines before it having gone
    through, and let its locked read and the rollback go through.  The
    placement then tests, in this order: no such product: HTTP 404 naming
    the product id; the product is deleted: HTTP 400 "deactivated or
    deleted"; its stock is below the quantity: HTTP 400 "insufficient stock"
    with the available stock and the requested quantity.  In each case the
    locked read is the last statement before the rollback, nothing is
    committed and no transaction stays open.  The detail of the 404
    determines the product id, that of the insufficient-stock 400 the
    product id, the available and the requested quantity, and the details of
    the three failures are never confused with each other. *)
Theorem C4_line_checks od n1 n2 rnd c cc oid c0 pre item post tot c1 :
  items od = pre ++ item :: post ->
  cursor c = (Ok tt, cc) ->
  open_order (user_id od) (order_number n1 rnd) (strftime_sql n2) cc = (Ok oid, c0) ->
  place_lines oid (strftime_sql n2) 0%float pre c0 = (Ok tot, c1) ->
  calls_through 2 c1 ->
  (exists c',
     trace c' = trace c1 ++ [SelectProductForUpdate (product_id item); Rollback] /\
     committed c' = committed c /\ in_transaction c' = None /\
     match products (view c1) !! product_id item with
     | None =>
         create_order od n1 n2 rnd c =
         (Raise (HTTPException HTTP_404_NOT_FOUND (detail_not_found (product_id item))), c')
     | Some p =>
         if is_deleted p then
           create_order od n1 n2 rnd c =
           (Raise (HTTPException HTTP_400_BAD_REQUEST (detail_deleted (product_id item))),
            c')
         else if stock p <? quantity item then
           create_order od n1 n2 rnd c =
           (Raise (HTTPException HTTP_400_BAD_REQUEST
                     (detail_insufficient (product_id item) (stock p) (quantity item))),
            c')
         else True
     end) /\
  (forall pid pid', detail_not_found pid = detail_not_found pid' -> pid = pid') /\
  (forall pid pid', detail_deleted pid = detail_deleted pid' -> pid = pid') /\
  (forall pid available requested pid' available' requested',
     detail_insufficient pid available requested =
       detail_insufficient pid' available' requested' ->
     pid = pid' /\ available = available' /\ requested = requested') /\
  (forall pid pid' available requested,
     detail_not_found pid <> detail_deleted pid' /\
     detail_not_found pid <> detail_insufficient pid' available requested /\
     detail_deleted pid <> detail_insufficient pid' available requested).
Proof.
  intros Hitems Hcur Hopen Hpre Hf.
  split; [| split_and?].
  - apply calls_through_S in Hf as [Hf1 Hf2].
    destruct (place_line_rejects oid (strftime_sql n2) tot item c1 Hf1)
      as (c2 & [Hc2 Ht2] & Hi2 & Hfs2 & Hcase).
    specialize (Hf2 c2 Hfs2). apply calls_through_S in Hf2 as [Hf2 _].
    destruct (rollback_through c2 Hf2) as (c' & Hrb & [Hc' Ht'] & Hi' & _).
    exists c'.
    pose proof (fun s d Hline =>
                  create_order_on_line_abort execute_update_stock od n1 n2 rnd c cc oid c0
                    pre item post tot c1 s d c2 c' Hitems Hcur Hopen Hpre Hline Hrb)
      as Habort.
    split_and?.
    + by rewrite Ht', Ht2, <- app_assoc.
    + rewrite Hc', Hc2.
      exact (before_line_committed _ _ _ _ _ _ _ _ _ _ _
               keeps_execute_update_stock Hcur Hopen Hpre).
    + done.
    + destruct (products (view c1) !! product_id item) as [p|];
        [destruct (is_deleted p); [| destruct (stock p <? quantity item)] |];
        try done; exact (Habort _ _ Hcase).
  - intros pid pid' E. by read_detail E.
  - intros pid pid' E. by read_detail E.
  - intros pid a q pid' a' q' E. by read_detail E.
  - intros pid pid' a q. split_and?; intros E; by read_detail E.
Qed.

(** C5.  The stock update is conditional: it reports one row and takes the
    quantity off the stock when the product has at least that much at the
    time of the write, and reports zero rows and changes nothing otherwise.
    When the UPDATE of a line reports zero rows, on whatever server (the
    locked read having shown enough stock, this is the case of another
    session taking the stock in between), the placement rolls back and ends
    with HTTP 400 "stock update failed, possibly insufficient stock or a
    concurrency problem": nothing is committed, no transaction stays open.
    This exception has the status code of the insufficient-stock failure,
    400, and differs from it, and from the two other line failures, by its
    detail, whatever the numbers in the details. *)
Theorem C5_conditional_write :
  (forall q ct pid c rc c1,
     execute_update_stock q ct pid c = (Ok rc, c1) ->
     (rc = 1 /\
      exists p, products (view c) !! pid = Some p /\ q <= stock p /\
        products (view c1) =
          <[pid := mk_product (name p) (price p) (stock p - q) (is_deleted p) ct]>
            (products (view c)))
     \/ (rc = 0 /\ view c1 = view c /\
         forall p, products (view c) !! pid = Some p -> stock p < q)) /\
  (forall update_stock od n1 n2 rnd c cc oid c0 pre item post tot c1 st pr c2 y c3,
     (forall q ct pid, keeps_committed (update_stock q ct pid)) ->
     items od = pre ++ item :: post ->
     cursor c = (Ok tt, cc) ->
     open_order (user_id od) (order_number n1 rnd) (strftime_sql n2) cc = (Ok oid, c0) ->
     place_lines_on update_stock oid (strftime_sql n2) 0%float pre c0 = (Ok tot, c1) ->
     execute_select_product (product_id item) c1 = (Ok (Some (st, pr, false)), c2) ->
     quantity item <= st ->
     int_to_float (quantity item) = Some y ->
     update_stock (quantity item) (strftime_sql n2) (product_id item) c2 = (Ok 0, c3) ->
     calls_through 2 c3 ->
     exists c',
       create_order_on update_stock od n1 n2 rnd c =
         (Raise (HTTPException HTTP_400_BAD_REQUEST
                   (detail_update_failed (product_id item))), c') /\
       committed c' = committed c /\ in_transaction c' = None /\
       trace c' = trace c3 ++ [Rollback; Rollback]) /\
  (forall pid pid', detail_update_failed pid = detail_update_failed pid' -> pid = pid') /\
  (forall pid pid' available requested,
     detail_update_failed pid <> detail_insufficient pid' available requested /\
     detail_update_failed pid <> detail_not_found pid' /\
     detail_update_failed pid <> detail_deleted pid').
Proof.
  split_and?.
  - intros q ct pid c rc c1 E.
    destruct (execute_update_stock_spec _ _ _ _ _ _ E)
      as ([Hc Ht] & Hn & [(f & ? & _)|[(? & Hi & Hlt)|(p & ? & Hp & Hq & Hi)]]);
      simplify_eq.
    + right. split; [done |]. split; [| done]. unfold view. by rewrite Hi, Hc.
    + left. split; [done |]. exists p. split_and?; [done | done |].
      unfold view at 1. by rewrite Hi.
  - intros upd od n1 n2 rnd c cc oid c0 pre item post tot c1 st pr c2 y c3
      Hupd Hitems Hcur Hopen Hpre Hsel Hq Hy Hzero Hf.
    destruct (place_line_on_zero_rows upd oid (strftime_sql n2) tot item c1 st pr c2 y c3
                Hsel Hq Hy Hzero) as (c4 & Hline & [Hc4 Ht4] & Hi4 & Hfs4);
      [apply (calls_through_mono 1 2); [lia | done] |].
    apply calls_through_S in Hf as [_ Hf]. specialize (Hf c4 Hfs4).
    apply calls_through_S in Hf as [Hf _].
    destruct (rollback_through c4 Hf) as (c' & Hrb & [Hc' Ht'] & Hi' & _).
    exists c'. split_and?.
    + exact (create_order_on_line_abort upd od n1 n2 rnd c cc oid c0 pre item post tot
               c1 _ _ c4 c' Hitems Hcur Hopen Hpre Hline Hrb).
    + rewrite Hc', Hc4, (Hupd _ _ _ _ _ _ Hzero),
        (keeps_execute_select_product _ _ _ _ Hsel).
      exact (before_line_committed _ _ _ _ _ _ _ _ _ _ _ Hupd Hcur Hopen Hpre).
    + done.
    + by rewrite Ht', Ht4, <- app_assoc.
  - intros pid pid' E. by read_detail E.
  - intros pid pid' a q. split_and?; intros E; by read_detail E.
Qed.

(** C6, as the code has it.  The product rows are locked in the order in
    which the caller supplied the lines, one locked read per line and no
    reordering: whatever the outcome, the locked reads of a placement are
    those of a prefix of the request's lines, in request order, and of all
    the lines when the placement succeeds. *)
Theorem C6_locks_in_request_order od n1 n2 rnd c :
  let out := create_order od n1 n2 rnd c in
  exists k : nat,
    locks_of (trace out.2) =
      locks_of (trace c) ++ map product_id (take k (items od)) /\
    (forall a, out.1 = Ok a -> k = length (items od)).
Proof.
  simpl. destruct (create_order od n1 n2 rnd c) as [[a|e] c'] eqn:E; simpl.
  - apply create_order_Ok in E
      as (_ & _ & _ & _ & rows & t1 & L & _ & _ & Ht).
    exists (length (items od)). split; [| done].
    apply lines_effect_rows, rows_product_ids in L.
    rewrite Ht, firstn_all. unfold locks_of. rewrite !omap_app.
    fold (locks_of (concat (map line_stmts rows))).
    rewrite locks_of_line_stmts, L. simpl. by rewrite app_nil_r.
  - apply create_order_Raise in E as (_ & [k Hk] & _).
    exists k. split; [done | done].
Qed.

(** C7.  The order number is made of the clock reading to the second and
    of two bytes of [os.urandom]: two numbers of the handler are equal
    exactly when their clock readings agree in year, month, day, hour,
    minute and second (the microseconds do not enter) and the two random
    bytes are the same.  All 16 random bits are in the number, as four
    hexadecimal characters, and every pair of bytes can occur.  The number
    a placement returns is this function of the clock and the random bytes
    whatever the store holds and whatever id the order gets, and the handler
    sends nothing to the store before the INSERT that carries the number,
    other than the start of the transaction. *)
Theorem C7_order_number :
  (forall t1 t2 r1 r2,
     datetime_valid t1 -> datetime_valid t2 ->
     order_number t1 r1 = order_number t2 r2 ->
     to_the_second t1 = to_the_second t2 /\ urandom 2 r1 = urandom 2 r2) /\
  (forall t1 t2 r1 r2,
     to_the_second t1 = to_the_second t2 -> urandom 2 r1 = urandom 2 r2 ->
     order_number t1 r1 = order_number t2 r2) /\
  (forall rnd,
     length (urandom 2 rnd) = 2%nat /\ String.length (hex (urandom 2 rnd)) = 4%nat) /\
  (forall b0 b1 : Byte.byte, exists rnd, urandom 2 rnd = [b0; b1]) /\
  (forall od n1 n2 rnd c oid num c',
     create_order od n1 n2 rnd c = (Ok (oid, num), c') -> num = order_number n1 rnd) /\
  (forall od n1 n2 rnd c,
     let out := create_order od n1 n2 rnd c in
     exists issued, trace out.2 = trace c ++ issued /\
       (issued = [] \/ issued = [Rollback] \/ issued = [StartTransaction; Rollback]
        \/ exists rest,
             issued = StartTransaction ::
                      InsertOrder (user_id od) (order_number n1 rnd)
                        (strftime_sql n2) (strftime_sql n2) :: rest)).
Proof.
  split_and?.
  - intros t1 t2 r1 r2 V1 V2 E.
    unfold datetime_valid in V1, V2.
    unfold order_number, strftime_compact in E.
    apply append_inv_head in E. rewrite !append_assoc in E.
    assert (forall n, (n < 100)%N -> String.length (pad2 n) = 2%nat) as Hlen
      by (intros n Hn; by apply pad2_read).
    apply append_inv_tail_length in E as [Ey E];
      [| rewrite !length_append, !Hlen, !hex_urandom_2 by lia; done].
    apply (inj pretty) in Ey.
    repeat match type of E with
           | pad2 _ +:+ _ = pad2 _ +:+ _ =>
               apply append_length_inj in E as [?%pad2_inj E];
               [| lia | lia | rewrite !Hlen by lia; done]
           end.
    apply hex_inj in E. unfold to_the_second. split; [congruence | done].
  - intros [y1 mo1 d1 h1 mi1 s1 us1] [y2 mo2 d2 h2 mi2 s2 us2] r1 r2 Et Er.
    unfold to_the_second in Et. simpl in Et. injection Et as -> -> -> -> -> ->.
    unfold order_number, strftime_compact.
    cbn [year month day hour minute second]. by rewrite Er.
  - done.
  - intros b0 b1. by exists (fun i => match i with 0%nat => b0 | _ => b1 end).
  - intros od n1 n2 rnd c oid num c' E.
    apply create_order_Ok in E as (_ & _ & _ & Hr & _). by simplify_eq.
  - intros od n1 n2 rnd c out. subst out.
    destruct (create_order od n1 n2 rnd c) as [r c'] eqn:E. simpl.
    apply create_order_cases in E
      as [[_ Hu]|(cc & _ & (_ & _ & Hn & Htcc) & [(a & -> & E)|(e0 & c1 & E1 & E2)])].
    + exists []. destruct Hu as (_ & _ & _ & ->). by rewrite app_nil_r; eauto.
    + destruct (create_order_try_trace _ _ _ _ _ _ _ E)
        as (sts & Ht & [[Hne _]|[rest ->]]).
      * apply create_order_try_Ok in E as (_ & _ & _ & -> & _). done.
      * rewrite Htcc in Ht. eauto 10.
    + apply create_order_try_trace in E1 as (sts & Ht & Hs).
      apply create_order_except_spec in E2 as (_ & Ht2 & _).
      exists (sts ++ [Rollback]). split; [by rewrite Ht2, Ht, Htcc, <- app_assoc |].
      destruct Hs as [[_ [->| ->]]|[rest ->]]; eauto 10.
Qed.

(** C8.  The order row is inserted with status 'pending' and the zero total
    amount, and the id the insert generated is kept.  When the insert
    produced no id the placement raises HTTP 500 "cannot create order" and
    rolls back.  On success the total is written once, by the last
    statement before the commit and after the statements of all the lines,
    and it is the sum accumulated over the lines. *)
Theorem C8_order_row :
  (forall u num ct c oid c0,
     open_order u num ct c = (Ok oid, c0) ->
     oid = next_order_id c /\ oid <> 0 /\
     orders (view c0) !! oid = Some (mk_order u num "pending" 0%float ct ct)) /\
  (forall od n1 n2 rnd c,
     in_transaction c = None -> faults c = [] ->
     next_order_id c = 0 -> orders (committed c) !! 0 = None ->
     exists c',
       create_order od n1 n2 rnd c =
       (Raise (HTTPException HTTP_500_INTERNAL_SERVER_ERROR detail_no_order_id), c') /\
       committed c' = committed c /\ in_transaction c' = None) /\
  (forall od n1 n2 rnd c oid num c',
     create_order od n1 n2 rnd c = (Ok (oid, num), c') ->
     exists rows o,
       order_items (committed c') = order_items (committed c) ++ rows /\
       length rows = length (items od) /\
       orders (committed c') !! oid = Some o /\
       status o = "pending" /\
       total_amount o = float_sum (map subtotal rows) /\
       trace c' =
         trace c ++
         [StartTransaction;
          InsertOrder (user_id od) num (strftime_sql n2) (strftime_sql n2)] ++
         concat (map line_stmts rows) ++
         [UpdateOrderTotal (float_sum (map subtotal rows)) oid; Commit]).
Proof.
  split_and?.
  - intros u num ct c oid c0 E.
    apply open_order_Ok in E as (_ & -> & Hnz & _ & _ & I).
    split_and?; [done | done |]. unfold view. rewrite I. simpl.
    by rewrite lookup_insert_eq.
  - intros od n1 n2 rnd [t w n fs tr] Hi Hf Hn Ho. simpl in *. subst.
    eexists. unfold create_order, create_order_on, cursor, driver_call, try_except,
      create_order_try_on, open_order, start_transaction, execute_insert_order,
      rollback, send, read, write, bind, view.
    simpl. rewrite Ho. simpl. split; [reflexivity |]. done.
  - intros od n1 n2 rnd c oid num c' E.
    apply create_order_Ok in E
      as (_ & _ & _ & Hr & rows & t1 & L & Hc & _ & Ht).
    simplify_eq. apply lines_effect_tables in L as (_ & _ & Hl).
    eexists rows, _. rewrite Hc. simpl. rewrite lookup_insert_eq.
    split_and?; [done | done | done | done | done | exact Ht].
Qed.

(** C9.  A body with a non-positive user id, with an empty list of items,
    or with an item whose product id or quantity is not positive, does not
    reach the handler: it is answered as unprocessable and the connection is
    left as it was, so no transaction is started and no statement sent. *)
Theorem C9_invalid_input_rejected body n1 n2 rnd db :
  user_id body <= 0 \/ items body = [] \/
  Exists (fun i => product_id i <= 0 \/ quantity i <= 0) (items body) ->
  post_api_orders body n1 n2 rnd db = (Unprocessable, db).
Proof.
  intros Hbad. unfold post_api_orders.
  replace (CreateOrderRequest_valid body) with false; [done |].
  symmetry. unfold CreateOrderRequest_valid.
  destruct Hbad as [Hu|[Hi|Hx]].
  - replace (0 <? user_id body) with false; [done |]. symmetry. by apply Z.ltb_ge.
  - rewrite Hi. simpl. by rewrite andb_false_r.
  - apply andb_false_intro2. apply not_true_is_false. intros Hall.
    rewrite forallb_forall in Hall. apply Exists_exists in Hx as (i & Hin & Hbad).
    apply list_elem_of_In, Hall in Hin. unfold OrderItemRequest_valid in Hin.
    apply andb_prop in Hin as [Hp%Z.ltb_lt Hq%Z.ltb_lt]. lia.
Qed.




End Verification.

(** * The claims on concrete runs *)



Lemma demo_store_stock_nonneg pid p :
  products Demo.store !! pid = Some p -> 0 <= stock p.
Proof.
  unfold Demo.store. simpl. rewrite !lookup_insert, lookup_empty.
  repeat case_decide; intros E; simplify_eq; simpl; lia.
Qed.

Lemma C2_witness :
  (exists p sts,
     products Demo.store !! 1 = Some p /\ is_deleted p = false /\ 3 <= stock p /\
     products (view (place_line 1 "t" 0%float (mk_item_request 1 3) (Demo.db [])).2) =
       <[1 := mk_product (name p) (price p) (stock p - 3) (is_deleted p) "t"]>
         (products Demo.store) /\
     trace (place_line 1 "t" 0%float (mk_item_request 1 3) (Demo.db [])).2 =
       [] ++ SelectProductForUpdate 1 :: UpdateProductStock 3 "t" 1 :: sts) /\
  (exists p',
     products (committed (Demo.run Demo.twice (Demo.db [])).2) !! 1 = Some p' /\
     stock p' = 5 - requested 1 (items Demo.twice) /\
     (1 ∈ map product_id (items Demo.twice) -> 0 <= stock p')) /\
  (forall pid p',
     products (committed (Demo.run Demo.second_line_unknown (Demo.db [])).2) !! pid =
       Some p' -> 0 <= stock p').
Proof.
  destruct C2_stock_decrement as (Hline & Hok & Hany). split_and?.
  - apply (Hline 1 "t" 0%float (mk_item_request 1 3) (Demo.db [])
             (place_line 1 "t" 0%float (mk_item_request 1 3) (Demo.db [])).1).
    + by destruct (place_line _ _ _ _ _).
    + intros Heq. apply (f_equal (fun m => stock <$> m !! 1)) in Heq.
      vm_compute in Heq. discriminate.
  - apply (Hok Demo.twice Demo.now Demo.now Demo.rnd (Demo.db [])
             (1, order_number Demo.now Demo.rnd) _ ltac:(vm_compute; reflexivity) 1 Demo.P).
    reflexivity.
  - apply (Hany Demo.second_line_unknown Demo.now Demo.now Demo.rnd (Demo.db [])
             (Demo.run Demo.second_line_unknown (Demo.db [])).1).
    + unfold Demo.run. by destruct (create_order _ _ _ _ _).
    + exact demo_store_stock_nonneg.
Defined.

Lemma C3_witness :
  exists lines o,
    order_items (committed (Demo.run Demo.twice (Demo.db [])).2) = lines /\
    length lines = 2%nat /\
    orders (committed (Demo.run Demo.twice (Demo.db [])).2) !! 1 = Some o /\
    total_amount o = float_sum (map subtotal lines) /\
    total_amount o = 50%float.
Proof.
  destruct (C3_total_is_sum_of_subtotals Demo.twice Demo.now Demo.now Demo.rnd
              (Demo.db []) 1 (order_number Demo.now Demo.rnd)
              (Demo.run Demo.twice (Demo.db [])).2)
    as (lines & o & Hl & _ & _ & Ho & Ht & Hrows).
  - vm_compute. reflexivity.
  - exists lines, o. split_and?; [exact Hl | | exact Ho | exact Ht |].
    + apply Forall2_length in Hrows. by rewrite <- Hrows.
    + assert (Some (total_amount o) = Some 50%float) as Hs; [| by injection Hs].
      change (Some (total_amount o)) with (total_amount <$> Some o).
      rewrite <- Ho. vm_compute. reflexivity.
Defined.

Lemma C4_witness :
  exists c',
    Demo.run Demo.second_line_unknown (Demo.db []) =
      (Raise (HTTPException 404 (detail_not_found 9)), c') /\
    committed c' = Demo.store /\ in_transaction c' = None.
Proof.
  destruct (C4_line_checks Demo.second_line_unknown Demo.now Demo.now Demo.rnd
              (Demo.db []) (Demo.db []) 1
              (open_order 7 (order_number Demo.now Demo.rnd) (strftime_sql Demo.now)
                 (Demo.db [])).2
              [mk_item_request 1 3] (mk_item_request 9 1) [] 30%float
              (place_lines 1 (strftime_sql Demo.now) 0%float [mk_item_request 1 3]
                 (open_order 7 (order_number Demo.now Demo.rnd) (strftime_sql Demo.now)
                    (Demo.db [])).2).2)
    as [(c' & _ & Hc & Hi & Hm) _].
  - reflexivity.
  - reflexivity.
  - vm_compute. reflexivity.
  - vm_compute. reflexivity.
  - apply calls_through_nil. reflexivity.
  - exists c'. split; [exact Hm | done].
Defined.

Lemma C5_witness :
  exists c',
    create_order_on (racing_update_stock 1) Demo.descending Demo.now Demo.now Demo.rnd
      (Demo.db []) =
      (Raise (HTTPException 400 (detail_update_failed 1)), c') /\
    committed c' = Demo.store /\ in_transaction c' = None.
Proof.
  destruct C5_conditional_write as (_ & Hzero & _).
  destruct (Hzero (racing_update_stock 1) Demo.descending Demo.now Demo.now Demo.rnd
              (Demo.db []) (Demo.db []) 1
              (open_order 7 (order_number Demo.now Demo.rnd) (strftime_sql Demo.now)
                 (Demo.db [])).2
              [mk_item_request 2 1] (mk_item_request 1 1) [] 2.5%float
              (place_lines_on (racing_update_stock 1) 1 (strftime_sql Demo.now) 0%float
                 [mk_item_request 2 1]
                 (open_order 7 (order_number Demo.now Demo.rnd) (strftime_sql Demo.now)
                    (Demo.db [])).2).2
              5 10%float
              (execute_select_product 1
                 (place_lines_on (racing_update_stock 1) 1 (strftime_sql Demo.now) 0%float
                    [mk_item_request 2 1]
                    (open_order 7 (order_number Demo.now Demo.rnd) (strftime_sql Demo.now)
                       (Demo.db [])).2).2).2
              1%float
              (racing_update_stock 1 1 (strftime_sql Demo.now) 1
                 (execute_select_product 1
                    (place_lines_on (racing_update_stock 1) 1 (strftime_sql Demo.now)
                       0%float [mk_item_request 2 1]
                       (open_order 7 (order_number Demo.now Demo.rnd)
                          (strftime_sql Demo.now) (Demo.db [])).2).2).2).2)
    as (c' & Hr & Hc & Hi & _).
  - intros q ct pid. apply keeps_racing_update_stock.
  - reflexivity.
  - reflexivity.
  - vm_compute. reflexivity.
  - vm_compute. reflexivity.
  - vm_compute. reflexivity.
  - simpl. lia.
  - vm_compute. reflexivity.
  - vm_compute. reflexivity.
  - apply calls_through_nil. reflexivity.
  - exists c'. done.
Defined.

Lemma C6_witness :
  exists k : nat,
    locks_of (trace (Demo.run Demo.descending (Demo.db [])).2) =
      [] ++ map product_id (take k (items Demo.descending)) /\
    (forall a, (Demo.run Demo.descending (Demo.db [])).1 = Ok a -> k = 2%nat).
Proof.
  exact (C6_locks_in_request_order Demo.descending Demo.now Demo.now Demo.rnd (Demo.db [])).
Defined.

(** C6, as stated, fails: for the lines (product 2, product 1) the placement
    succeeds and locks product 2 before product 1, which is not ascending
    product id. *)
Lemma C6_counterexample :
  (exists a, (Demo.run Demo.descending (Demo.db [])).1 = Ok a) /\
  locks_of (trace (Demo.run Demo.descending (Demo.db [])).2) = [2; 1] /\
  ~ Sorted Z.le (locks_of (trace (Demo.run Demo.descending (Demo.db [])).2)).
Proof.
  split_and?.
  - eexists. vm_compute. reflexivity.
  - vm_compute. reflexivity.
  - replace (locks_of _) with [2; 1] by (vm_compute; reflexivity).
    intros Hs. inversion Hs as [|? ? _ Hhd]; subst.
    inversion Hhd as [|? ? Hle]; subst. lia.
Qed.

Lemma C7_witness :
  order_number Demo.now Demo.rnd = "ORD20240309140507a30f" /\
  to_the_second Demo.now = to_the_second (mk_datetime 2024 3 9 14 5 7 0) /\
  urandom 2 Demo.rnd = [Byte.xa3; Byte.x0f].
Proof.
  destruct C7_order_number as (Hinj & _).
  split; [reflexivity |].
  apply (Hinj Demo.now (mk_datetime 2024 3 9 14 5 7 0) Demo.rnd
           (fun i => match i with 0%nat => Byte.xa3 | _ => Byte.x0f end)).
  - unfold datetime_valid. simpl. lia.
  - unfold datetime_valid. simpl. lia.
  - reflexivity.
Defined.

Lemma C8_witness :
  (exists c',
     Demo.run Demo.one_line Demo.db_no_id =
       (Raise (HTTPException 500 detail_no_order_id), c') /\
     committed c' = Demo.store /\ in_transaction c' = None) /\
  (exists rows o,
     order_items (committed (Demo.run Demo.one_line (Demo.db [])).2) = [] ++ rows /\
     length rows = 1%nat /\
     orders (committed (Demo.run Demo.one_line (Demo.db [])).2) !! 1 = Some o /\
     status o = "pending" /\
     total_amount o = float_sum (map subtotal rows) /\
     trace (Demo.run Demo.one_line (Demo.db [])).2 =
       [] ++
       [StartTransaction;
        InsertOrder 7 (order_number Demo.now Demo.rnd) (strftime_sql Demo.now)
          (strftime_sql Demo.now)] ++
       concat (map line_stmts rows) ++
       [UpdateOrderTotal (float_sum (map subtotal rows)) 1; Commit]) /\
  orders (view (open_order 7 "ORD" "t" (Demo.db [])).2) !! 1 =
    Some (mk_order 7 "ORD" "pending" 0%float "t" "t").
Proof.
  destruct C8_order_row as (Hopen & Hnoid & Hok). split_and?.
  - apply (Hnoid Demo.one_line Demo.now Demo.now Demo.rnd Demo.db_no_id); reflexivity.
  - apply (Hok Demo.one_line Demo.now Demo.now Demo.rnd (Demo.db []) 1
             (order_number Demo.now Demo.rnd)).
    vm_compute. reflexivity.
  - apply (Hopen 7 "ORD" "t" (Demo.db []) 1). vm_compute. reflexivity.
Defined.

Lemma C9_witness :
  items Demo.empty = [] /\
  post_api_orders Demo.empty Demo.now Demo.now Demo.rnd (Demo.db []) =
    (Unprocessable, Demo.db []).
Proof.
  split; [reflexivity |].
  apply C9_invalid_input_rejected. right. left. reflexivity.
Defined.


(** ** The scenarios of the specification, run on the model *)

(** Stock 5, price 10.00, one line of quantity 3: the placement succeeds,
    the stock becomes 2 and the total 30.00. *)
Example scenario_success :
  (Demo.run Demo.one_line (Demo.db [])).1 = Ok (1, "ORD20240309140507a30f") /\
  (stock <$> products (committed (Demo.run Demo.one_line (Demo.db [])).2) !! 1) = Some 2 /\
  (total_amount <$> orders (committed (Demo.run Demo.one_line (Demo.db [])).2) !! 1) =
    Some 30%float.
Proof. vm_compute. done. Qed.

(** Quantity 6 of a product with stock 5: HTTP 400 with the available and
    the requested quantity, the stock stays 5 and no order row persists. *)
Example scenario_insufficient_stock :
  (Demo.run (mk_order_request 7 [mk_item_request 1 6]) (Demo.db [])).1 =
    Raise (HTTPException 400 "產品 ID 1 庫存不足。可用: 5, 需求: 6") /\
  committed (Demo.run (mk_order_request 7 [mk_item_request 1 6]) (Demo.db [])).2 =
    Demo.store.
Proof. vm_compute. done. Qed.

(** A product id that does not exist: HTTP 404, nothing persists. *)
Example scenario_unknown_product :
  (Demo.run (mk_order_request 7 [mk_item_request 999999 1]) (Demo.db [])).1 =
    Raise (HTTPException 404 "產品 ID 999999 不存在") /\
  committed (Demo.run (mk_order_request 7 [mk_item_request 999999 1]) (Demo.db [])).2 =
    Demo.store.
Proof. vm_compute. done. Qed.

(** The driver fails on the stock update of the second line, after the first
    line's stock was taken in the transaction: HTTP 500 carrying the driver's
    message, and the committed tables are those before the call. *)
Example scenario_driver_error :
  Demo.run Demo.twice
    (Demo.db [None; None; None; None; None; None; None;
              Some (DriverError "Lock wait timeout")]) =
  (Raise (HTTPException 500 "伺服器錯誤: 無法創建訂單。詳細錯誤: Lock wait timeout"),
   mk_conn Demo.store None 2 []
     [StartTransaction;
      InsertOrder 7 "ORD20240309140507a30f" "2024-03-09 14:05:07" "2024-03-09 14:05:07";
      SelectProductForUpdate 1;
      UpdateProductStock 2 "2024-03-09 14:05:07" 1;
      InsertOrderItem
        (mk_order_item 1 1 2 10%float 20%float "2024-03-09 14:05:07" "2024-03-09 14:05:07");
      SelectProductForUpdate 1;
      UpdateProductStock 3 "2024-03-09 14:05:07" 1;
      Rollback]).
Proof. vm_compute. reflexivity. Qed.

(** The second line of the same product reads the stock the first line
    left: 5 - 3 = 2 is less than 3. *)
Example scenario_repeated_product_short :
  (Demo.run (mk_order_request 7 [mk_item_request 1 3; mk_item_request 1 3]) (Demo.db [])).1 =
    Raise (HTTPException 400 "產品 ID 1 庫存不足。可用: 2, 需求: 3").
Proof. vm_compute. reflexivity. Qed.

(** * Verification of the listing, detail and status endpoints *)

Section EndpointsVerification.
Context `{PriceColumn} `{!TableScan}.

Ltac unfold_calls :=
  unfold cursor, driver_call, lift, except_Error, commit, rollback, send, write, read,
    bind, ret, raise, try_except, set_in_transaction, log, view in *.

Ltac crunch_calls := unfold_calls; simpl in *; repeat case_match; simplify_eq/=.

(** ** Lists *)

Lemma pages_concat {A} (l : list A) (n k : nat) :
  concat ((fun p => take n (drop (p * n) l)) <$> seq 0 k) = take (k * n) l.
Proof.
  induction k as [|k IH]; [done |].
  rewrite seq_S, fmap_app, concat_app, IH. simpl. rewrite app_nil_r.
  rewrite take_take_drop. f_equal. lia.
Qed.

Lemma limit_offset_page {A} (limit : Z) (p : nat) (l : list A) :
  0 < limit ->
  limit_offset limit ((Z.of_nat (S p) - 1) * limit) l =
  take (Z.to_nat limit) (drop (p * Z.to_nat limit) l).
Proof.
  intros Hl. unfold limit_offset. do 2 f_equal.
  replace (Z.of_nat (S p) - 1) with (Z.of_nat p) by lia.
  rewrite Z2Nat.inj_mul by lia. by rewrite Nat2Z.id.
Qed.

Lemma limit_offset_length {A} (limit offset : Z) (l : list A) :
  0 < limit -> Z.of_nat (length (limit_offset limit offset l)) <= limit.
Proof. intros Hl. unfold limit_offset. rewrite length_take. lia. Qed.

Lemma limit_offset_sublist {A} (limit offset : Z) (l : list A) :
  limit_offset limit offset l `sublist_of` l.
Proof.
  unfold limit_offset. etrans; [apply sublist_take | apply sublist_drop].
Qed.

Lemma limit_offset_past_end {A} (limit offset : Z) (l : list A) :
  Z.of_nat (length l) <= offset -> limit_offset limit offset l = [].
Proof.
  intros Hl. unfold limit_offset. rewrite drop_ge by lia. by rewrite take_nil.
Qed.

(** ** The page count *)

Lemma page_count_empty limit : page_count 0 limit = Ok 0.
Proof. done. Qed.

Lemma page_count_Raise total_items limit e :
  page_count total_items limit = Raise e -> exists m, e = Exception m.
Proof.
  unfold page_count, int_true_div, math_ceil. intros E.
  repeat case_match; simplify_eq; eauto.
Qed.

(** ** GET /api/orders *)

Lemma get_orders_spec page limit c r c' :
  get_orders page limit c = (r, c') ->
  untouched c c' /\
  (limit <= 0 -> r = Raise (HTTPException HTTP_400_BAD_REQUEST detail_limit) /\ c' = c) /\
  (0 < limit -> page <= 0 ->
   r = Raise (HTTPException HTTP_400_BAD_REQUEST detail_page) /\ c' = c) /\
  (0 < limit -> 0 < page ->
   match r with
   | Ok resp =>
       exists total_pages,
         page_count (Z.of_nat (size (orders (view c)))) limit = Ok total_pages /\
         resp =
           mk_order_list
             (order_response <$>
                limit_offset limit ((page - 1) * limit) (scan_orders (orders (view c))))
             page total_pages (Z.of_nat (size (orders (view c))))
   | Raise e =>
       e = HTTPException HTTP_500_INTERNAL_SERVER_ERROR detail_orders_failed
       \/ (exists m, e = Exception m) \/ (exists m, e = Error m)
   end).
Proof.
  unfold get_orders. intros E.
  destruct (limit <=? 0) eqn:Hl; [apply Z.leb_le in Hl | apply Z.leb_gt in Hl].
  { unfold raise in E. simplify_eq. split; [apply untouched_refl |].
    split_and?; [done | lia | lia]. }
  destruct (page <=? 0) eqn:Hp; [apply Z.leb_le in Hp | apply Z.leb_gt in Hp].
  { unfold raise in E. simplify_eq. split; [apply untouched_refl |].
    split_and?; [lia | done | lia]. }
  assert (untouched c c' /\
          match r with
          | Ok resp =>
              exists total_pages,
                page_count (Z.of_nat (size (orders (view c)))) limit = Ok total_pages /\
                resp =
                  mk_order_list
                    (order_response <$>
                       limit_offset limit ((page - 1) * limit)
                         (scan_orders (orders (view c))))
                    page total_pages (Z.of_nat (size (orders (view c))))
          | Raise e =>
              e = HTTPException HTTP_500_INTERNAL_SERVER_ERROR detail_orders_failed
              \/ (exists m, e = Exception m) \/ (exists m, e = Error m)
          end) as [Hu Hr].
  { unfold untouched. crunch_calls;
      repeat match goal with f : fault |- _ => destruct f; simplify_eq/= end;
      (split; [done |]);
      first [ by eauto
            | by eexists; split; [eassumption |]
            | match goal with
              | Hx : page_count _ _ = Raise _ |- _ =>
                  apply page_count_Raise in Hx as [? ?]; simplify_eq; eauto
              end
            | congruence ]. }
  split; [done |]. split_and?; [lia | lia | done].
Qed.

Lemma pages_concat_fmap {A B} (f : A -> B) (l : list A) (n k : nat) :
  concat ((fun p => f <$> take n (drop (p * n) l)) <$> seq 0 k) = f <$> take (k * n) l.
Proof.
  induction k as [|k IH]; [done |].
  rewrite seq_S, fmap_app, concat_app, IH. simpl. rewrite app_nil_r.
  rewrite <- fmap_app, take_take_drop. do 2 f_equal. lia.
Qed.

Lemma scan_orders_ids m : NoDup ((scan_orders m).*1).
Proof. rewrite scan_orders_rows. apply NoDup_fst_map_to_list. Qed.

Lemma scan_orders_lookup m id o : (id, o) ∈ scan_orders m <-> m !! id = Some o.
Proof. rewrite scan_orders_rows. apply elem_of_map_to_list. Qed.

Lemma scan_orders_length m : length (scan_orders m) = size m.
Proof. rewrite scan_orders_rows. apply length_map_to_list. Qed.

Lemma order_response_id (rows : list (Z * order)) :
  resp_id <$> (order_response <$> rows) = rows.*1.
Proof. rewrite <- list_fmap_compose. by apply list_fmap_ext. Qed.

(** X1.  A page of orders that is answered holds at most [limit] orders, no
    order twice, and each with the fields of the stored order of that id; it
    reports the page asked for and the number of stored orders; a page past
    the last order is answered with an empty list, not an error, and an
    empty table gives zero pages. *)
Theorem X1_get_orders_page page limit c resp c' :
  get_orders page limit c = (Ok resp, c') ->
  orders_page resp = page /\
  orders_total_items resp = Z.of_nat (size (orders (view c))) /\
  Z.of_nat (length (orders_data resp)) <= limit /\
  NoDup (resp_id <$> orders_data resp) /\
  (forall x, x ∈ orders_data resp ->
     exists o, orders (view c) !! resp_id x = Some o /\
       x = order_response (resp_id x, o)) /\
  (Z.of_nat (size (orders (view c))) <= (page - 1) * limit -> orders_data resp = []) /\
  (size (orders (view c)) = 0%nat -> orders_total_pages resp = 0).
Proof.
  intros E. apply get_orders_spec in E as (_ & Hbad & Hbadp & Hok).
  assert (0 < limit) as Hl.
  { destruct (decide (limit <= 0)) as [Hle|]; [by destruct (Hbad Hle) | lia]. }
  assert (0 < page) as Hp.
  { destruct (decide (page <= 0)) as [Hle|]; [by destruct (Hbadp Hl Hle) | lia]. }
  destruct (Hok Hl Hp) as (tp & Hpc & ->). simpl.
  split_and?; [done | done | | | | |].
  - rewrite length_fmap. by apply limit_offset_length.
  - rewrite order_response_id.
    apply (sublist_NoDup _ ((scan_orders (orders (view c))).*1));
      [apply scan_orders_ids | apply fmap_sublist, limit_offset_sublist].
  - intros x [[id o] [-> Hin]]%list_elem_of_fmap. exists o. split; [| done]. simpl.
    apply scan_orders_lookup.
    eapply elem_of_sublist; [exact Hin | apply limit_offset_sublist].
  - intros Hpast. rewrite limit_offset_past_end; [done |].
    by rewrite scan_orders_length.
  - intros Hz. rewrite Hz in Hpc. unfold page_count in Hpc. simpl in Hpc. congruence.
Qed.

(** X2.  The pages of one listing fit together: the first [k] pages of
    size [limit], one after the other, are the first [k * limit] rows of the
    table in the order the server returns them; once [k * limit] reaches the
    number of orders they hold every stored order exactly once. *)
Theorem X2_get_orders_pages_cover limit (k : nat) c (r : nat -> OrderListResponse) :
  0 < limit ->
  (forall p, (p < k)%nat ->
     exists c', get_orders (Z.of_nat (S p)) limit c = (Ok (r p), c')) ->
  concat ((fun p => orders_data (r p)) <$> seq 0 k) =
    order_response <$> take (k * Z.to_nat limit) (scan_orders (orders (view c))) /\
  ((size (orders (view c)) <= k * Z.to_nat limit)%nat ->
   concat ((fun p => orders_data (r p)) <$> seq 0 k) ≡ₚ
     order_response <$> map_to_list (orders (view c))).
Proof.
  intros Hl Hpages.
  assert (concat ((fun p => orders_data (r p)) <$> seq 0 k) =
          order_response <$> take (k * Z.to_nat limit) (scan_orders (orders (view c))))
    as Hcat.
  { rewrite <- pages_concat_fmap. f_equal. apply list_fmap_ext.
    intros i p Hp. apply lookup_seq in Hp as [-> Hlt]. simpl.
    destruct (Hpages _ Hlt) as [c' E].
    apply get_orders_spec in E as (_ & _ & _ & Hok).
    destruct (Hok Hl ltac:(lia)) as (tp & _ & ->). simpl.
    by rewrite limit_offset_page. }
  split; [done |]. intros Hall. rewrite Hcat, take_ge.
  - by rewrite scan_orders_rows.
  - by rewrite scan_orders_length.
Qed.

(** ** GET /api/products *)

Lemma get_products_spec page limit c r c' :
  get_products page limit c = (r, c') ->
  untouched c c' /\
  (limit <= 0 -> r = Raise (HTTPException HTTP_400_BAD_REQUEST detail_limit) /\ c' = c) /\
  (0 < limit -> page <= 0 ->
   r = Raise (HTTPException HTTP_400_BAD_REQUEST detail_page) /\ c' = c) /\
  (0 < limit -> 0 < page ->
   match r with
   | Ok resp =>
       exists total_pages,
         page_count (Z.of_nat (length (active_products (products (view c))))) limit =
           Ok total_pages /\
         resp =
           mk_product_list
             (product_response <$>
                limit_offset limit ((page - 1) * limit)
                  (active_products (products (view c))))
             page total_pages (Z.of_nat (length (active_products (products (view c)))))
   | Raise e =>
       e = HTTPException HTTP_500_INTERNAL_SERVER_ERROR detail_products_failed
       \/ (exists m, e = Exception m) \/ (exists m, e = Error m)
   end).
Proof.
  unfold get_products. intros E.
  destruct (limit <=? 0) eqn:Hl; [apply Z.leb_le in Hl | apply Z.leb_gt in Hl].
  { unfold raise in E. simplify_eq. split; [apply untouched_refl |].
    split_and?; [done | lia | lia]. }
  destruct (page <=? 0) eqn:Hp; [apply Z.leb_le in Hp | apply Z.leb_gt in Hp].
  { unfold raise in E. simplify_eq. split; [apply untouched_refl |].
    split_and?; [lia | done | lia]. }
  split_and?; [| lia | lia | intros _ _];
    unfold untouched; crunch_calls;
    repeat match goal with f : fault |- _ => destruct f; simplify_eq/= end;
    first [ done
          | by eauto
          | by eexists; split; [eassumption |]
          | match goal with
            | Hx : page_count _ _ = Raise _ |- _ =>
                apply page_count_Raise in Hx as [? ?]; simplify_eq; eauto
            end
          | congruence ].
Qed.

Lemma active_products_lookup m id p :
  (id, p) ∈ active_products m <-> m !! id = Some p /\ is_deleted p = false.
Proof.
  unfold active_products. rewrite list_elem_of_filter, scan_products_rows.
  rewrite elem_of_map_to_list. simpl. tauto.
Qed.

Lemma active_products_ids m : NoDup ((active_products m).*1).
Proof.
  unfold active_products.
  apply (sublist_NoDup _ ((scan_products m).*1)).
  - rewrite scan_products_rows. apply NoDup_fst_map_to_list.
  - apply fmap_sublist, sublist_filter.
Qed.

Lemma active_products_rows m :
  active_products m ≡ₚ filter (fun row => is_deleted row.2 = false) (map_to_list m).
Proof. unfold active_products. by rewrite scan_products_rows. Qed.

Lemma product_response_id (rows : list (Z * product)) :
  presp_id <$> (product_response <$> rows) = rows.*1.
Proof. rewrite <- list_fmap_compose. by apply list_fmap_ext. Qed.

(** X3.  A page of products that is answered lists only products that are
    stored and not deleted, each with its stored name, price and stock, at
    most [limit] of them and none twice; the number of items it reports is
    the number of products that are not deleted. *)
Theorem X3_get_products_page page limit c resp c' :
  get_products page limit c = (Ok resp, c') ->
  products_page resp = page /\
  products_total_items resp =
    Z.of_nat (length (filter (fun row => is_deleted row.2 = false)
                        (map_to_list (products (view c))))) /\
  Z.of_nat (length (products_data resp)) <= limit /\
  NoDup (presp_id <$> products_data resp) /\
  (forall x, x ∈ products_data resp ->
     exists p, products (view c) !! presp_id x = Some p /\ is_deleted p = false /\
       x = product_response (presp_id x, p)).
Proof.
  intros E. apply get_products_spec in E as (_ & Hbad & Hbadp & Hok).
  assert (0 < limit) as Hl.
  { destruct (decide (limit <= 0)) as [Hle|]; [by destruct (Hbad Hle) | lia]. }
  assert (0 < page) as Hp.
  { destruct (decide (page <= 0)) as [Hle|]; [by destruct (Hbadp Hl Hle) | lia]. }
  destruct (Hok Hl Hp) as (tp & Hpc & ->). simpl.
  split_and?; [done | | | |].
  - by rewrite active_products_rows.
  - rewrite length_fmap. by apply limit_offset_length.
  - rewrite product_response_id.
    apply (sublist_NoDup _ ((active_products (products (view c))).*1));
      [apply active_products_ids | apply fmap_sublist, limit_offset_sublist].
  - intros x [[id p] [-> Hin]]%list_elem_of_fmap. exists p. simpl.
    assert ((id, p) ∈ active_products (products (view c))) as Hact.
    { eapply elem_of_sublist; [exact Hin | apply limit_offset_sublist]. }
    apply active_products_lookup in Hact as [? ?]. done.
Qed.

(** X4.  The pages of the product listing fit together: the first [k]
    pages are the first [k * limit] products that are not deleted, and once
    [k * limit] reaches their number the pages hold every product that is
    not deleted exactly once, and no deleted one. *)
Theorem X4_get_products_pages_cover limit (k : nat) c (r : nat -> ProductListResponse) :
  0 < limit ->
  (forall p, (p < k)%nat ->
     exists c', get_products (Z.of_nat (S p)) limit c = (Ok (r p), c')) ->
  concat ((fun p => products_data (r p)) <$> seq 0 k) =
    product_response <$>
      take (k * Z.to_nat limit) (active_products (products (view c))) /\
  ((length (active_products (products (view c))) <= k * Z.to_nat limit)%nat ->
   concat ((fun p => products_data (r p)) <$> seq 0 k) ≡ₚ
     product_response <$>
       filter (fun row => is_deleted row.2 = false) (map_to_list (products (view c)))).
Proof.
  intros Hl Hpages.
  assert (concat ((fun p => products_data (r p)) <$> seq 0 k) =
          product_response <$>
            take (k * Z.to_nat limit) (active_products (products (view c)))) as Hcat.
  { rewrite <- pages_concat_fmap. f_equal. apply list_fmap_ext.
    intros i p Hp. apply lookup_seq in Hp as [-> Hlt]. simpl.
    destruct (Hpages _ Hlt) as [c' E].
    apply get_products_spec in E as (_ & _ & _ & Hok).
    destruct (Hok Hl ltac:(lia)) as (tp & _ & ->). simpl.
    by rewrite limit_offset_page. }
  split; [done |]. intros Hall. rewrite Hcat, take_ge by done.
  by rewrite active_products_rows.
Qed.

(** ** GET /api/orders/{order_id} *)

Lemma get_order_details_spec order_id c r c' :
  get_order_details order_id c = (r, c') ->
  untouched c c' /\
  (r = match orders (view c) !! order_id with
       | Some o => Ok (order_response (order_id, o))
       | None => Raise (HTTPException HTTP_404_NOT_FOUND detail_order_missing)
       end
   \/ r = Raise (HTTPException HTTP_500_INTERNAL_SERVER_ERROR detail_order_failed)
   \/ exists f, r = Raise (exn_of_fault f)).
Proof.
  unfold get_order_details, untouched. intros E.
  crunch_calls;
    repeat match goal with f : fault |- _ => destruct f; simplify_eq/= end;
    (split; [done |]);
    first [ congruence | by left | by right; left
          | by right; right; eexists (Unexpected _)
          | by right; right; eexists (DriverError _) ].
Qed.

(** The calls of a handler that reads one row: the cursor and the query. *)
Lemma two_calls_through c :
  calls_through 2 c ->
  exists c1 c2, cursor c = (Ok tt, c1) /\ driver_call c1 = (Ok tt, c2) /\
    untouched c c1 /\ untouched c1 c2.
Proof.
  intros Hf. apply calls_through_S in Hf as [Hf1 Hf2].
  destruct (cursor_through c Hf1) as (c1 & E1 & Hu1 & Hfs1).
  specialize (Hf2 c1 Hfs1). apply calls_through_S in Hf2 as [Hf2 _].
  destruct (cursor_through c1 Hf2) as (c2 & E2 & Hu2 & _).
  by exists c1, c2.
Qed.

(** ** PUT /api/orders/{order_id}/status *)

Ltac decide_hyps :=
  repeat match goal with
         | Hb : bool_decide _ = true |- _ => apply bool_decide_eq_true in Hb
         | Hb : bool_decide _ = false |- _ => apply bool_decide_eq_false in Hb
         end.

Lemma try_except_inv {A} (m : M A) (h : exn -> M A) c r c' :
  try_except m h c = (r, c') ->
  (exists a, r = Ok a /\ m c = (Ok a, c'))
  \/ (exists e c1, m c = (Raise e, c1) /\ h e c1 = (r, c')).
Proof.
  unfold try_except. destruct (m c) as [[a|e] c1]; intros E.
  - left. exists a. by simplify_eq.
  - right. by exists e, c1.
Qed.

Lemma execute_update_status_spec new_status ct order_id c r c' :
  execute_update_status new_status ct order_id c = (r, c') ->
  committed c' = committed c /\ trace c' = trace c /\
  next_order_id c' = next_order_id c /\
  ((exists f, r = Raise (exn_of_fault f) /\ in_transaction c' = in_transaction c)
   \/ (r = Ok 0 /\ in_transaction c' = in_transaction c /\
       (orders (view c) !! order_id = None
        \/ exists o, orders (view c) !! order_id = Some o /\
             status o = new_status /\ updated_at o = ct))
   \/ (exists o, r = Ok 1 /\ orders (view c) !! order_id = Some o /\
         ~ (status o = new_status /\ updated_at o = ct) /\
         view c' =
           mk_tables (products (view c))
             (<[order_id :=
                  mk_order (order_user_id o) (number o) new_status (total_amount o)
                    (created_at o) ct]> (orders (view c)))
             (order_items (view c)))).
Proof.
  unfold execute_update_status. intros E.
  crunch_calls; decide_hyps; split_and?; try done;
    first [ by left; eauto
          | by right; left; split_and?; [done | done | left]
          | by right; left; split_and?; [done | done | right; eexists; destruct_and?]
          | by right; right; eexists; split_and? ].
Qed.

(** The [try] block of the status update. *)
Lemma update_order_status_try_spec new_status ct order_id c r c' :
  update_order_status_try new_status ct order_id c = (r, c') ->
  (exists o, r = Ok (true, message_status_updated) /\
     orders (view c) !! order_id = Some o /\
     ~ (status o = new_status /\ updated_at o = ct) /\
     committed c' =
       mk_tables (products (view c))
         (<[order_id :=
              mk_order (order_user_id o) (number o) new_status (total_amount o)
                (created_at o) ct]> (orders (view c)))
         (order_items (view c)) /\
     in_transaction c' = None /\ trace c' = trace c ++ [Commit])
  \/ (committed c' = committed c /\
      ((r = Raise (HTTPException HTTP_404_NOT_FOUND detail_status_unchanged) /\
        untouched c c' /\
        (orders (view c) !! order_id = None
         \/ exists o, orders (view c) !! order_id = Some o /\
              status o = new_status /\ updated_at o = ct))
       \/ (exists f, r = Raise (exn_of_fault f) /\
             (trace c' = trace c \/ trace c' = trace c ++ [Commit])))).
Proof.
  intros E. unfold update_order_status_try in E. unfold bind at 1 in E.
  destruct (execute_update_status new_status ct order_id c) as [[rc|e] c1] eqn:E1;
    apply execute_update_status_spec in E1
      as (Hc1 & Ht1 & Hn1 & [(f & ? & Hi1)|[(? & Hi1 & Hsame)|(o & ? & Ho & Hne & Hv1)]]);
    simplify_eq; try simpl in E.
  - unfold raise in E. simplify_eq. right. split; [done |]. left.
    by split_and?.
  - destruct (commit c1) as [[[]|e] c2] eqn:E2; unfold bind in E; rewrite E2 in E.
    + apply commit_Ok in E2 as (Hc2 & Hi2 & Ht2 & _). unfold ret in E. simplify_eq.
      left. exists o. split_and?; [done | done | done | | done | by rewrite Ht2, Ht1].
      by rewrite Hc2, Hv1.
    + assert (exists f, e = exn_of_fault f) as [f ->].
      { unfold commit, bind, send in E2. simpl in E2.
        destruct (faults c1) as [|[f|] fs]; simplify_eq. by exists f. }
      apply commit_Raise in E2 as [Hc2 Ht2]. simplify_eq.
      right. split; [congruence |]. right. exists f. split; [done |]. right.
      by rewrite Ht2, Ht1.
  - right. split; [done |]. right. exists f. split; [done |]. by left.
Qed.

Lemma update_order_status_cases order_id new_status now c r c' :
  update_order_status order_id new_status now c = (r, c') ->
  (exists o, r = Ok (true, message_status_updated) /\
     orders (view c) !! order_id = Some o /\
     ~ (status o = new_status /\ updated_at o = strftime_sql now) /\
     committed c' =
       mk_tables (products (view c))
         (<[order_id :=
              mk_order (order_user_id o) (number o) new_status (total_amount o)
                (created_at o) (strftime_sql now)]> (orders (view c)))
         (order_items (view c)) /\
     in_transaction c' = None /\ trace c' = trace c ++ [Commit])
  \/ (committed c' = committed c /\
      ((r = Raise (HTTPException HTTP_404_NOT_FOUND detail_status_unchanged) /\
        untouched c c' /\
        (orders (view c) !! order_id = None
         \/ exists o, orders (view c) !! order_id = Some o /\
              status o = new_status /\ updated_at o = strftime_sql now))
       \/ (r = Raise (HTTPException HTTP_500_INTERNAL_SERVER_ERROR detail_status_failed) /\
           in_transaction c' = None /\ last (trace c') = Some Rollback)
       \/ (exists m, r = Raise (Exception m))
       \/ (exists m, r = Raise (Error m) /\
             (untouched c c' \/ last (trace c') = Some Rollback)))).
Proof.
  unfold update_order_status. intros E. unfold bind at 1 in E.
  destruct (cursor c) as [[[]|e] c0] eqn:Ec;
    apply cursor_spec in Ec as (Hu0 & _ & Hr0).
  2: { destruct Hr0 as [?|[f ?]]; simplify_eq. right. split; [apply Hu0 |].
       destruct f as [m|m]; simpl; eauto 10. }
  pose proof (untouched_view _ _ Hu0) as Hv0.
  destruct Hu0 as (Hc0 & Hi0 & Hn0 & Ht0).
  apply try_except_inv in E as [(a & -> & E)|(e & c1 & E & Eh)];
    apply update_order_status_try_spec in E
      as [(o & ? & Ho & Hne & Hc & Hi & Ht)
         |(Hc & [(? & (Hc1 & Hi1 & Hn1 & Ht1) & Hsame)|(f & ? & Ht)])];
    simplify_eq; rewrite ?Hv0, ?Ht0 in *.
  - left. exists o. by split_and?.
  - unfold raise in Eh. simplify_eq. right. split; [congruence |]. left.
    split; [done |]. split; [| done]. unfold untouched. split_and?; congruence.
  - destruct f as [m|m]; simpl in Eh.
    + unfold bind in Eh.
      destruct (rollback c1) as [[[]|e2] c2] eqn:Er;
        apply rollback_spec in Er as ([Hc2 Ht2] & _ & _ & [[? Hi2]|(f2 & ? & _)]);
        unfold raise in Eh; simplify_eq.
      * right. split; [congruence |]. right. left.
        split_and?; [done | done | by rewrite Ht2, last_snoc].
      * right. split; [congruence |]. right. right.
        destruct f2 as [m2|m2]; simpl; [right | left; eauto].
        exists m2. split; [done |]. right. by rewrite Ht2, last_snoc.
    + unfold raise in Eh. simplify_eq. right. split; [congruence |]. eauto 10.
Qed.

Lemma update_order_status_Ok order_id new_status now c a c' :
  update_order_status order_id new_status now c = (Ok a, c') ->
  a = (true, message_status_updated) /\
  exists o,
    orders (view c) !! order_id = Some o /\
    ~ (status o = new_status /\ updated_at o = strftime_sql now) /\
    committed c' =
      mk_tables (products (view c))
        (<[order_id :=
             mk_order (order_user_id o) (number o) new_status (total_amount o)
               (created_at o) (strftime_sql now)]> (orders (view c)))
        (order_items (view c)) /\
    in_transaction c' = None /\
    trace c' = trace c ++ [Commit].
Proof.
  intros E. apply update_order_status_cases in E
    as [(o & [= ->] & ?)|(_ & [(? & _)|[(? & _)|[(m & ?)|(m & ? & _)]]])]; try done.
  split; [done |]. by exists o.
Qed.

Lemma update_order_status_Raise order_id new_status now c e c' :
  update_order_status order_id new_status now c = (Raise e, c') ->
  committed c' = committed c /\
  ((e = HTTPException HTTP_404_NOT_FOUND detail_status_unchanged /\
    untouched c c' /\
    (orders (view c) !! order_id = None
     \/ exists o, orders (view c) !! order_id = Some o /\
          status o = new_status /\ updated_at o = strftime_sql now))
   \/ (e = HTTPException HTTP_500_INTERNAL_SERVER_ERROR detail_status_failed /\
       in_transaction c' = None /\ last (trace c') = Some Rollback)
   \/ (exists m, e = Exception m)
   \/ ((exists m, e = Error m) /\ (untouched c c' \/ last (trace c') = Some Rollback))).
Proof.
  intros E. apply update_order_status_cases in E
    as [(o & ? & _)|(Hc & [([= ->] & ?)|[([= ->] & ?)|[(m & [= ->])|(m & [= ->] & ?)]]])];
    [done | | | |]; (split; [done |]); eauto 10.
Qed.

Lemma update_order_status_no_change order_id new_status now c :
  calls_through 2 c ->
  orders (view c) !! order_id = None
  \/ (exists o, orders (view c) !! order_id = Some o /\
        status o = new_status /\ updated_at o = strftime_sql now) ->
  exists c',
    update_order_status order_id new_status now c =
      (Raise (HTTPException HTTP_404_NOT_FOUND detail_status_unchanged), c') /\
    untouched c c'.
Proof.
  intros Hf Hsame.
  destruct (two_calls_through c Hf) as (c1 & c2 & E1 & E2 & Hu1 & Hu2).
  exists c2. split; [| by eapply untouched_trans].
  assert (execute_update_status new_status (strftime_sql now) order_id c1 = (Ok 0, c2))
    as Hexec.
  { unfold execute_update_status. rewrite (bind_step _ _ _ _ _ E2).
    unfold bind at 1, read at 1.
    rewrite (untouched_view _ _ Hu2), (untouched_view _ _ Hu1).
    destruct Hsame as [Hn | (o & Ho & Hs & Hu)].
    - by rewrite Hn.
    - rewrite Ho, bool_decide_eq_true_2 by done. done. }
  unfold update_order_status. rewrite (bind_step _ _ _ _ _ E1).
  unfold try_except, update_order_status_try.
  by rewrite (bind_step _ _ _ _ _ Hexec).
Qed.

Lemma get_order_details_through order_id c :
  calls_through 2 c ->
  exists c',
    get_order_details order_id c =
      (match orders (view c) !! order_id with
       | Some o => Ok (order_response (order_id, o))
       | None => Raise (HTTPException HTTP_404_NOT_FOUND detail_order_missing)
       end, c') /\
    untouched c c'.
Proof.
  intros Hf.
  destruct (two_calls_through c Hf) as (c1 & c2 & E1 & E2 & Hu1 & Hu2).
  exists c2. split; [| by eapply untouched_trans].
  unfold get_order_details. rewrite (bind_step _ _ _ _ _ E1).
  unfold try_except. rewrite (bind_step _ _ _ _ _ E2).
  unfold bind at 1, read at 1.
  rewrite (untouched_view _ _ Hu2), (untouched_view _ _ Hu1).
  by destruct (orders (view c) !! order_id).
Qed.

(** X5.  The three read handlers never write: whatever they answer, the
    committed tables, the open transaction and the statement trace are as
    before. *)
Theorem X5_reads_never_write :
  (forall page limit c r c', get_orders page limit c = (r, c') -> untouched c c') /\
  (forall order_id c r c', get_order_details order_id c = (r, c') -> untouched c c') /\
  (forall page limit c r c', get_products page limit c = (r, c') -> untouched c c').
Proof.
  split_and?.
  - intros page limit c r c' E. by apply get_orders_spec in E as [? _].
  - intros order_id c r c' E. by apply get_order_details_spec in E as [? _].
  - intros page limit c r c' E. by apply get_products_spec in E as [? _].
Qed.

(** X6.  The paging arguments of the order listing are checked before
    anything is sent, the limit first: the answer is the 400 about the limit
    exactly when the limit is not positive, the 400 about the page exactly
    when the limit is positive and the page is not, and in both cases the
    connection is handed back as it was.  Any other HTTP error of the
    listing is the 500 of a driver error. *)
Theorem X6_get_orders_failures page limit c r c' :
  get_orders page limit c = (r, c') ->
  (r = Raise (HTTPException HTTP_400_BAD_REQUEST detail_limit) <-> limit <= 0) /\
  (r = Raise (HTTPException HTTP_400_BAD_REQUEST detail_page) <-> 0 < limit /\ page <= 0) /\
  (limit <= 0 \/ page <= 0 -> c' = c) /\
  (forall s d, r = Raise (HTTPException s d) ->
     s = HTTP_400_BAD_REQUEST /\ (limit <= 0 \/ page <= 0)
     \/ s = HTTP_500_INTERNAL_SERVER_ERROR /\ d = detail_orders_failed).
Proof.
  intros E. apply get_orders_spec in E as (_ & Hbad & Hbadp & Hok).
  destruct (decide (limit <= 0)) as [Hl|Hl].
  { destruct (Hbad Hl) as [-> ->].
    split_and?; [done | | done | intros s d [= <- <-]; left; eauto].
    split; [intros [= Hd]; vm_compute in Hd; discriminate | lia]. }
  destruct (decide (page <= 0)) as [Hp|Hp].
  { destruct (Hbadp ltac:(lia) Hp) as [-> ->].
    split_and?; [| split; [lia | done] | done | intros s d [= <- <-]; left; eauto].
    split; [intros [= Hd]; vm_compute in Hd; discriminate | lia]. }
  specialize (Hok ltac:(lia) ltac:(lia)).
  split_and?; [split; [| lia] | split; [| lia] | lia |].
  - intros ->. destruct Hok as [[=]|[[m [=]]|[m [=]]]].
  - intros ->. destruct Hok as [[=]|[[m [=]]|[m [=]]]].
  - intros s d ->. destruct Hok as [[= -> ->]|[[m [=]]|[m [=]]]]. by right.
Qed.

(** X7.  With the driver handing out the cursor and letting the query
    through, an order is answered exactly when one is stored under the id,
    with the stored user, number, status, total and creation time; the
    answer is the 404 exactly when none is stored. *)
Theorem X7_get_order_details_found order_id c r c' :
  calls_through 2 c ->
  get_order_details order_id c = (r, c') ->
  (forall x, r = Ok x <->
     exists o, orders (view c) !! order_id = Some o /\
       x = order_response (order_id, o)) /\
  (r = Raise (HTTPException HTTP_404_NOT_FOUND detail_order_missing) <->
   orders (view c) !! order_id = None).
Proof.
  intros Hf E. destruct (get_order_details_through order_id c Hf) as (c2 & E2 & _).
  rewrite E in E2. injection E2 as -> _.
  destruct (orders (view c) !! order_id) as [o|]; split.
  - intros x. split; [intros [= <-]; eauto | intros (o' & [= <-] & ->); done].
  - split; [done | done].
  - intros x. split; [done | intros (o' & [=] & _)].
  - done.
Qed.

(** X8.  A status update that is answered with success has changed, of all
    the tables, only the status and the update time of the one order, and
    has committed it: the order keeps its user, number, total and creation
    time, every other order and every order line is as before, and so is
    every product, so that no stock comes back when an order is set to
    'cancelled'. *)
Theorem X8_update_order_status_effect order_id new_status now c a c' :
  update_order_status order_id new_status now c = (Ok a, c') ->
  a = (true, message_status_updated) /\
  in_transaction c' = None /\
  products (committed c') = products (view c) /\
  order_items (committed c') = order_items (view c) /\
  exists o,
    orders (view c) !! order_id = Some o /\
    orders (committed c') =
      <[order_id :=
          mk_order (order_user_id o) (number o) new_status (total_amount o)
            (created_at o) (strftime_sql now)]> (orders (view c)) /\
    forall id, id <> order_id ->
      orders (committed c') !! id = orders (view c) !! id.
Proof.
  intros E. apply update_order_status_Ok in E as (-> & o & Ho & _ & Hc & Hi & _).
  rewrite Hc. simpl. split_and?; [done | done | done | done |].
  exists o. split_and?; [done | done |].
  intros id Hne. by rewrite lookup_insert_ne.
Qed.

(** X9.  With the driver handing out the cursor and letting the UPDATE
    through, the status update is answered 404 exactly when the statement
    changes no row: no order has the id, or the order already has that
    status and was last updated in the same second.  Nothing is then written
    or committed. *)
Theorem X9_update_order_status_404 order_id new_status now c r c' :
  calls_through 2 c ->
  update_order_status order_id new_status now c = (r, c') ->
  (r = Raise (HTTPException HTTP_404_NOT_FOUND detail_status_unchanged) <->
   orders (view c) !! order_id = None
   \/ exists o, orders (view c) !! order_id = Some o /\
        status o = new_status /\ updated_at o = strftime_sql now) /\
  (r = Raise (HTTPException HTTP_404_NOT_FOUND detail_status_unchanged) ->
   untouched c c').
Proof.
  intros Hf E. split.
  - split.
    + intros ->. apply update_order_status_Raise in E
        as (_ & [(_ & _ & Hsame)|[([=] & _)|[[m [=]]|[[m [=]] _]]]]). done.
    + intros Hsame.
      destruct (update_order_status_no_change order_id new_status now c Hf Hsame)
        as (c2 & E2 & _). congruence.
  - intros ->. apply update_order_status_Raise in E
      as (_ & [(_ & Hu & _)|[([=] & _)|[[m [=]]|[[m [=]] _]]]]). done.
Qed.

(** X10.  A status update that fails commits nothing.  The failure is the
    404; or the 500 of a driver error, after which the transaction has been
    rolled back; or an exception that is not the driver's Error, which the
    handler does not catch; or a driver Error that the handler cannot catch:
    that of [db.cursor()], raised before the [try] with nothing done, or
    that of [db.rollback()] in the [except] clause. *)
Theorem X10_update_order_status_failure order_id new_status now c e c' :
  update_order_status order_id new_status now c = (Raise e, c') ->
  committed c' = committed c /\
  (e = HTTPException HTTP_404_NOT_FOUND detail_status_unchanged
   \/ (e = HTTPException HTTP_500_INTERNAL_SERVER_ERROR detail_status_failed /\
       in_transaction c' = None /\ last (trace c') = Some Rollback)
   \/ (exists m, e = Exception m)
   \/ ((exists m, e = Error m) /\
       (untouched c c' \/ last (trace c') = Some Rollback))).
Proof.
  intros E. apply update_order_status_Raise in E as (Hc & [(-> & _)|[?|[?|?]]]); eauto 10.
Qed.

(** X11.  After a successful status update the order, read on a connection
    that sees the committed tables, has the new status and the user, number,
    total and creation time it had before. *)
Theorem X11_status_update_then_details order_id new_status now c a c' c2 :
  update_order_status order_id new_status now c = (Ok a, c') ->
  committed c2 = committed c' -> in_transaction c2 = None -> calls_through 2 c2 ->
  exists o c3,
    orders (view c) !! order_id = Some o /\
    get_order_details order_id c2 =
      (Ok (mk_order_response order_id (order_user_id o) (number o) new_status
             (total_amount o) (created_at o)), c3).
Proof.
  intros E Hc2 Hi2 Hf.
  apply update_order_status_Ok in E as (_ & o & Ho & _ & Hc & _).
  destruct (get_order_details_through order_id c2 Hf) as (c3 & E3 & _).
  exists o, c3. split; [done |]. rewrite E3. unfold view. rewrite Hi2, Hc2, Hc. simpl.
  by rewrite lookup_insert_eq.
Qed.

(** X12.  An order that was placed can be fetched: under the id that
    [create_order] returned, a connection that sees the committed tables
    finds the order with the returned number, the request's user, status
    'pending', the time of the placement and, as total, the sum of the
    subtotals of the lines the placement wrote. *)
Theorem X12_placed_order_is_found od n1 n2 rnd c oid num c' c2 :
  create_order od n1 n2 rnd c = (Ok (oid, num), c') ->
  committed c2 = committed c' -> in_transaction c2 = None -> calls_through 2 c2 ->
  exists lines c3,
    order_items (committed c') = order_items (committed c) ++ lines /\
    get_order_details oid c2 =
      (Ok (mk_order_response oid (user_id od) num "pending"
             (float_sum (map subtotal lines)) (strftime_sql n2)), c3).
Proof.
  intros E Hc2 Hi2 Hf.
  apply create_order_Ok in E
    as (_ & _ & _ & Hr & rows & t1 & _ & Hc & _).
  simplify_eq.
  destruct (get_order_details_through (next_order_id c) c2 Hf) as (c3 & E3 & _).
  exists rows, c3. split; [by rewrite Hc |].
  rewrite E3. unfold view. rewrite Hi2, Hc2, Hc. simpl.
  by rewrite lookup_insert_eq.
Qed.

(** X14.  The two routes that write keep the status of every stored order
    within the five statuses of the status model: on a fresh connection to
    tables where this holds, it holds again for the committed tables after
    any PUT of a status and after any POST of an order, accepted or not. *)
Theorem X14_statuses_stay_valid c :
  statuses_valid (committed c) -> in_transaction c = None ->
  (forall order_id new_status now r c',
     put_api_orders_status order_id new_status now c = (r, c') ->
     statuses_valid (committed c')) /\
  (forall body n1 n2 rnd r c',
     post_api_orders body n1 n2 rnd c = (r, c') ->
     statuses_valid (committed c')).
Proof.
  intros Hv Hi. assert (view c = committed c) as Hview by (unfold view; by rewrite Hi).
  split.
  - intros order_id new_status now r c'. unfold put_api_orders_status.
    destruct (UpdateOrderStatusRequest_valid new_status) eqn:Hs; [| by intros [= <- <-]].
    apply bool_decide_eq_true in Hs.
    destruct (update_order_status order_id new_status now c) as [[a|e] c2] eqn:E;
      intros [= <- <-].
    + apply update_order_status_Ok in E as (_ & o & Ho & _ & Hc & _).
      rewrite Hview in Hc. intros id o'. rewrite Hc. simpl.
      destruct (decide (id = order_id)) as [->|Hne].
      * rewrite lookup_insert_eq. by intros [= <-].
      * rewrite lookup_insert_ne by done. apply Hv.
    + apply update_order_status_Raise in E as [Hc _]. by rewrite Hc.
  - intros body n1 n2 rnd r c'. unfold post_api_orders.
    destruct (CreateOrderRequest_valid body); [| by intros [= <- <-]].
    destruct (create_order body n1 n2 rnd c) as [[a|e] c2] eqn:E; intros [= <- <-].
    + apply create_order_Ok in E
        as (_ & _ & _ & _ & rows & t1 & _ & Hc & _).
      intros id o'. rewrite Hc. simpl.
      destruct (decide (id = next_order_id c)) as [->|Hne].
      * rewrite lookup_insert_eq. intros [= <-]. simpl.
        unfold order_statuses. apply list_elem_of_here.
      * rewrite lookup_insert_ne by done. apply Hv.
    + apply create_order_Raise in E as [Hc _]. by rewrite Hc.
Qed.

End EndpointsVerification.

(** * Verification of the route table, the detail strings and the outcomes of a placement *)

Section MoreVerification.
Context `{PriceColumn}.

Lemma split_slash_segment x : no_slash x = true -> split_slash x = [x].
Proof.
  induction x as [|ch x IH]; simpl; [done |].
  intros [Hch Hx]%andb_prop. apply negb_true_iff in Hch. rewrite Hch.
  by rewrite (IH Hx).
Qed.

(** X13.  No request reaches the statistics handler, whatever its method
    and path: every path that fits /api/orders/stats also fits the template
    /api/orders/{order_id}, which is declared before it for the same method.
    GET /api/orders/x, for any non-empty segment x and so for "stats", is
    given to the order detail handler with x as order id.  Every other
    handler has a request that reaches it. *)
Theorem X13_stats_route_shadowed :
  (forall method path params,
     dispatch method path <> Endpoint ep_get_order_stats params) /\
  (forall x, x <> "" -> no_slash x = true ->
     dispatch "GET" ("/api/orders/" +:+ x) =
     Endpoint ep_get_order_details [("order_id", x)]) /\
  dispatch "GET" "/api/orders/stats" =
    Endpoint ep_get_order_details [("order_id", "stats")] /\
  (forall e, e <> ep_get_order_stats ->
     exists method path params, dispatch method path = Endpoint e params).
Proof.
  split_and?.
  - intros m path ps Hd. unfold dispatch in Hd.
    destruct (first_match routes m path false) as [d|] eqn:Hfm;
      [| by repeat case_match].
    subst d. unfold routes, first_match, path_matches in Hfm.
    destruct (split_slash path) as [|x segs]; [done |].
    destruct x; [| done].
    destruct segs as [|a [|b [|c0 [|d l]]]]; simpl in Hfm;
      repeat (case_bool_decide; simplify_eq/=);
      repeat (case_match; simplify_eq/=); done.
  - intros x Hx Hns.
    assert (split_slash ("/api/orders/" +:+ x) = [""; "api"; "orders"; x]) as Hsplit.
    { rewrite !append_String, append_Empty. simpl.
      by rewrite (split_slash_segment x Hns). }
    unfold dispatch, routes, first_match, path_matches. rewrite Hsplit. simpl.
    by rewrite (bool_decide_eq_false_2 (x = "")) by done.
  - vm_compute. reflexivity.
  - intros [] He; try done.
    + by exists "GET", "/openapi.json", [].
    + by exists "GET", "/docs", [].
    + by exists "GET", "/docs/oauth2-redirect", [].
    + by exists "GET", "/redoc", [].
    + by exists "GET", "/api/orders", [].
    + by exists "GET", "/api/orders/1", [("order_id", "1")].
    + by exists "POST", "/api/orders", [].
    + by exists "PUT", "/api/orders/1/status", [("order_id", "1")].
    + by exists "GET", "/api/products", [].
Qed.

(** The router on some requests. *)
Example dispatch_examples :
  dispatch "HEAD" "/api/orders" = MethodNotAllowed405 /\
  dispatch "DELETE" "/api/orders/7" = MethodNotAllowed405 /\
  dispatch "GET" "/api/orders/" = Redirect307 "/api/orders" /\
  dispatch "GET" "/api/orders/stats/" = Redirect307 "/api/orders/stats" /\
  dispatch "GET" "/api/orders/7/status" = MethodNotAllowed405 /\
  dispatch "GET" "/api" = NotFound404 /\
  dispatch "HEAD" "/docs" = Endpoint ep_swagger_ui [] /\
  dispatch "PUT" "/api/orders/7/status" = Endpoint ep_update_order_status [("order_id", "7")].
Proof. vm_compute. done. Qed.

(** ** The detail strings can be read back *)

(** X15.  The detail strings of the line failures can be read back: each
    determines the product id (and, for insufficient stock, the available
    and the requested quantity) it was built from, and strings of two
    different kinds are never equal, whatever the numbers in them. *)
Theorem X15_details_identify_failure :
  (forall p p', detail_not_found p = detail_not_found p' -> p = p') /\
  (forall p p', detail_deleted p = detail_deleted p' -> p = p') /\
  (forall p a q p' a' q',
     detail_insufficient p a q = detail_insufficient p' a' q' ->
     p = p' /\ a = a' /\ q = q') /\
  (forall p p', detail_update_failed p = detail_update_failed p' -> p = p') /\
  (forall p p' a q,
     detail_not_found p <> detail_deleted p' /\
     detail_not_found p <> detail_insufficient p' a q /\
     detail_not_found p <> detail_update_failed p' /\
     detail_deleted p <> detail_insufficient p' a q /\
     detail_deleted p <> detail_update_failed p' /\
     detail_update_failed p <> detail_insufficient p' a q).
Proof.
  split_and?.
  - intros p p' E. by read_detail E.
  - intros p p' E. by read_detail E.
  - intros p a q p' a' q' E. by read_detail E.
  - intros p p' E. by read_detail E.
  - intros p p' a q. split_and?; intros E; by read_detail E.
Qed.

(** ** Which exceptions a placement raises *)

Ltac unfold_stmts :=
  unfold commit, rollback, start_transaction, execute_insert_order,
    execute_select_product, execute_update_stock, execute_insert_order_item,
    execute_update_total, float_mul_int, send, write, read, bind, ret, raise,
    set_in_transaction, log, view in *.

Ltac crunch_stmts := unfold_stmts; simpl in *; repeat case_match; simplify_eq/=.

Lemma exn_of_fault_kind f :
  (exists m, exn_of_fault f = Error m) \/ (exists m, exn_of_fault f = Exception m).
Proof. destruct f; simpl; eauto. Qed.

Lemma decrement_stock_Raise_kind pid q ct c e c' :
  decrement_stock pid q ct c = (Raise e, c') ->
  (exists f, e = exn_of_fault f)
  \/ (forall p, products (view c) !! pid = Some p -> stock p < q).
Proof.
  intros E. unfold decrement_stock, decrement_stock_on in E.
  apply bind_Raise in E as [E|(rc & c1 & E1 & E2)].
  - apply execute_update_stock_spec in E
      as (_ & _ & [(f & ? & _)|[(? & _)|(p & ? & _)]]); simplify_eq. eauto.
  - apply execute_update_stock_spec in E1
      as (_ & _ & [(f & ? & _)|[(? & _ & Hlt)|(p & ? & _)]]); simplify_eq.
    by right.
Qed.

Lemma place_line_Raise_kind oid ct tot item c e c' :
  place_line oid ct tot item c = (Raise e, c') ->
  line_rejection item e \/ (exists m, e = Error m) \/ (exists m, e = Exception m).
Proof.
  intros E. unfold place_line, place_line_on in E.
  apply bind_Raise in E as [E|(found & c1 & E1 & E)].
  { apply execute_select_product_spec in E as (_ & _ & _ & [?|[f ?]]); simplify_eq.
    right. apply exn_of_fault_kind. }
  apply execute_select_product_spec in E1 as ([Hc1 _] & I1 & _ & [?|[f ?]]); [| done].
  simplify_eq.
  assert (V1 : view c1 = view c) by (unfold view; by rewrite I1, Hc1).
  unfold line_rejection.
  destruct (products (view c) !! product_id item) as [p|] eqn:Hp; simpl in E.
  2: { unfold raise in E. simplify_eq. eauto. }
  destruct (is_deleted p) eqn:Hd.
  { unfold raise in E. simplify_eq. eauto. }
  destruct (stock p <? quantity item) eqn:Hs.
  { unfold raise in E. simplify_eq. apply Z.ltb_lt in Hs. eauto 10. }
  apply Z.ltb_ge in Hs.
  apply bind_Raise in E as [E|(sub & c2 & E2 & E)].
  { apply float_mul_int_spec in E as [_ E].
    destruct (int_to_float (quantity item)); simplify_eq. eauto. }
  apply float_mul_int_spec in E2 as [-> _].
  apply bind_Raise in E as [E|([] & c3 & _ & E)].
  { apply decrement_stock_Raise_kind in E as [[f ->]|Hlt].
    - right. apply exn_of_fault_kind.
    - rewrite V1 in Hlt. specialize (Hlt _ Hp). lia. }
  apply bind_Raise in E as [E|([] & c4 & _ & E)]; [| done].
  right. unfold execute_insert_order_item in E. crunch_stmts; apply exn_of_fault_kind.
Qed.

Lemma place_lines_Raise_kind oid ct items : forall tot c e c',
  place_lines oid ct tot items c = (Raise e, c') ->
  (exists item, item ∈ items /\ line_rejection item e)
  \/ (exists m, e = Error m) \/ (exists m, e = Exception m).
Proof.
  induction items as [|item rest IH]; intros tot c e c' E; simpl in E; [done |].
  apply bind_Raise in E as [E|(t1 & c1 & _ & E)].
  - apply place_line_Raise_kind in E as [Hr|Hd]; [| by right].
    left. exists item. split; [apply list_elem_of_here | done].
  - apply IH in E as [(it & Hin & Hr)|Hd]; [| by right].
    left. exists it. split; [by apply list_elem_of_further | done].
Qed.

Lemma open_order_Raise_kind u num ct c e c' :
  open_order u num ct c = (Raise e, c') ->
  e = HTTPException HTTP_500_INTERNAL_SERVER_ERROR detail_no_order_id
  \/ (exists m, e = Error m) \/ (exists m, e = Exception m).
Proof.
  unfold open_order. intros E.
  crunch_stmts; repeat match goal with f : fault |- _ => destruct f; simplify_eq/= end;
    eauto.
Qed.

Lemma create_order_try_Raise_kind od n1 n2 rnd c e c' :
  create_order_try od n1 n2 rnd c = (Raise e, c') ->
  e = HTTPException HTTP_500_INTERNAL_SERVER_ERROR detail_no_order_id
  \/ (exists item, item ∈ items od /\ line_rejection item e)
  \/ (exists m, e = Error m) \/ (exists m, e = Exception m).
Proof.
  intros E. unfold create_order_try in E.
  apply bind_Raise in E as [E|(oid & c1 & _ & E)].
  { apply open_order_Raise_kind in E as [?|?]; eauto. }
  apply bind_Raise in E as [E|(total & c2 & _ & E)].
  { apply place_lines_Raise_kind in E as [?|?]; eauto. }
  right. right.
  apply bind_Raise in E as [E|([] & c3 & _ & E)].
  { unfold execute_update_total in E.
    crunch_stmts; apply exn_of_fault_kind. }
  apply bind_Raise in E as [E|([] & c4 & _ & E)]; [| done].
  unfold commit in E. crunch_stmts; apply exn_of_fault_kind.
Qed.

Lemma update_failed_not_line_rejection item pid :
  ~ line_rejection item (HTTPException HTTP_400_BAD_REQUEST (detail_update_failed pid)).
Proof.
  intros [[=]|[[= E]|(a & _ & [= E])]]; by read_detail E.
Qed.

(** X16.  Every failure of a placement with positive quantities (those
    the request model lets through) is of one of five kinds: the 500 for an
    insert that gave no id; for some line of the request, the 404, the
    "deleted" 400 or the "insufficient stock" 400 with an available quantity
    below the requested one; the 500 carrying the message of a driver error;
    the 500 carrying the message of any other exception; or an exception of
    the driver that the handler cannot catch, that of [db.cursor()], raised
    before anything was sent, or that of [db.rollback()] in an [except]
    clause.  The 400 of the zero-row stock update is not among them: on one
    connection, with no other session at work, the update that follows the
    locked read and the stock test always finds its row. *)
Theorem X16_create_order_failure_kinds od n1 n2 rnd c e c' :
  (forall item, item ∈ items od -> 0 < quantity item) ->
  create_order od n1 n2 rnd c = (Raise e, c') ->
  (e = HTTPException HTTP_500_INTERNAL_SERVER_ERROR detail_no_order_id
   \/ (exists item, item ∈ items od /\ line_rejection item e)
   \/ (exists m, e = HTTPException HTTP_500_INTERNAL_SERVER_ERROR
                     (detail_db_error (Error m)))
   \/ (exists m, e = HTTPException HTTP_500_INTERNAL_SERVER_ERROR
                     (detail_unexpected (Exception m)))
   \/ ((exists f, e = exn_of_fault f) /\
       (untouched c c' \/ last (trace c') = Some Rollback))) /\
  (forall pid, e <> HTTPException HTTP_400_BAD_REQUEST (detail_update_failed pid)).
Proof.
  intros _ E.
  apply create_order_cases in E
    as [[[f ?] Hu]|(cc & _ & _ & [(a & ? & _)|(e0 & c1 & E1 & E2)])]; [| done |].
  { simplify_eq. split; [do 4 right; eauto |]. intros pid Heq. by destruct f. }
  apply create_order_try_Raise_kind in E1.
  apply create_order_except_spec in E2
    as (_ & Ht2 & _ & _ & [[_ ?]|(f & ? & _)]); simplify_eq.
  2: { split; [| intros pid Heq; by destruct f].
       do 4 right. split; [eauto |]. right. by rewrite Ht2, last_snoc. }
  destruct E1 as [->|[(item & Hin & Hr)|[[m ->]|[m ->]]]].
  - split; [by left | done].
  - assert (exists s d, e0 = HTTPException s d) as (s & d & ->).
    { destruct Hr as [->|[->|(a & _ & ->)]]; eauto. }
    split; [right; left; eauto |].
    intros pid [= -> ->]. by apply update_failed_not_line_rejection in Hr.
  - split; [right; right; left; eauto | done].
  - split; [right; right; right; left; eauto | done].
Qed.

(** ** When a placement goes through *)

Lemma place_line_run oid ct tot item cm t0 n tr row t' :
  line_effect oid ct item t0 = Some (row, t') ->
  place_line oid ct tot item (mk_conn cm (Some t0) n [] tr) =
  (Ok (tot + subtotal row)%float, mk_conn cm (Some t') n [] (tr ++ line_stmts row)).
Proof.
  intros L. apply line_effect_row in L as (p & y & Hp & Hd & Hq & Hy & -> & ->).
  unfold place_line, place_line_on, decrement_stock_on. unfold_stmts. simpl.
  rewrite Hp. simpl. rewrite Hd.
  replace (stock p <? quantity item) with false by (symmetry; by apply Z.ltb_ge).
  rewrite Hy. simpl. rewrite Hp. simpl.
  replace (quantity item <=? stock p) with true by (symmetry; by apply Z.leb_le).
  simpl. rewrite Hd. unfold line_stmts. simpl. by rewrite <- !app_assoc.
Qed.

Lemma place_lines_run oid ct items : forall tot cm t0 n tr rows t',
  lines_effect oid ct items t0 = Some (rows, t') ->
  place_lines oid ct tot items (mk_conn cm (Some t0) n [] tr) =
  (Ok (fold_left (fun acc x => (acc + x)%float) (map subtotal rows) tot),
   mk_conn cm (Some t') n [] (tr ++ concat (map line_stmts rows))).
Proof.
  induction items as [|item rest IH]; intros tot cm t0 n tr rows t' L; simpl in L.
  - simplify_eq. simpl. by rewrite app_nil_r.
  - destruct (line_effect oid ct item t0) as [[row t1]|] eqn:L1; [| done].
    destruct (lines_effect oid ct rest t1) as [[rows1 t2]|] eqn:L2; [| done].
    simplify_eq. simpl.
    rewrite (bind_step _ _ _ _ _ (place_line_run oid ct tot item cm t0 n tr row t1 L1)).
    rewrite (IH _ _ _ _ _ _ _ L2). by rewrite <- app_assoc.
Qed.

Lemma requested_nonneg pid items :
  (forall item, item ∈ items -> 0 <= quantity item) -> 0 <= requested pid items.
Proof.
  induction items as [|item rest IH]; intros Hq; simpl; [done |].
  assert (0 <= quantity item) by (apply Hq, list_elem_of_here).
  assert (0 <= requested pid rest) by (apply IH; intros; by apply Hq, list_elem_of_further).
  case_decide; lia.
Qed.

Lemma lines_effect_covered oid ct items : forall t,
  (forall item, item ∈ items ->
     0 <= quantity item /\ is_Some (int_to_float (quantity item))) ->
  (forall pid, pid ∈ map product_id items ->
     exists p, products t !! pid = Some p /\ is_deleted p = false /\
       requested pid items <= stock p) ->
  is_Some (lines_effect oid ct items t).
Proof.
  induction items as [|item rest IH]; intros t Hq Hcov; simpl; [by eexists |].
  assert (forall it, it ∈ rest -> 0 <= quantity it) as Hnn
    by (intros it Hin; by apply Hq, list_elem_of_further).
  destruct (Hq item (list_elem_of_here _ _)) as [Hq0 [y Hy]].
  destruct (Hcov (product_id item) (list_elem_of_here _ _)) as (p & Hp & Hd & Hr).
  simpl in Hr. rewrite decide_True in Hr by done.
  pose proof (requested_nonneg (product_id item) rest Hnn) as Hrest.
  unfold line_effect. rewrite Hp, Hd.
  replace (stock p <? quantity item) with false by (symmetry; apply Z.ltb_ge; lia).
  rewrite Hy.
  match goal with
  | |- is_Some match lines_effect _ _ _ ?t1 with _ => _ end =>
      destruct (IH t1) as [[rows t2] ->]; [| | by eexists]
  end.
  - intros it Hin. by apply Hq, list_elem_of_further.
  - intros pid Hin. simpl.
    destruct (decide (product_id item = pid)) as [<-|Hne].
    + rewrite lookup_insert_eq. eexists. split; [done |]. simpl. split; [done | lia].
    + rewrite lookup_insert_ne by done.
      destruct (Hcov pid (list_elem_of_further _ _ _ Hin)) as (p' & Hp' & Hd' & Hr').
      simpl in Hr'. rewrite decide_False in Hr' by done. eauto.
Qed.

Lemma create_order_run od n1 n2 rnd c rows t1 :
  in_transaction c = None -> faults c = [] ->
  next_order_id c <> 0 -> orders (committed c) !! next_order_id c = None ->
  lines_effect (next_order_id c) (strftime_sql n2) (items od)
    (mk_tables (products (committed c))
       (<[next_order_id c :=
            mk_order (user_id od) (order_number n1 rnd) "pending" total_amount_default
              (strftime_sql n2) (strftime_sql n2)]> (orders (committed c)))
       (order_items (committed c))) = Some (rows, t1) ->
  exists c',
    create_order od n1 n2 rnd c = (Ok (next_order_id c, order_number n1 rnd), c').
Proof.
  destruct c as [cm w n fs tr]. simpl. intros -> -> Hn Hfresh L.
  unfold create_order, create_order_on, try_except, create_order_try_on.
  rewrite (bind_step _ _ _ _ _
             (eq_refl : cursor (mk_conn cm None n [] tr) = (Ok tt, mk_conn cm None n [] tr))).
  assert (open_order (user_id od) (order_number n1 rnd) (strftime_sql n2)
            (mk_conn cm None n [] tr) =
          (Ok n,
           mk_conn cm
             (Some (mk_tables (products cm)
                      (<[n := mk_order (user_id od) (order_number n1 rnd) "pending"
                                total_amount_default (strftime_sql n2) (strftime_sql n2)]>
                         (orders cm))
                      (order_items cm)))
             (n + 1) [] ((tr ++ [StartTransaction]) ++
                         [InsertOrder (user_id od) (order_number n1 rnd)
                            (strftime_sql n2) (strftime_sql n2)]))) as Hopen.
  { unfold open_order. unfold_stmts. simpl. rewrite Hfresh. simpl.
    by rewrite (proj2 (Z.eqb_neq n 0) Hn). }
  rewrite (bind_step _ _ _ _ _ Hopen).
  change (place_lines_on execute_update_stock) with place_lines.
  rewrite (bind_step _ _ _ _ _ (place_lines_run _ _ _ _ _ _ _ _ _ _ L)).
  unfold_stmts. simpl. destruct (orders t1 !! n); simpl; by eexists.
Qed.

(** X17.  A placement goes through whenever nothing stands in its way: on
    a fresh connection whose driver raises nothing and whose next order id
    is a new, non-zero one, a request succeeds if every quantity is
    positive and converts to a float, and every product it names is
    stored, not deleted, and has at least the total quantity the request
    asks of it.  It returns the next order id and the generated number. *)
Theorem X17_create_order_succeeds od n1 n2 rnd c :
  in_transaction c = None -> faults c = [] ->
  next_order_id c <> 0 -> orders (committed c) !! next_order_id c = None ->
  (forall item, item ∈ items od ->
     0 < quantity item /\ is_Some (int_to_float (quantity item))) ->
  (forall pid, pid ∈ map product_id (items od) ->
     exists p, products (committed c) !! pid = Some p /\ is_deleted p = false /\
       requested pid (items od) <= stock p) ->
  exists c',
    create_order od n1 n2 rnd c = (Ok (next_order_id c, order_number n1 rnd), c').
Proof.
  intros Hi Hf Hn Hfresh Hq0 Hcov.
  assert (forall item, item ∈ items od ->
            0 <= quantity item /\ is_Some (int_to_float (quantity item))) as Hq
    by (intros item Hin; destruct (Hq0 item Hin); split; [lia | done]).
  destruct (lines_effect_covered (next_order_id c) (strftime_sql n2) (items od)
              (mk_tables (products (committed c))
                 (<[next_order_id c :=
                      mk_order (user_id od) (order_number n1 rnd) "pending"
                        total_amount_default (strftime_sql n2) (strftime_sql n2)]>
                    (orders (committed c)))
                 (order_items (committed c))) Hq Hcov) as [[rows t1] L].
  by eapply create_order_run.
Qed.

End MoreVerification.

(** ** The endpoints run on the concrete shop *)

Lemma X1_witness :
  exists resp,
    (get_orders 1 2 (Shop.db [])).1 = Ok resp /\
    orders_page resp = 1 /\
    orders_total_items resp = Z.of_nat (size (orders (view (Shop.db [])))) /\
    Z.of_nat (length (orders_data resp)) <= 2 /\
    NoDup (resp_id <$> orders_data resp).
Proof.
  destruct (get_orders 1 2 (Shop.db [])) as [r c'] eqn:E.
  assert (exists resp, r = Ok resp) as [resp ->].
  { apply (f_equal fst) in E. vm_compute in E. rewrite <- E. by eexists. }
  exists resp. split; [done |].
  destruct (X1_get_orders_page 1 2 (Shop.db []) resp c' E) as (? & ? & ? & ? & _).
  done.
Defined.

Lemma X2_witness :
  concat ((fun p => orders_data (Shop.order_pages p)) <$> seq 0 2) ≡ₚ
    order_response <$> map_to_list (orders (view (Shop.db []))).
Proof.
  destruct (X2_get_orders_pages_cover 2 2 (Shop.db []) Shop.order_pages) as [_ Hall].
  - lia.
  - intros [|[|p]] Hp; [eexists; vm_compute; reflexivity.. | lia].
  - apply Hall. vm_compute. lia.
Defined.

Lemma X3_witness :
  exists resp,
    (get_products 1 2 (Shop.db [])).1 = Ok resp /\
    products_page resp = 1 /\
    Z.of_nat (length (products_data resp)) <= 2 /\
    forall x, x ∈ products_data resp ->
      exists p, products (view (Shop.db [])) !! presp_id x = Some p /\
        is_deleted p = false /\ x = product_response (presp_id x, p).
Proof.
  destruct (get_products 1 2 (Shop.db [])) as [r c'] eqn:E.
  assert (exists resp, r = Ok resp) as [resp ->].
  { apply (f_equal fst) in E. vm_compute in E. rewrite <- E. by eexists. }
  exists resp. split; [done |].
  destruct (X3_get_products_page 1 2 (Shop.db []) resp c' E) as (? & ? & ? & ? & ?).
  done.
Defined.

Lemma X4_witness :
  concat ((fun p => products_data (Shop.product_pages p)) <$> seq 0 1) ≡ₚ
    product_response <$>
      filter (fun row => is_deleted row.2 = false)
        (map_to_list (products (view (Shop.db [])))).
Proof.
  destruct (X4_get_products_pages_cover 2 1 (Shop.db []) Shop.product_pages) as [_ Hall].
  - lia.
  - intros [|p] Hp; [eexists; vm_compute; reflexivity | lia].
  - apply Hall. vm_compute. lia.
Defined.

Lemma X5_witness :
  untouched (Shop.db [Some (DriverError "gone away")])
    (get_orders 1 2 (Shop.db [Some (DriverError "gone away")])).2 /\
  untouched (Shop.db []) (get_order_details 2 (Shop.db [])).2 /\
  untouched (Shop.db []) (get_products 1 2 (Shop.db [])).2.
Proof.
  destruct X5_reads_never_write as (Ho & Hd & Hp). split_and?.
  - apply (Ho 1 2 _ (get_orders 1 2 (Shop.db [Some (DriverError "gone away")])).1).
    by destruct (get_orders _ _ _).
  - apply (Hd 2 _ (get_order_details 2 (Shop.db [])).1).
    by destruct (get_order_details _ _).
  - apply (Hp 1 2 _ (get_products 1 2 (Shop.db [])).1).
    by destruct (get_products _ _ _).
Defined.

Lemma X6_witness :
  (get_orders 0 0 (Shop.db [])).1 =
    Raise (HTTPException HTTP_400_BAD_REQUEST detail_limit) /\
  (get_orders 0 5 (Shop.db [])).1 =
    Raise (HTTPException HTTP_400_BAD_REQUEST detail_page) /\
  (get_orders 0 5 (Shop.db [])).2 = Shop.db [].
Proof.
  destruct (X6_get_orders_failures 0 0 (Shop.db [])
              (get_orders 0 0 (Shop.db [])).1 (get_orders 0 0 (Shop.db [])).2)
    as (Hl & _); [by destruct (get_orders _ _ _) |].
  destruct (X6_get_orders_failures 0 5 (Shop.db [])
              (get_orders 0 5 (Shop.db [])).1 (get_orders 0 5 (Shop.db [])).2)
    as (_ & Hp & Hc & _); [by destruct (get_orders _ _ _) |].
  split_and?; [apply Hl; lia | apply Hp; lia | apply Hc; lia].
Defined.

Lemma X7_witness :
  (get_order_details 2 (Shop.db [])).1 = Ok (order_response (2, Shop.o2)) /\
  (get_order_details 9 (Shop.db [])).1 =
    Raise (HTTPException HTTP_404_NOT_FOUND detail_order_missing).
Proof.
  split.
  - destruct (X7_get_order_details_found 2 (Shop.db [])
                (get_order_details 2 (Shop.db [])).1 (get_order_details 2 (Shop.db [])).2)
      as [Hok _].
    + apply calls_through_nil. reflexivity.
    + by destruct (get_order_details _ _).
    + apply Hok. exists Shop.o2. split; reflexivity.
  - destruct (X7_get_order_details_found 9 (Shop.db [])
                (get_order_details 9 (Shop.db [])).1 (get_order_details 9 (Shop.db [])).2)
      as [_ Hmiss].
    + apply calls_through_nil. reflexivity.
    + by destruct (get_order_details _ _).
    + apply Hmiss. reflexivity.
Defined.

Lemma X8_witness :
  exists o,
    orders (view (Shop.db [])) !! 1 = Some o /\
    orders (committed (update_order_status 1 "cancelled" Demo.now (Shop.db [])).2) =
      <[1 := mk_order (order_user_id o) (number o) "cancelled" (total_amount o)
               (created_at o) (strftime_sql Demo.now)]> (orders (view (Shop.db []))) /\
    products (committed (update_order_status 1 "cancelled" Demo.now (Shop.db [])).2) =
      products (view (Shop.db [])).
Proof.
  destruct (X8_update_order_status_effect 1 "cancelled" Demo.now (Shop.db [])
              (true, message_status_updated)
              (update_order_status 1 "cancelled" Demo.now (Shop.db [])).2)
    as (_ & _ & Hp & _ & o & Ho & Hs & _).
  - vm_compute. reflexivity.
  - exists o. done.
Defined.

Lemma X9_witness :
  (update_order_status 9 "shipped" Demo.now (Shop.db [])).1 =
    Raise (HTTPException HTTP_404_NOT_FOUND detail_status_unchanged) /\
  untouched (Shop.db []) (update_order_status 9 "shipped" Demo.now (Shop.db [])).2.
Proof.
  destruct (X9_update_order_status_404 9 "shipped" Demo.now (Shop.db [])
              (update_order_status 9 "shipped" Demo.now (Shop.db [])).1
              (update_order_status 9 "shipped" Demo.now (Shop.db [])).2)
    as [Hiff Hun].
  - apply calls_through_nil. reflexivity.
  - by destruct (update_order_status _ _ _ _).
  - assert ((update_order_status 9 "shipped" Demo.now (Shop.db [])).1 =
            Raise (HTTPException HTTP_404_NOT_FOUND detail_status_unchanged)) as E
      by (apply Hiff; left; reflexivity).
    split; [exact E | exact (Hun E)].
Defined.

Lemma X10_witness :
  committed
    (update_order_status 1 "shipped" Demo.now
       (Shop.db [None; Some (DriverError "lock wait timeout")])).2 = Shop.store /\
  committed
    (update_order_status 1 "shipped" Demo.now
       (Shop.db [Some (DriverError "connection not available")])).2 = Shop.store.
Proof.
  split.
  - destruct (X10_update_order_status_failure 1 "shipped" Demo.now
                (Shop.db [None; Some (DriverError "lock wait timeout")])
                (HTTPException HTTP_500_INTERNAL_SERVER_ERROR detail_status_failed)
                (update_order_status 1 "shipped" Demo.now
                   (Shop.db [None; Some (DriverError "lock wait timeout")])).2)
      as [Hc _].
    + vm_compute. reflexivity.
    + exact Hc.
  - destruct (X10_update_order_status_failure 1 "shipped" Demo.now
                (Shop.db [Some (DriverError "connection not available")])
                (Error "connection not available")
                (update_order_status 1 "shipped" Demo.now
                   (Shop.db [Some (DriverError "connection not available")])).2)
      as [Hc _].
    + vm_compute. reflexivity.
    + exact Hc.
Defined.

Lemma X11_witness :
  exists o c3,
    orders (view (Shop.db [])) !! 1 = Some o /\
    get_order_details 1 (update_order_status 1 "shipped" Demo.now (Shop.db [])).2 =
      (Ok (mk_order_response 1 (order_user_id o) (number o) "shipped"
             (total_amount o) (created_at o)), c3).
Proof.
  apply (X11_status_update_then_details 1 "shipped" Demo.now (Shop.db [])
           (true, message_status_updated)
           (update_order_status 1 "shipped" Demo.now (Shop.db [])).2).
  - vm_compute. reflexivity.
  - reflexivity.
  - vm_compute. reflexivity.
  - apply calls_through_nil. vm_compute. reflexivity.
Defined.

Lemma X12_witness :
  exists lines c3,
    order_items (committed (Demo.run Demo.one_line (Demo.db [])).2) =
      order_items (committed (Demo.db [])) ++ lines /\
    get_order_details 1 (Demo.run Demo.one_line (Demo.db [])).2 =
      (Ok (mk_order_response 1 7 (order_number Demo.now Demo.rnd) "pending"
             (float_sum (map subtotal lines)) (strftime_sql Demo.now)), c3).
Proof.
  apply (X12_placed_order_is_found Demo.one_line Demo.now Demo.now Demo.rnd (Demo.db [])
           1 (order_number Demo.now Demo.rnd) (Demo.run Demo.one_line (Demo.db [])).2).
  - vm_compute. reflexivity.
  - reflexivity.
  - vm_compute. reflexivity.
  - apply calls_through_nil. vm_compute. reflexivity.
Defined.

Lemma X13_witness :
  dispatch "GET" ("/api/orders/" +:+ "stats") =
    Endpoint ep_get_order_details [("order_id", "stats")].
Proof.
  destruct X13_stats_route_shadowed as (_ & Hshadow & _). by apply Hshadow.
Defined.

Lemma X14_witness :
  statuses_valid
    (committed (put_api_orders_status 1 "cancelled" Demo.now (Shop.db [])).2) /\
  statuses_valid
    (committed (post_api_orders Demo.one_line Demo.now Demo.now Demo.rnd (Shop.db [])).2).
Proof.
  destruct (X14_statuses_stay_valid (Shop.db [])) as [Hput Hpost].
  - intros id o Ho. change (orders (committed (Shop.db []))) with (orders Shop.store) in Ho.
    unfold Shop.store in Ho. simpl in Ho.
    repeat (apply lookup_insert_Some in Ho as [[_ <-]|[_ Ho]];
            [vm_compute; set_solver |]).
    by rewrite lookup_empty in Ho.
  - reflexivity.
  - split.
    + apply (Hput 1 "cancelled" Demo.now
               (put_api_orders_status 1 "cancelled" Demo.now (Shop.db [])).1).
      by destruct (put_api_orders_status _ _ _ _).
    + apply (Hpost Demo.one_line Demo.now Demo.now Demo.rnd
               (post_api_orders Demo.one_line Demo.now Demo.now Demo.rnd (Shop.db [])).1).
      by destruct (post_api_orders _ _ _ _ _).
Defined.

Lemma X15_witness :
  detail_not_found 12 <> detail_not_found 120 /\
  detail_deleted 3 <> detail_insufficient 3 0 1.
Proof.
  destruct X15_details_identify_failure as (Hnf & _ & _ & _ & Hkinds). split.
  - intros E. by apply Hnf in E.
  - by destruct (Hkinds 3 3 0 1) as (_ & _ & _ & ? & _).
Defined.

Lemma X16_witness :
  (Demo.run Demo.second_line_unknown (Demo.db [])).1 =
    Raise (HTTPException HTTP_404_NOT_FOUND (detail_not_found 9)) /\
  HTTPException HTTP_404_NOT_FOUND (detail_not_found 9) <>
  HTTPException HTTP_400_BAD_REQUEST (detail_update_failed 9).
Proof.
  split; [vm_compute; reflexivity |].
  destruct (X16_create_order_failure_kinds Demo.second_line_unknown Demo.now Demo.now
              Demo.rnd (Demo.db [])
              (HTTPException HTTP_404_NOT_FOUND (detail_not_found 9))
              (Demo.run Demo.second_line_unknown (Demo.db [])).2) as [_ Hne].
  - intros item Hin. simpl in Hin.
    repeat (apply elem_of_cons in Hin as [->|Hin]; [simpl; lia |]).
    by apply elem_of_nil in Hin.
  - vm_compute. reflexivity.
  - exact (Hne 9).
Defined.

Lemma X17_witness :
  exists c',
    create_order Demo.twice Demo.now Demo.now Demo.rnd (Demo.db []) =
      (Ok (1, order_number Demo.now Demo.rnd), c').
Proof.
  apply (X17_create_order_succeeds Demo.twice Demo.now Demo.now Demo.rnd (Demo.db [])).
  - reflexivity.
  - reflexivity.
  - done.
  - reflexivity.
  - intros item Hin. simpl in Hin.
    repeat (apply elem_of_cons in Hin as [->|Hin];
            [split; [simpl; lia | vm_compute; by eexists] |]).
    by apply elem_of_nil in Hin.
  - intros pid Hin. simpl in Hin.
    repeat (apply elem_of_cons in Hin as [->|Hin];
            [exists Demo.P; split_and?; [reflexivity | reflexivity | vm_compute; discriminate] |]).
    by apply elem_of_nil in Hin.
Defined.
